(** * LinkSocks local provider: a shallow embedding of [linksocks/provider.ts]

    The provider is an event-driven object: public methods and listener
    callbacks mutate the fields of one [LocalProvider] instance.  It is
    embedded as explicit state passing.  Every method and every listener of
    the source is a function [LocalProvider -> LocalProvider]; the Node
    runtime (WebSocket, net.Socket, dgram.Socket, timers, promises) is kept
    in the same record as far as the provider observes it, and what the
    runtime delivers is an [Event] consumed by [step].

    Console logging is not part of the state and is left out.  Calls that
    Node answers with an exception on a datagram socket that is not running
    ([close()], [send()]) are counted per socket ([closeCalls]) rather than
    raised; [registryOk] shows that no reachable provider makes one.

    The solver client [client.ts] builds such a provider and is embedded
    after it, in module [Solver]: its helpers as functions,
    [waitForResult] over the turns its loop takes, and [request] over what
    the network answers. *)

From Stdlib Require Import Ascii String ZArith.
From stdpp Require Import gmap strings list fin_maps pretty.

(** ** Runtime services the source imports

    [crypto.createHash("sha256")], [uuid.v4], the WHATWG [URL] parser, the
    constructor of [ws] and base64 encoding are library code; the provider
    only calls them.  [url_pathname] is [None] where [new URL(base)] throws.
    [websocket_error u] is the message of the error [new WebSocket(u)]
    throws, [None] where the constructor returns a socket. *)
Class Runtime := {
  sha256_hex : string → string;
  uuidv4 : nat → string;
  url_pathname : string → option string;
  websocket_error : string → option string;
  base64 : string → string;
}.

(** A concrete runtime used to evaluate the model on examples.  The
    pathname function covers [scheme://authority/path?query] without dot
    segments or escapes.  The constructor check covers addresses of scheme
    [ws:] and [wss:] that parse: [ws] refuses one when it has a fragment.
    Addresses of other schemes are outside the sample, which refuses them
    all; [ws] accepts some of them, depending on its version. *)
Fixpoint drop_through_authority (fuel : nat) (s : string) : option string :=
  match fuel with
  | O => None
  | S fuel' =>
      if String.prefix "://" s
      then Some (String.substring 3 (String.length s - 3) s)
      else match s with
           | EmptyString => None
           | String _ s' => drop_through_authority fuel' s'
           end
  end.

Fixpoint skip_authority (s : string) : string :=
  match s with
  | EmptyString => EmptyString
  | String c s' =>
      if (Ascii.eqb c "/"%char || Ascii.eqb c "?"%char || Ascii.eqb c "#"%char)%bool
      then s else skip_authority s'
  end.

Fixpoint take_path (s : string) : string :=
  match s with
  | EmptyString => EmptyString
  | String c s' =>
      if (Ascii.eqb c "?"%char || Ascii.eqb c "#"%char)%bool
      then EmptyString else String c (take_path s')
  end.

Definition sample_pathname (s : string) : option string :=
  match drop_through_authority (S (String.length s)) s with
  | None => None
  | Some rest =>
      match skip_authority rest with
      | EmptyString => if String.eqb rest "" then None else Some "/"%string
      | String c r =>
          if Ascii.eqb c "/"%char then Some (take_path (String c r)) else Some "/"%string
      end
  end.

(** What follows the first [#], the [hash] of the address without its
    [#]. *)
Fixpoint fragment (s : string) : string :=
  match s with
  | EmptyString => EmptyString
  | String c s' => if Ascii.eqb c "#"%char then s' else fragment s'
  end.

Definition sample_websocket_error (s : string) : option string :=
  if negb (String.prefix "ws://" s || String.prefix "wss://" s)
  then Some "The URL's protocol is not supported"%string
  else if negb (String.eqb (fragment s) "")
  then Some "The URL contains a fragment identifier"%string
  else None.

Definition sample_runtime : Runtime := {|
  sha256_hex := λ s, ("sha256:" +:+ s)%string;
  uuidv4 := λ n, ("uuid-" +:+ pretty n)%string;
  url_pathname := sample_pathname;
  websocket_error := sample_websocket_error;
  base64 := λ s, ("b64:" +:+ s)%string;
|}.

(** ** JavaScript string and byte helpers *)

(** [s.includes(sub)] *)
Fixpoint includes (sub s : string) : bool :=
  String.prefix sub s ||
  match s with
  | EmptyString => false
  | String _ s' => includes sub s'
  end.

(** [s.split(sep)[0]] for a non-empty separator *)
Fixpoint before_first (sep s : string) : string :=
  if String.prefix sep s then EmptyString
  else match s with
       | EmptyString => EmptyString
       | String c s' => String c (before_first sep s')
       end.

(** [s.slice(n)] *)
Definition slice (n : nat) (s : string) : string :=
  String.substring n (String.length s - n) s.

(** [s.replace(/\/$/, "")]: one trailing slash is removed. *)
Fixpoint strip_trailing_slash (s : string) : string :=
  match s with
  | EmptyString => EmptyString
  | String c EmptyString => if Ascii.eqb c "/"%char then EmptyString else s
  | String c s' => String c (strip_trailing_slash s')
  end.

(** Truthiness of a JavaScript string and of an optional one. *)
Definition truthy (s : string) : bool := negb (String.eqb s "").

Definition truthy_opt (o : option string) : bool :=
  match o with Some s => truthy s | None => false end.

Definition truthy_num (o : option Z) : bool :=
  match o with Some n => negb (n =? 0)%Z | None => false end.

(** [a || b] on strings *)
Definition or_else (o : option string) (d : string) : string :=
  match o with
  | Some s => if truthy s then s else d
  | None => d
  end.

(** Storing a number in a [Uint8Array] keeps it modulo 256. *)
Definition u8 (n : Z) : ascii := ascii_of_N (Z.to_N (n mod 256)%Z).

Definition bytes (l : list Z) : string :=
  foldr (λ n acc, String (u8 n) acc) EmptyString l.

(** [data[i]] on a buffer: [undefined] past the end. *)
Definition byte_at (i : nat) (data : string) : option Z :=
  match String.get i data with
  | Some c => Some (Z.of_N (N_of_ascii c))
  | None => None
  end.

(** [ToInt32], applied by [>>] and [&] to their operands; [undefined]
    becomes 0. *)
Definition to_int32 (o : option Z) : Z :=
  match o with
  | Some n => ((n + 2 ^ 31) mod 2 ^ 32 - 2 ^ 31)%Z
  | None => 0%Z
  end.

(** ["\r\n"] *)
Definition CRLF : string := String "013"%char (String "010"%char EmptyString).

(** Template-literal rendering of an optional number and of an optional
    string. *)
Definition show_number (o : option Z) : string :=
  match o with Some n => pretty n | None => "undefined"%string end.

Definition show_string (o : option string) : string :=
  default "undefined"%string o.

(** ** Configuration: [Required<ProviderOptions>] *)

Inductive ProxyType := socks5 | http.

Record ProviderOptions := {
  serverUrl : string;
  token : string;
  debug : bool;
  silent : bool;
  reconnectInterval : Z;
  maxReconnectAttempts : Z;
  connectTimeout : Z;
  upstreamProxy : string;
  upstreamProxyType : ProxyType;
  upstreamUsername : string;
  upstreamPassword : string;
}.

(** ** Frames *)

(** Modelled from the spec: the message module ([./message]) that declares
    the frame types is not among the sources.  The fields of a [Data] frame
    are those of the wire-schema table, under the names the provider reads
    and writes; [data_compression = false] is [DataCompression.None]. *)
Record DataFields := {
  data_protocol : string;
  data_channelId : string;
  data_payload : string;
  data_compression : bool;
  data_address : option string;
  data_port : option Z;
  data_targetAddr : option string;
  data_targetPort : option Z;
}.

(** Modelled from the spec: the ten frame kinds of the wire-schema table
    (the declaring module [./message] is not among the sources).
    [packMessage] and [parseMessage] are taken as inverse codecs, so a frame
    on the wire is the [Message] itself. *)
Inductive Message :=
| AuthMessage (tok : string)
| AuthResponseMessage (success : bool) (error : option string)
| ConnectMessage (protocol channelId : string) (address : option string) (port : option Z)
| ConnectResponseMessage (success : bool) (channelId : string) (error : option string)
| DataMessage (d : DataFields)
| DisconnectMessage (channelId : string)
| ConnectorMessage (channelId connectorToken operation : string)
| ConnectorResponseMessage (success : bool) (connectorToken : option string) (error : option string)
| LogMessage (level msg : string)
| PartnersMessage (count : Z).

(** ** The relay socket and the promise of one [connect()] call

    One record per call of [connect()]: the WebSocket it constructs, the
    promise it returns and the connect timer, which the listeners of that
    socket close over.  [url = None] records a call whose URL could not be
    built: the executor throws, the promise is rejected and no socket
    exists. *)
Inductive ReadyState := CONNECTING | OPEN | CLOSING | CLOSED.

Inductive PromiseState :=
| Pending
| Resolved
| Rejected (reason : string).

(** Who awaits the promise: the caller of the public method, or the timer
    callback of [attemptReconnect], whose continuation replays the tokens. *)
Inductive Awaiter := ByCaller | ByReconnect.

Inductive TimerState := Armed | Cleared | Fired.

Record Connection := {
  url : option string;
  readyState : ReadyState;
  promise : PromiseState;
  awaiter : Awaiter;
  timeout : TimerState;
}.

(** ** Channel sockets *)
Inductive SocketKind := NetSocket | DgramSocket.

(** [Opening]: created, not yet connected or bound.  [Live]: connected or
    bound.  [Destroyed]: [destroy()] or [close()] was called or an error
    occurred, the ['close'] event is still to come.  [Ended]: ['close'] was
    emitted. *)
Inductive SocketPhase := Opening | Live | Destroyed | Ended.

(** The listener currently attached to ['data']. *)
Inductive DataListener :=
| OriginalDataHandler
| Socks5ProxyHandler (handshakeState : nat)
| HttpProxyHandler (responseBuffer : string).

Record Socket := {
  kind : SocketKind;
  sock_channelId : string;
  sock_address : option string;
  sock_port : option Z;
  connectCallback : bool;
  phase : SocketPhase;
  listener : DataListener;
  written : list (string * option (string * Z));
  closeCalls : nat;
  destroyError : option string;
}.

Record TCPChannel := { tcp_socket : nat; tcp_channelId : string }.

Record UDPChannel := {
  udp_socket : nat;
  udp_channelId : string;
  clientAddr : option string;
  clientPort : option Z;
}.

(** ** The provider instance

    The first nine fields are the private fields of the class.  The others
    are the runtime objects it created: every connection, every channel
    socket, the pending reconnect timers, the number of UUIDs drawn, and the
    frames handed to [ws.send] with the connection they went to. *)
Record LocalProvider := {
  options : ProviderOptions;
  ws : option nat;
  instanceId : string;
  tcpChannels : gmap string TCPChannel;
  udpChannels : gmap string UDPChannel;
  reconnectAttempts : Z;
  isClosing : bool;
  partnersCount : Z;
  connectorTokens : list string;
  connections : list Connection;
  sockets : list Socket;
  reconnectTimers : nat;
  uuids : nat;
  wire : list (nat * Message);
}.

Definition set_ws (v : option nat) (s : LocalProvider) : LocalProvider :=
  {| options := options s; ws := v; instanceId := instanceId s;
     tcpChannels := tcpChannels s; udpChannels := udpChannels s;
     reconnectAttempts := reconnectAttempts s; isClosing := isClosing s;
     partnersCount := partnersCount s; connectorTokens := connectorTokens s;
     connections := connections s; sockets := sockets s;
     reconnectTimers := reconnectTimers s; uuids := uuids s; wire := wire s |}.

Definition set_tcpChannels (v : gmap string TCPChannel) (s : LocalProvider) : LocalProvider :=
  {| options := options s; ws := ws s; instanceId := instanceId s;
     tcpChannels := v; udpChannels := udpChannels s;
     reconnectAttempts := reconnectAttempts s; isClosing := isClosing s;
     partnersCount := partnersCount s; connectorTokens := connectorTokens s;
     connections := connections s; sockets := sockets s;
     reconnectTimers := reconnectTimers s; uuids := uuids s; wire := wire s |}.

Definition set_udpChannels (v : gmap string UDPChannel) (s : LocalProvider) : LocalProvider :=
  {| options := options s; ws := ws s; instanceId := instanceId s;
     tcpChannels := tcpChannels s; udpChannels := v;
     reconnectAttempts := reconnectAttempts s; isClosing := isClosing s;
     partnersCount := partnersCount s; connectorTokens := connectorTokens s;
     connections := connections s; sockets := sockets s;
     reconnectTimers := reconnectTimers s; uuids := uuids s; wire := wire s |}.

Definition set_reconnectAttempts (v : Z) (s : LocalProvider) : LocalProvider :=
  {| options := options s; ws := ws s; instanceId := instanceId s;
     tcpChannels := tcpChannels s; udpChannels := udpChannels s;
     reconnectAttempts := v; isClosing := isClosing s;
     partnersCount := partnersCount s; connectorTokens := connectorTokens s;
     connections := connections s; sockets := sockets s;
     reconnectTimers := reconnectTimers s; uuids := uuids s; wire := wire s |}.

Definition set_isClosing (v : bool) (s : LocalProvider) : LocalProvider :=
  {| options := options s; ws := ws s; instanceId := instanceId s;
     tcpChannels := tcpChannels s; udpChannels := udpChannels s;
     reconnectAttempts := reconnectAttempts s; isClosing := v;
     partnersCount := partnersCount s; connectorTokens := connectorTokens s;
     connections := connections s; sockets := sockets s;
     reconnectTimers := reconnectTimers s; uuids := uuids s; wire := wire s |}.

Definition set_partnersCount (v : Z) (s : LocalProvider) : LocalProvider :=
  {| options := options s; ws := ws s; instanceId := instanceId s;
     tcpChannels := tcpChannels s; udpChannels := udpChannels s;
     reconnectAttempts := reconnectAttempts s; isClosing := isClosing s;
     partnersCount := v; connectorTokens := connectorTokens s;
     connections := connections s; sockets := sockets s;
     reconnectTimers := reconnectTimers s; uuids := uuids s; wire := wire s |}.

Definition set_connectorTokens (v : list string) (s : LocalProvider) : LocalProvider :=
  {| options := options s; ws := ws s; instanceId := instanceId s;
     tcpChannels := tcpChannels s; udpChannels := udpChannels s;
     reconnectAttempts := reconnectAttempts s; isClosing := isClosing s;
     partnersCount := partnersCount s; connectorTokens := v;
     connections := connections s; sockets := sockets s;
     reconnectTimers := reconnectTimers s; uuids := uuids s; wire := wire s |}.

Definition set_connections (v : list Connection) (s : LocalProvider) : LocalProvider :=
  {| options := options s; ws := ws s; instanceId := instanceId s;
     tcpChannels := tcpChannels s; udpChannels := udpChannels s;
     reconnectAttempts := reconnectAttempts s; isClosing := isClosing s;
     partnersCount := partnersCount s; connectorTokens := connectorTokens s;
     connections := v; sockets := sockets s;
     reconnectTimers := reconnectTimers s; uuids := uuids s; wire := wire s |}.

Definition set_sockets (v : list Socket) (s : LocalProvider) : LocalProvider :=
  {| options := options s; ws := ws s; instanceId := instanceId s;
     tcpChannels := tcpChannels s; udpChannels := udpChannels s;
     reconnectAttempts := reconnectAttempts s; isClosing := isClosing s;
     partnersCount := partnersCount s; connectorTokens := connectorTokens s;
     connections := connections s; sockets := v;
     reconnectTimers := reconnectTimers s; uuids := uuids s; wire := wire s |}.

Definition set_reconnectTimers (v : nat) (s : LocalProvider) : LocalProvider :=
  {| options := options s; ws := ws s; instanceId := instanceId s;
     tcpChannels := tcpChannels s; udpChannels := udpChannels s;
     reconnectAttempts := reconnectAttempts s; isClosing := isClosing s;
     partnersCount := partnersCount s; connectorTokens := connectorTokens s;
     connections := connections s; sockets := sockets s;
     reconnectTimers := v; uuids := uuids s; wire := wire s |}.

Definition set_uuids (v : nat) (s : LocalProvider) : LocalProvider :=
  {| options := options s; ws := ws s; instanceId := instanceId s;
     tcpChannels := tcpChannels s; udpChannels := udpChannels s;
     reconnectAttempts := reconnectAttempts s; isClosing := isClosing s;
     partnersCount := partnersCount s; connectorTokens := connectorTokens s;
     connections := connections s; sockets := sockets s;
     reconnectTimers := reconnectTimers s; uuids := v; wire := wire s |}.

Definition set_wire (v : list (nat * Message)) (s : LocalProvider) : LocalProvider :=
  {| options := options s; ws := ws s; instanceId := instanceId s;
     tcpChannels := tcpChannels s; udpChannels := udpChannels s;
     reconnectAttempts := reconnectAttempts s; isClosing := isClosing s;
     partnersCount := partnersCount s; connectorTokens := connectorTokens s;
     connections := connections s; sockets := sockets s;
     reconnectTimers := reconnectTimers s; uuids := uuids s; wire := v |}.

(** ** URL derivation *)

(** [CloudflareSolver.normalizeWsUrl] (client.ts) *)
Definition normalizeWsUrl (u : string) : string :=
  if String.prefix "https://" u then ("wss://" +:+ slice 8 u)%string
  else if String.prefix "http://" u then ("ws://" +:+ slice 7 u)%string
  else u.

Section Provider.
Context `{Runtime}.

Definition sha256Sync (input : string) : string := sha256_hex input.

(** [buildWebSocketUrl]; [None] when [new URL(base)] throws. *)
Definition buildWebSocketUrl (o : ProviderOptions) : option string :=
  let base := strip_trailing_slash (serverUrl o) in
  let tokenHash := sha256Sync (token o) in
  match url_pathname base with
  | None => None
  | Some pathname =>
      let hasTunnelPath :=
        truthy pathname && negb (String.eqb pathname "/") && (1 <? String.length pathname)%nat in
      if hasTunnelPath then
        let separator := (if includes "?" base then "&" else "?")%string in
        Some (base +:+ separator +:+ "token=" +:+ tokenHash +:+ "&reverse=true")%string
      else
        Some (base +:+ "/socket?token=" +:+ tokenHash +:+ "&reverse=true")%string
  end.

(** ** Construction *)
Definition new_LocalProvider (o : ProviderOptions) : LocalProvider := {|
  options := o;
  ws := None;
  instanceId := uuidv4 0;
  tcpChannels := ∅;
  udpChannels := ∅;
  reconnectAttempts := 0;
  isClosing := false;
  partnersCount := 0;
  connectorTokens := [];
  connections := [];
  sockets := [];
  reconnectTimers := 0;
  uuids := 1;
  wire := [];
|}.

(** ** Runtime objects *)

(** [ws.close()] on connection [k]: a connecting or open socket starts
    closing; otherwise nothing happens. *)
Definition closing (c : Connection) : Connection :=
  match readyState c with
  | CONNECTING | OPEN =>
      {| url := url c; readyState := CLOSING; promise := promise c;
         awaiter := awaiter c; timeout := timeout c |}
  | _ => c
  end.

Definition ws_close (k : nat) (s : LocalProvider) : LocalProvider :=
  set_connections (alter closing k (connections s)) s.

Definition with_readyState (r : ReadyState) (c : Connection) : Connection :=
  {| url := url c; readyState := r; promise := promise c;
     awaiter := awaiter c; timeout := timeout c |}.

Definition with_promise (p : PromiseState) (c : Connection) : Connection :=
  {| url := url c; readyState := readyState c; promise := p;
     awaiter := awaiter c; timeout := timeout c |}.

Definition with_timeout (t : TimerState) (c : Connection) : Connection :=
  {| url := url c; readyState := readyState c; promise := promise c;
     awaiter := awaiter c; timeout := t |}.

(** [clearTimeout(timeout)] *)
Definition clear (c : Connection) : Connection :=
  match timeout c with
  | Armed => with_timeout Cleared c
  | _ => c
  end.

Definition clearTimeout (k : nat) (s : LocalProvider) : LocalProvider :=
  set_connections (alter clear k (connections s)) s.

(** [socket.destroy(err)] and, on a datagram socket, [socket.close()]. *)
Definition destroyed (err : option string) (x : Socket) : Socket :=
  match phase x with
  | Opening | Live =>
      {| kind := kind x; sock_channelId := sock_channelId x;
         sock_address := sock_address x; sock_port := sock_port x;
         connectCallback := connectCallback x; phase := Destroyed;
         listener := listener x; written := written x;
         closeCalls := S (closeCalls x); destroyError := err |}
  | _ =>
      {| kind := kind x; sock_channelId := sock_channelId x;
         sock_address := sock_address x; sock_port := sock_port x;
         connectCallback := connectCallback x; phase := phase x;
         listener := listener x; written := written x;
         closeCalls := S (closeCalls x); destroyError := destroyError x |}
  end.

Definition socket_destroy (sid : nat) (err : option string) (s : LocalProvider) : LocalProvider :=
  set_sockets (alter (destroyed err) sid (sockets s)) s.

Definition with_phase (p : SocketPhase) (x : Socket) : Socket :=
  {| kind := kind x; sock_channelId := sock_channelId x;
     sock_address := sock_address x; sock_port := sock_port x;
     connectCallback := connectCallback x; phase := p;
     listener := listener x; written := written x;
     closeCalls := closeCalls x; destroyError := destroyError x |}.

Definition with_listener (l : DataListener) (x : Socket) : Socket :=
  {| kind := kind x; sock_channelId := sock_channelId x;
     sock_address := sock_address x; sock_port := sock_port x;
     connectCallback := connectCallback x; phase := phase x;
     listener := l; written := written x;
     closeCalls := closeCalls x; destroyError := destroyError x |}.

Definition with_destroyError (e : option string) (x : Socket) : Socket :=
  {| kind := kind x; sock_channelId := sock_channelId x;
     sock_address := sock_address x; sock_port := sock_port x;
     connectCallback := connectCallback x; phase := phase x;
     listener := listener x; written := written x;
     closeCalls := closeCalls x; destroyError := e |}.

(** [socket.write(data)] and [socket.send(data, port, addr)]: nothing leaves
    a socket that was destroyed. *)
Definition wrote (data : string) (to : option (string * Z)) (x : Socket) : Socket :=
  match phase x with
  | Opening | Live =>
      {| kind := kind x; sock_channelId := sock_channelId x;
         sock_address := sock_address x; sock_port := sock_port x;
         connectCallback := connectCallback x; phase := phase x;
         listener := listener x; written := written x ++ [(data, to)];
         closeCalls := closeCalls x; destroyError := destroyError x |}
  | _ => x
  end.

Definition socket_write (sid : nat) (data : string) (to : option (string * Z))
    (s : LocalProvider) : LocalProvider :=
  set_sockets (alter (wrote data to) sid (sockets s)) s.

Definition set_listener (sid : nat) (l : DataListener) (s : LocalProvider) : LocalProvider :=
  set_sockets (alter (with_listener l) sid (sockets s)) s.

(** ** Sending *)

(** [send]: the frame goes out only over an open relay socket. *)
Definition send (m : Message) (s : LocalProvider) : LocalProvider :=
  match ws s with
  | Some k =>
      match connections s !! k with
      | Some c =>
          match readyState c with
          | OPEN => set_wire (wire s ++ [(k, m)]) s
          | _ => s
          end
      | None => s
      end
  | None => s
  end.

Definition sendConnectResponse (channelId : string) (success : bool)
    (error : option string) (s : LocalProvider) : LocalProvider :=
  send (ConnectResponseMessage success channelId error) s.

Definition sendData (channelId protocol data : string) (address : option string)
    (port : option Z) (s : LocalProvider) : LocalProvider :=
  send (DataMessage {| data_protocol := protocol; data_channelId := channelId;
                       data_payload := data; data_compression := false;
                       data_address := address; data_port := port;
                       data_targetAddr := None; data_targetPort := None |}) s.

Definition sendDisconnect (channelId : string) (s : LocalProvider) : LocalProvider :=
  send (DisconnectMessage channelId) s.

(** ** Connector tokens *)

(** [Set.prototype.add] and [delete] on an insertion-ordered set. *)
Definition set_add (t : string) (l : list string) : list string :=
  if bool_decide (t ∈ l) then l else l ++ [t].

Definition set_delete (t : string) (l : list string) : list string :=
  filter (λ x, x ≠ t) l.

Definition addConnectorToken (tok : option string) (s : LocalProvider) : LocalProvider :=
  let channelId := uuidv4 (uuids s) in
  let s := set_uuids (S (uuids s)) s in
  send (ConnectorMessage channelId (or_else tok "") "add") s.

Definition removeConnectorToken (tok : string) (s : LocalProvider) : LocalProvider :=
  let channelId := uuidv4 (uuids s) in
  let s := set_uuids (S (uuids s)) s in
  let s := send (ConnectorMessage channelId tok "remove") s in
  set_connectorTokens (set_delete tok (connectorTokens s)) s.

Definition getConnectorTokens (s : LocalProvider) : list string := connectorTokens s.

Definition getPartnersCount (s : LocalProvider) : Z := partnersCount s.

Definition isConnected (s : LocalProvider) : bool :=
  match ws s with
  | Some k =>
      match connections s !! k with
      | Some c => match readyState c with OPEN => true | _ => false end
      | None => false
      end
  | None => false
  end.

(** ** The promise of a [connect()] call

    Settling is effective once.  The continuation of the reconnect timer's
    [await this.connect()] re-registers every token held; its [catch] branch
    only logs. *)
Definition replayTokens (s : LocalProvider) : LocalProvider :=
  foldl (λ acc t, addConnectorToken (Some t) acc) s (connectorTokens s).

Definition resolve (k : nat) (s : LocalProvider) : LocalProvider :=
  match connections s !! k with
  | Some c =>
      match promise c with
      | Pending =>
          let s := set_connections (alter (with_promise Resolved) k (connections s)) s in
          match awaiter c with
          | ByReconnect => replayTokens s
          | ByCaller => s
          end
      | _ => s
      end
  | None => s
  end.

Definition reject (k : nat) (reason : string) (s : LocalProvider) : LocalProvider :=
  match connections s !! k with
  | Some c =>
      match promise c with
      | Pending => set_connections (alter (with_promise (Rejected reason)) k (connections s)) s
      | _ => s
      end
  | None => s
  end.

(** ** Channels *)

Definition new_socket (k : SocketKind) (channelId : string) (address : option string)
    (port : option Z) : Socket :=
  {| kind := k; sock_channelId := channelId; sock_address := address;
     sock_port := port; connectCallback := false; phase := Opening;
     listener := OriginalDataHandler; written := []; closeCalls := 0;
     destroyError := None |}.

Definition with_connectCallback (l : DataListener) (x : Socket) : Socket :=
  {| kind := kind x; sock_channelId := sock_channelId x;
     sock_address := sock_address x; sock_port := sock_port x;
     connectCallback := true; phase := phase x;
     listener := l; written := written x;
     closeCalls := closeCalls x; destroyError := destroyError x |}.

(** [connectViaProxy]: the socket connects to the proxy with a connect
    callback, and the proxy handler replaces the ['data'] listener.  The host
    and port split from [upstreamProxy] go to [socket.connect] and are not
    read again. *)
Definition connectViaProxy (sid : nat) (s : LocalProvider) : LocalProvider :=
  match upstreamProxyType (options s) with
  | socks5 =>
      set_sockets (alter (with_connectCallback (Socks5ProxyHandler 0)) sid (sockets s)) s
  | http =>
      set_sockets (alter (with_connectCallback (HttpProxyHandler "")) sid (sockets s)) s
  end.

Definition handleTCPConnect (channelId : string) (address : option string)
    (port : option Z) (s : LocalProvider) : LocalProvider :=
  let sid := length (sockets s) in
  let s := set_sockets (sockets s ++ [new_socket NetSocket channelId address port]) s in
  if truthy (upstreamProxy (options s))
  then connectViaProxy sid s
  else s.

Definition handleUDPConnect (channelId : string) (s : LocalProvider) : LocalProvider :=
  set_sockets (sockets s ++ [new_socket DgramSocket channelId None None]) s.

(** [handleConnect].  The assertions [address!] and [port!] check nothing: an
    absent field reaches [handleTCPConnect] as [undefined]. *)
Definition handleConnect (protocol channelId : string) (address : option string)
    (port : option Z) (s : LocalProvider) : LocalProvider :=
  if String.eqb protocol "tcp" then handleTCPConnect channelId address port s
  else if String.eqb protocol "udp" then handleUDPConnect channelId s
  else s.

Definition sendSocks5ConnectRequest (sid : nat) (address : option string) (port : option Z)
    (s : LocalProvider) : LocalProvider :=
  let addressBytes := default ""%string address in
  let packet :=
    (bytes [5; 1; 0; 3; Z.of_nat (String.length addressBytes)]%Z +:+ addressBytes +:+
     bytes [Z.land (Z.shiftr (to_int32 port) 8) 255; Z.land (to_int32 port) 255])%string in
  socket_write sid packet None s.

Definition register_tcp (channelId : string) (sid : nat) (s : LocalProvider) : LocalProvider :=
  set_tcpChannels
    (<[channelId := {| tcp_socket := sid; tcp_channelId := channelId |}]> (tcpChannels s)) s.

(** The SOCKS5 [proxyHandler] closure, in handshake state [hs]. *)
Definition socks5ProxyHandler (sid : nat) (x : Socket) (hs : nat) (data : string)
    (s : LocalProvider) : LocalProvider :=
  let o := options s in
  match hs with
  | 0%nat =>
      if negb (bool_decide (byte_at 0 data = Some 5%Z)) then
        socket_destroy sid (Some "Invalid SOCKS5 response"%string) s
      else if bool_decide (byte_at 1 data = Some 2%Z) && truthy (upstreamUsername o) then
        let authPacket :=
          (bytes [1; Z.of_nat (String.length (upstreamUsername o))]%Z +:+ upstreamUsername o +:+
           bytes [Z.of_nat (String.length (upstreamPassword o))] +:+ upstreamPassword o)%string in
        set_listener sid (Socks5ProxyHandler 1) (socket_write sid authPacket None s)
      else if bool_decide (byte_at 1 data = Some 0%Z) then
        set_listener sid (Socks5ProxyHandler 2)
          (sendSocks5ConnectRequest sid (sock_address x) (sock_port x) s)
      else
        socket_destroy sid (Some "SOCKS5 auth method not supported"%string) s
  | 1%nat =>
      if negb (bool_decide (byte_at 1 data = Some 0%Z)) then
        socket_destroy sid (Some "SOCKS5 authentication failed"%string) s
      else
        set_listener sid (Socks5ProxyHandler 2)
          (sendSocks5ConnectRequest sid (sock_address x) (sock_port x) s)
  | 2%nat =>
      if negb (bool_decide (byte_at 0 data = Some 5%Z)) ||
         negb (bool_decide (byte_at 1 data = Some 0%Z)) then
        socket_destroy sid
          (Some ("SOCKS5 connect failed: " +:+ show_number (byte_at 1 data))%string) s
      else
        sendConnectResponse (sock_channelId x) true None
          (register_tcp (sock_channelId x) sid (set_listener sid OriginalDataHandler s))
  | _ => s
  end.

(** The HTTP CONNECT [proxyHandler] closure, with [responseBuffer = buf]. *)
Definition httpProxyHandler (sid : nat) (x : Socket) (buf data : string)
    (s : LocalProvider) : LocalProvider :=
  let responseBuffer := (buf +:+ data)%string in
  let s := set_listener sid (HttpProxyHandler responseBuffer) s in
  if includes (CRLF +:+ CRLF) responseBuffer then
    let statusLine := before_first CRLF responseBuffer in
    if includes "200" statusLine then
      sendConnectResponse (sock_channelId x) true None
        (register_tcp (sock_channelId x) sid (set_listener sid OriginalDataHandler s))
    else
      socket_destroy sid (Some ("HTTP proxy connect failed: " +:+ statusLine)%string) s
  else s.

(** *** Listeners of a TCP channel socket ([handleTCPConnect]) *)

(** ['connect']: the listener registers the channel and reports success;
    then the connect callback of [connectViaProxy], if one was given, opens
    the proxy handshake. *)
Definition tcp_on_connect (sid : nat) (x : Socket) (s : LocalProvider) : LocalProvider :=
  let o := options s in
  let s := register_tcp (sock_channelId x) sid s in
  let s := sendConnectResponse (sock_channelId x) true None s in
  if connectCallback x then
    match upstreamProxyType o with
    | socks5 =>
        let authMethods := (if truthy (upstreamUsername o) then [0; 2] else [0])%Z in
        socket_write sid (bytes (5 :: Z.of_nat (length authMethods) :: authMethods)%Z) None s
    | http =>
        let target :=
          (show_string (sock_address x) +:+ ":" +:+ show_number (sock_port x))%string in
        let connectRequest :=
          ("CONNECT " +:+ target +:+ " HTTP/1.1" +:+ CRLF +:+ "Host: " +:+ target +:+ CRLF)%string in
        let connectRequest :=
          if truthy (upstreamUsername o) then
            (connectRequest +:+ "Proxy-Authorization: Basic " +:+
             base64 (upstreamUsername o +:+ ":" +:+ upstreamPassword o) +:+ CRLF)%string
          else connectRequest in
        socket_write sid (connectRequest +:+ CRLF)%string None s
    end
  else s.

Definition tcp_on_data (sid : nat) (x : Socket) (data : string) (s : LocalProvider) : LocalProvider :=
  match listener x with
  | OriginalDataHandler => sendData (sock_channelId x) "tcp" data None None s
  | Socks5ProxyHandler hs => socks5ProxyHandler sid x hs data s
  | HttpProxyHandler buf => httpProxyHandler sid x buf data s
  end.

Definition tcp_on_close (x : Socket) (s : LocalProvider) : LocalProvider :=
  sendDisconnect (sock_channelId x)
    (set_tcpChannels (delete (sock_channelId x) (tcpChannels s)) s).

Definition tcp_on_error (x : Socket) (message : string) (s : LocalProvider) : LocalProvider :=
  sendConnectResponse (sock_channelId x) false (Some message)
    (set_tcpChannels (delete (sock_channelId x) (tcpChannels s)) s).

(** *** Listeners of a UDP channel socket ([handleUDPConnect]) *)

Definition udp_on_message (x : Socket) (data address : string) (port : Z)
    (s : LocalProvider) : LocalProvider :=
  sendData (sock_channelId x) "udp" data (Some address) (Some port) s.

Definition udp_on_error (x : Socket) (s : LocalProvider) : LocalProvider :=
  set_udpChannels (delete (sock_channelId x) (udpChannels s)) s.

Definition udp_on_close (x : Socket) (s : LocalProvider) : LocalProvider :=
  set_udpChannels (delete (sock_channelId x) (udpChannels s)) s.

(** The [bind] callback. *)
Definition udp_on_listening (sid : nat) (x : Socket) (s : LocalProvider) : LocalProvider :=
  sendConnectResponse (sock_channelId x) true None
    (set_udpChannels
       (<[sock_channelId x := {| udp_socket := sid; udp_channelId := sock_channelId x;
                                 clientAddr := None; clientPort := None |}]> (udpChannels s)) s).

(** ** Frames from the relay *)

Definition handleData (d : DataFields) (s : LocalProvider) : LocalProvider :=
  if String.eqb (data_protocol d) "tcp" then
    match tcpChannels s !! data_channelId d with
    | Some channel => socket_write (tcp_socket channel) (data_payload d) None s
    | None => s
    end
  else if String.eqb (data_protocol d) "udp" then
    match udpChannels s !! data_channelId d, data_targetAddr d, data_targetPort d with
    | Some channel, Some targetAddr, Some targetPort =>
        if truthy targetAddr && negb (targetPort =? 0)%Z then
          let s := socket_write (udp_socket channel) (data_payload d)
                     (Some (targetAddr, targetPort)) s in
          if truthy_opt (data_address d) && truthy_num (data_port d) then
            set_udpChannels
              (<[data_channelId d := {| udp_socket := udp_socket channel;
                                        udp_channelId := udp_channelId channel;
                                        clientAddr := data_address d;
                                        clientPort := data_port d |}]> (udpChannels s)) s
          else s
        else s
    | _, _, _ => s
    end
  else s.

Definition handleDisconnectMessage (channelId : string) (s : LocalProvider) : LocalProvider :=
  let s :=
    match tcpChannels s !! channelId with
    | Some tcpChannel =>
        set_tcpChannels (delete channelId (tcpChannels s))
          (socket_destroy (tcp_socket tcpChannel) None s)
    | None => s
    end in
  match udpChannels s !! channelId with
  | Some udpChannel =>
      set_udpChannels (delete channelId (udpChannels s))
        (socket_destroy (udp_socket udpChannel) None s)
  | None => s
  end.

Definition handleConnectorResponse (success : bool) (connectorToken : option string)
    (s : LocalProvider) : LocalProvider :=
  match connectorToken with
  | Some t =>
      if success && truthy t
      then set_connectorTokens (set_add t (connectorTokens s)) s
      else s
  | None => s
  end.

Definition handlePartners (count : Z) (s : LocalProvider) : LocalProvider :=
  set_partnersCount count s.

(** [handleAuthResponse], with the [resolve], [reject] and [timeout] of
    connection [k]. *)
Definition handleAuthResponse (success : bool) (error : option string) (k : nat)
    (s : LocalProvider) : LocalProvider :=
  let s := clearTimeout k s in
  if success then resolve k s
  else reject k ("Authentication failed: " +:+ or_else error "Unknown error")%string s.

(** [handleMessage], with the [resolve], [reject] and [timeout] of
    connection [k]; the [default] branch only logs. *)
Definition handleMessage (m : Message) (k : nat) (s : LocalProvider) : LocalProvider :=
  match m with
  | AuthResponseMessage success error => handleAuthResponse success error k s
  | ConnectMessage protocol channelId address port =>
      handleConnect protocol channelId address port s
  | DataMessage d => handleData d s
  | DisconnectMessage channelId => handleDisconnectMessage channelId s
  | ConnectorResponseMessage success connectorToken _ =>
      handleConnectorResponse success connectorToken s
  | LogMessage _ _ => s
  | PartnersMessage count => handlePartners count s
  | AuthMessage _ | ConnectResponseMessage _ _ _ | ConnectorMessage _ _ _ => s
  end.

(** ** Disconnection, reconnection, shutdown *)

Definition destroyAll (sids : list nat) (s : LocalProvider) : LocalProvider :=
  foldr (λ sid acc, socket_destroy sid None acc) s sids.

(** The two loops shared by [handleDisconnect] and [close]. *)
Definition cleanupChannels (s : LocalProvider) : LocalProvider :=
  let s := destroyAll (tcp_socket <$> (map_to_list (tcpChannels s)).*2) s in
  let s := set_tcpChannels ∅ s in
  let s := destroyAll (udp_socket <$> (map_to_list (udpChannels s)).*2) s in
  set_udpChannels ∅ s.

Definition attemptReconnect (s : LocalProvider) : LocalProvider :=
  if (0 <? maxReconnectAttempts (options s))%Z &&
     (maxReconnectAttempts (options s) <=? reconnectAttempts s)%Z
  then s
  else set_reconnectTimers (S (reconnectTimers s))
         (set_reconnectAttempts (reconnectAttempts s + 1)%Z s).

Definition handleDisconnect (s : LocalProvider) : LocalProvider :=
  let s := cleanupChannels s in
  if negb (isClosing s) then attemptReconnect s else s.

(** An exception thrown in the executor of the promise of [connect()]
    rejects the promise: [this.ws] is still the socket [connect()] called
    [close()] on, no socket is created and no timer is armed.  The promise
    is kept in a connection record that stands for no socket. *)
Definition thrown (aw : Awaiter) (message : string) (s : LocalProvider) : LocalProvider :=
  set_connections
    (connections s ++
       [{| url := None; readyState := CLOSED; promise := Rejected message;
           awaiter := aw; timeout := Cleared |}]) s.

(** [connect()], awaited by [aw].  [buildWebSocketUrl] throws where
    [new URL(base)] does, and [new WebSocket(url)] where [ws] refuses the
    address. *)
Definition connect (aw : Awaiter) (s : LocalProvider) : LocalProvider :=
  let s := match ws s with Some k => ws_close k s | None => s end in
  match buildWebSocketUrl (options s) with
  | Some u =>
      match websocket_error u with
      | None =>
          let k := length (connections s) in
          set_ws (Some k)
            (set_connections
               (connections s ++
                  [{| url := Some u; readyState := CONNECTING; promise := Pending;
                      awaiter := aw; timeout := Armed |}]) s)
      | Some message => thrown aw message s
      end
  | None => thrown aw "Invalid URL" s
  end.

Definition close (s : LocalProvider) : LocalProvider :=
  let s := set_isClosing true s in
  let s := cleanupChannels s in
  match ws s with
  | Some k => set_ws None (ws_close k s)
  | None => s
  end.

(** *** Listeners of connection [k] ([connect]) *)

Definition ws_on_timeout (k : nat) (s : LocalProvider) : LocalProvider :=
  let s := match ws s with Some j => ws_close j s | None => s end in
  reject k "Connection timeout" s.

Definition ws_on_open (s : LocalProvider) : LocalProvider :=
  set_reconnectAttempts 0 s.

(** [raw = None] is a buffer [parseMessage] throws on; the [catch] logs. *)
Definition ws_on_message (k : nat) (raw : option Message) (s : LocalProvider) : LocalProvider :=
  match raw with
  | Some m => handleMessage m k s
  | None => s
  end.

Definition ws_on_close (k : nat) (s : LocalProvider) : LocalProvider :=
  handleDisconnect (clearTimeout k s).

Definition ws_on_error (k : nat) (err : string) (s : LocalProvider) : LocalProvider :=
  reject k err (clearTimeout k s).

(** ** Events

    What reaches the provider: calls of its public methods, and the events
    the runtime emits on the objects the provider created.  An event the
    runtime cannot emit in the current state of its object (a message on a
    closed socket, a timer that was cleared) leaves the provider as it is.
    The order in which the runtime emits them is not fixed here: the
    statements below quantify over event lists, or name the events they
    are about. *)
Inductive Event :=
| CallConnect
| CallClose
| CallAddConnectorToken (tok : option string)
| CallRemoveConnectorToken (tok : string)
| WsOpen (k : nat)
| WsMessage (k : nat) (raw : option Message)
| WsError (k : nat) (err : string)
| WsClose (k : nat)
| ConnectTimeout (k : nat)
| ReconnectTimer
| TcpConnect (sid : nat)
| TcpData (sid : nat) (data : string)
| TcpError (sid : nat) (err : string)
| TcpClose (sid : nat)
| UdpListening (sid : nat)
| UdpMessage (sid : nat) (data address : string) (port : Z)
| UdpError (sid : nat) (err : string)
| UdpClose (sid : nat).

Definition set_readyState (k : nat) (r : ReadyState) (s : LocalProvider) : LocalProvider :=
  set_connections (alter (with_readyState r) k (connections s)) s.

Definition set_phase (sid : nat) (p : SocketPhase) (s : LocalProvider) : LocalProvider :=
  set_sockets (alter (with_phase p) sid (sockets s)) s.

Definition connection_event (k : nat) (e : Event) (c : Connection)
    (s : LocalProvider) : LocalProvider :=
  match e, readyState c with
  | WsOpen _, CONNECTING => ws_on_open (set_readyState k OPEN s)
  | WsMessage _ raw, (OPEN | CLOSING) => ws_on_message k raw s
  | WsError _ err, (CONNECTING | OPEN | CLOSING) => ws_on_error k err (set_readyState k CLOSING s)
  | WsClose _, (CONNECTING | OPEN | CLOSING) => ws_on_close k (set_readyState k CLOSED s)
  | _, _ => s
  end.

Definition tcp_event (sid : nat) (e : Event) (x : Socket) (s : LocalProvider) : LocalProvider :=
  match e, phase x, destroyError x with
  | TcpConnect _, Opening, _ => tcp_on_connect sid x (set_phase sid Live s)
  | TcpData _ data, Live, _ => tcp_on_data sid x data s
  | TcpError _ err, (Opening | Live), _ => tcp_on_error x err (set_phase sid Destroyed s)
  | TcpError _ _, Destroyed, Some message =>
      tcp_on_error x message (set_sockets (alter (with_destroyError None) sid (sockets s)) s)
  | TcpClose _, (Live | Destroyed), None => tcp_on_close x (set_phase sid Ended s)
  | _, _, _ => s
  end.

Definition udp_event (sid : nat) (e : Event) (x : Socket) (s : LocalProvider) : LocalProvider :=
  match e, phase x with
  | UdpListening _, Opening => udp_on_listening sid x (set_phase sid Live s)
  | UdpMessage _ data address port, Live => udp_on_message x data address port s
  | UdpError _ _, (Opening | Live) => udp_on_error x s
  | UdpClose _, Destroyed => udp_on_close x (set_phase sid Ended s)
  | _, _ => s
  end.

Definition step (s : LocalProvider) (e : Event) : LocalProvider :=
  match e with
  | CallConnect => connect ByCaller s
  | CallClose => close s
  | CallAddConnectorToken tok => addConnectorToken tok s
  | CallRemoveConnectorToken tok => removeConnectorToken tok s
  | WsOpen k | WsMessage k _ | WsError k _ | WsClose k =>
      match connections s !! k with
      | Some c => connection_event k e c s
      | None => s
      end
  | ConnectTimeout k =>
      match connections s !! k with
      | Some c =>
          match timeout c with
          | Armed =>
              ws_on_timeout k (set_connections (alter (with_timeout Fired) k (connections s)) s)
          | _ => s
          end
      | None => s
      end
  | ReconnectTimer =>
      match reconnectTimers s with
      | S n => connect ByReconnect (set_reconnectTimers n s)
      | O => s
      end
  | TcpConnect sid | TcpData sid _ | TcpError sid _ | TcpClose sid =>
      match sockets s !! sid with
      | Some x => match kind x with NetSocket => tcp_event sid e x s | DgramSocket => s end
      | None => s
      end
  | UdpListening sid | UdpMessage sid _ _ _ | UdpError sid _ | UdpClose sid =>
      match sockets s !! sid with
      | Some x => match kind x with DgramSocket => udp_event sid e x s | NetSocket => s end
      | None => s
      end
  end.

Definition run (s : LocalProvider) (es : list Event) : LocalProvider :=
  foldl step s es.

(** ** Views and predicates used in the statements *)

(** What [send m] appends to the wire in state [s]. *)
Definition outgoing (m : Message) (s : LocalProvider) : list (nat * Message) :=
  match ws s with
  | Some k => if isConnected s then [(k, m)] else []
  | None => []
  end.

(** Everything [addConnectorToken] cannot touch. *)
Definition session (s : LocalProvider) :=
  (options s, ws s, instanceId s, tcpChannels s, udpChannels s, reconnectAttempts s,
   isClosing s, partnersCount s, connectorTokens s, connections s, sockets s,
   reconnectTimers s).

(** The frames of a token replay started in state [s]. *)
Definition replayFrames (s : LocalProvider) (ts : list string) : list (nat * Message) :=
  match ws s with
  | Some k =>
      if isConnected s
      then imap (λ i t, (k, ConnectorMessage (uuidv4 (uuids s + i)) t "add")) ts
      else []
  | None => []
  end.

(** The relay side of the provider: configuration, relay socket, reconnect
    counter, shutdown flag, connections and pending reconnect timers. *)
Definition relayView (s : LocalProvider) :=
  (options s, ws s, reconnectAttempts s, isClosing s, connections s, reconnectTimers s).

(** Events that concern channels only: channel-socket events, the two token
    methods and every relay frame but [AuthResponse]. *)
Definition channelEvent (e : Event) : bool :=
  match e with
  | WsMessage _ (Some (AuthResponseMessage _ _)) => false
  | WsMessage _ _ => true
  | CallAddConnectorToken _ | CallRemoveConnectorToken _ => true
  | TcpConnect _ | TcpData _ _ | TcpError _ _ | TcpClose _ => true
  | UdpListening _ | UdpMessage _ _ _ _ | UdpError _ _ | UdpClose _ => true
  | _ => false
  end.

(** Every field but [sockets], and every field but the sockets and the two
    registries. *)
Definition outsideSockets (s : LocalProvider) :=
  (options s, ws s, instanceId s, tcpChannels s, udpChannels s, reconnectAttempts s,
   isClosing s, partnersCount s, connectorTokens s, connections s, reconnectTimers s,
   uuids s, wire s).

Definition outsideChannels (s : LocalProvider) :=
  (options s, ws s, instanceId s, reconnectAttempts s, isClosing s, partnersCount s,
   connectorTokens s, connections s, reconnectTimers s, uuids s, wire s).

(** The sockets of the registered channels, TCP first. *)
Definition registeredSockets (s : LocalProvider) : list nat :=
  (tcp_socket <$> (map_to_list (tcpChannels s)).*2) ++
  (udp_socket <$> (map_to_list (udpChannels s)).*2).

(** The tokens of the [Connector] frames with operation [add] in a list of
    frames, in order. *)
Definition addedToken (f : nat * Message) : option string :=
  match f.2 with
  | ConnectorMessage _ t op => if String.eqb op "add" then Some t else None
  | _ => None
  end.

Definition addedTokens (l : list (nat * Message)) : list string := omap addedToken l.

(** How many times [t] occurs in [l]. *)
Definition occurrences (t : string) (l : list string) : nat :=
  length (filter (λ x, x = t) l).

(** Connection [k] is the relay socket, open, and the reconnect timer's
    [connect()] is still waiting for its [AuthResponse]. *)
Definition awaitingAuth (k : nat) (s : LocalProvider) : Prop :=
  ws s = Some k ∧ reconnectAttempts s = 0%Z ∧
  ∃ c, connections s !! k = Some c ∧ readyState c = OPEN ∧ promise c = Pending ∧
       awaiter c = ByReconnect.

(** The connection a [connect()] call awaited by [aw] creates for URL [u]. *)
Definition freshConnection (u : string) (aw : Awaiter) : Connection :=
  {| url := Some u; readyState := CONNECTING; promise := Pending;
     awaiter := aw; timeout := Armed |}.

(** [Auth] frames, and lists of sent frames without one. *)
Definition isAuth (m : Message) : bool :=
  match m with AuthMessage _ => true | _ => false end.

Definition noAuth (l : list (nat * Message)) : Prop :=
  Forall (λ f, isAuth f.2 = false) l.

(** [attemptReconnect] refuses: a positive maximum is reached. *)
Definition exhausted (s : LocalProvider) : Prop :=
  (0 < maxReconnectAttempts (options s))%Z ∧
  (maxReconnectAttempts (options s) ≤ reconnectAttempts s)%Z.

(** Socket [sid] is in neither registry; it is leaked when it is also
    connected and [destroy()] was never called on it. *)
Definition unregistered (sid : nat) (s : LocalProvider) : Prop :=
  map_Forall (λ _ ch, tcp_socket ch ≠ sid) (tcpChannels s) ∧
  map_Forall (λ _ ch, udp_socket ch ≠ sid) (udpChannels s).

Definition leaked (sid : nat) (s : LocalProvider) : Prop :=
  ∃ x, sockets s !! sid = Some x ∧ phase x = Live ∧ closeCalls x = 0%nat ∧
       unregistered sid s.

(** What a registry entry must satisfy with respect to the sockets. *)
Definition goodTcp (socks : list Socket) (c : string) (ch : TCPChannel) : Prop :=
  ∃ x, socks !! tcp_socket ch = Some x ∧ kind x = NetSocket ∧ sock_channelId x = c.

Definition goodUdp (socks : list Socket) (c : string) (ch : UDPChannel) : Prop :=
  ∃ x, socks !! udp_socket ch = Some x ∧ kind x = DgramSocket ∧ sock_channelId x = c ∧
       phase x = Live.

(** Every registered channel sits under the identifier its socket was
    created for, on a socket of its own kind, and a registered datagram
    socket is running. *)
Definition registryOk (s : LocalProvider) : Prop :=
  map_Forall (goodTcp (sockets s)) (tcpChannels s) ∧
  map_Forall (goodUdp (sockets s)) (udpChannels s).

(** A change of a connection record that keeps its promise or rejects it. *)
Definition settles (c c' : Connection) : Prop :=
  promise c' = promise c ∨ ∃ r, promise c' = Rejected r.

(** Changes of a socket record that keep its kind and identifier, and that
    keep a running socket running. *)
Definition idPreserving (f : Socket → Socket) : Prop :=
  ∀ x, kind (f x) = kind x ∧ sock_channelId (f x) = sock_channelId x.

Definition livePreserving (f : Socket → Socket) : Prop :=
  ∀ x, phase x = Live → phase (f x) = Live.

(** ** Predicates of the further properties *)

(** A relay socket that is connecting or open. *)
Definition liveConnection (c : Connection) : Prop :=
  readyState c = CONNECTING ∨ readyState c = OPEN.

(** Among the relay sockets [l], only the one [w] refers to may be
    connecting or open. *)
Definition uniqueIn (w : option nat) (l : list Connection) : Prop :=
  ∀ k c, l !! k = Some c → liveConnection c → w = Some k.

Definition relayUnique (s : LocalProvider) : Prop :=
  uniqueIn (ws s) (connections s).

(** A change of a connection record that opens nothing. *)
Definition noRevive (f : Connection → Connection) : Prop :=
  ∀ c, liveConnection (f c) → liveConnection c.

(** The reconnect counter is within its bounds. *)
Definition attemptsBounded (s : LocalProvider) : Prop :=
  (0 ≤ reconnectAttempts s)%Z ∧
  ((0 < maxReconnectAttempts (options s))%Z →
   (reconnectAttempts s ≤ maxReconnectAttempts (options s))%Z).

(** Nothing is under way on the relay side: no reconnect timer is pending
    and no relay socket is connecting or open. *)
Definition idle (s : LocalProvider) : Prop :=
  reconnectTimers s = 0%nat ∧ Forall (λ c, ¬ liveConnection c) (connections s).

(** The calls of [connect()] so far and those scheduled, less the reconnect
    counter. *)
Definition account (s : LocalProvider) : Z :=
  (Z.of_nat (length (connections s)) + Z.of_nat (reconnectTimers s) - reconnectAttempts s)%Z.

(** Buffers [Buffer.toString()] returns unchanged: every byte is below
    128. *)
Fixpoint ascii_only (s : string) : bool :=
  match s with
  | EmptyString => true
  | String c s' => (N_of_ascii c <? 128)%N && ascii_only s'
  end.

End Provider.

(** ** Sample configurations and traces *)

Definition sample_options : ProviderOptions := {|
  serverUrl := "wss://relay.example.com";
  token := "secret";
  debug := false;
  silent := true;
  reconnectInterval := 5000;
  maxReconnectAttempts := 3;
  connectTimeout := 10000;
  upstreamProxy := "";
  upstreamProxyType := socks5;
  upstreamUsername := "";
  upstreamPassword := "";
|}.

Definition sample_provider : LocalProvider :=
  @new_LocalProvider sample_runtime sample_options.

Definition sample_run : LocalProvider → list Event → LocalProvider :=
  @run sample_runtime.

Definition authOk : Message := AuthResponseMessage true None.

(** A provider that connected and authenticated. *)
Definition sample_ready : LocalProvider :=
  sample_run sample_provider [CallConnect; WsOpen 0; WsMessage 0 (Some authOk)].

(** Two tokens were registered and confirmed, then the relay connection
    dropped: a reconnect timer is pending. *)
Definition sample_dropped : LocalProvider :=
  sample_run sample_ready
    [CallAddConnectorToken (Some "t1"%string);
     WsMessage 0 (Some (ConnectorResponseMessage true (Some "t1"%string) None));
     CallAddConnectorToken (Some "t2"%string);
     WsMessage 0 (Some (ConnectorResponseMessage true (Some "t2"%string) None));
     WsClose 0].

(** The relay connection of [sample_ready]. *)
Definition sample_connection : Connection := {|
  url := Some "wss://relay.example.com/socket?token=sha256:secret&reverse=true"%string;
  readyState := OPEN;
  promise := Resolved;
  awaiter := ByCaller;
  timeout := Cleared;
|}.

Definition connectTcp (c : string) : Event :=
  WsMessage 0 (Some (ConnectMessage "tcp" c (Some "target.example"%string) (Some 443%Z))).

(** One TCP channel, ["c1"], is open on socket 0. *)
Definition sample_one_channel : LocalProvider :=
  sample_run sample_ready [connectTcp "c1"; TcpConnect 0].

Definition sample_channel : TCPChannel := {| tcp_socket := 0; tcp_channelId := "c1" |}.

Definition sample_socket : Socket := {|
  kind := NetSocket;
  sock_channelId := "c1";
  sock_address := Some "target.example"%string;
  sock_port := Some 443%Z;
  connectCallback := false;
  phase := Live;
  listener := OriginalDataHandler;
  written := [];
  closeCalls := 0;
  destroyError := None;
|}.

(** With [maxReconnectAttempts = 3], the first connection and the three
    reconnections all failed. *)
Definition sample_exhausted : LocalProvider :=
  sample_run sample_provider
    [CallConnect; WsError 0 "connect ECONNREFUSED"; WsClose 0;
     ReconnectTimer; WsError 1 "connect ECONNREFUSED"; WsClose 1;
     ReconnectTimer; WsError 2 "connect ECONNREFUSED"; WsClose 2;
     ReconnectTimer; WsError 3 "connect ECONNREFUSED"; WsClose 3].

(** The same, before the last reconnection: the counter is at the maximum
    and the third reconnection is scheduled. *)
Definition sample_last_attempt_pending : LocalProvider :=
  sample_run sample_provider
    [CallConnect; WsError 0 "connect ECONNREFUSED"; WsClose 0;
     ReconnectTimer; WsError 1 "connect ECONNREFUSED"; WsClose 1;
     ReconnectTimer; WsError 2 "connect ECONNREFUSED"; WsClose 2].

(** Two tokens were added and none was confirmed when the relay connection
    dropped: a reconnect timer is pending. *)
Definition sample_unconfirmed_dropped : LocalProvider :=
  sample_run sample_ready
    [CallAddConnectorToken (Some "t1"%string);
     CallAddConnectorToken (Some "t2"%string);
     WsClose 0].

(** A relay address with a fragment, which [ws] refuses. *)
Definition sample_fragment_options : ProviderOptions := {|
  serverUrl := "wss://relay.example.com/tunnel#a";
  token := "secret";
  debug := false;
  silent := true;
  reconnectInterval := 5000;
  maxReconnectAttempts := 3;
  connectTimeout := 10000;
  upstreamProxy := "";
  upstreamProxyType := socks5;
  upstreamUsername := "";
  upstreamPassword := "";
|}.

(** A tunnel address with a trailing slash, as the task API may return it. *)
Definition sample_tunnel_url : string := "https://relay.example.com/linksocks/abc/".

Definition sample_tunnel_options : ProviderOptions := {|
  serverUrl := normalizeWsUrl sample_tunnel_url;
  token := "secret";
  debug := false;
  silent := true;
  reconnectInterval := 5000;
  maxReconnectAttempts := 3;
  connectTimeout := 10000;
  upstreamProxy := "";
  upstreamProxyType := socks5;
  upstreamUsername := "";
  upstreamPassword := "";
|}.

(** * The provider constructor and the solver client

    ** Optional provider options ([provider.ts], the constructor)

    [ProviderOptions] as a caller passes it: every field but [serverUrl] and
    [token] may be absent.  The constructor fills the absent ones in ([??]
    replaces [undefined] only). *)
Record PartialProviderOptions := {
  opt_serverUrl : string;
  opt_token : string;
  opt_debug : option bool;
  opt_silent : option bool;
  opt_reconnectInterval : option Z;
  opt_maxReconnectAttempts : option Z;
  opt_connectTimeout : option Z;
  opt_upstreamProxy : option string;
  opt_upstreamProxyType : option ProxyType;
  opt_upstreamUsername : option string;
  opt_upstreamPassword : option string;
}.

Definition withDefaults (o : PartialProviderOptions) : ProviderOptions := {|
  serverUrl := opt_serverUrl o;
  token := opt_token o;
  debug := default false (opt_debug o);
  silent := default false (opt_silent o);
  reconnectInterval := default 5000%Z (opt_reconnectInterval o);
  maxReconnectAttempts := default 0%Z (opt_maxReconnectAttempts o);
  connectTimeout := default 10000%Z (opt_connectTimeout o);
  upstreamProxy := default ""%string (opt_upstreamProxy o);
  upstreamProxyType := default socks5 (opt_upstreamProxyType o);
  upstreamUsername := default ""%string (opt_upstreamUsername o);
  upstreamPassword := default ""%string (opt_upstreamPassword o);
|}.

(** [new LocalProvider(options)] *)
Definition LocalProvider_constructor `{Runtime} (o : PartialProviderOptions) : LocalProvider :=
  new_LocalProvider (withDefaults o).

(** ** [client.ts] *)
Module Solver.

(** *** JavaScript values the client handles *)

(** An insertion-ordered [Map]: [set] on a key that is present replaces its
    value in place. *)
Fixpoint Map_set {V : Type} (k : string) (v : V) (m : list (string * V)) : list (string * V) :=
  match m with
  | [] => [(k, v)]
  | (k', v') :: m' =>
      if bool_decide (k = k') then (k', v) :: m' else (k', v') :: Map_set k v m'
  end.

Fixpoint Map_get {V : Type} (k : string) (m : list (string * V)) : option V :=
  match m with
  | [] => None
  | (k', v') :: m' => if bool_decide (k = k') then Some v' else Map_get k m'
  end.

(** [Array.prototype.join] *)
Fixpoint join (sep : string) (l : list string) : string :=
  match l with
  | [] => ""
  | [x] => x
  | x :: l' => x +:+ sep +:+ join sep l'
  end.

(** [String.prototype.toLowerCase] on the letters A to Z; of the other
    characters none becomes a letter of ["cloudflare"]. *)
Definition lower (c : ascii) : ascii :=
  let n := N_of_ascii c in
  if ((65 <=? n) && (n <=? 90))%N then ascii_of_N (n + 32) else c.

Fixpoint toLowerCase (s : string) : string :=
  match s with
  | EmptyString => EmptyString
  | String c s' => String (lower c) (toLowerCase s')
  end.

(** [s.replace(":", "")]: the first colon is removed. *)
Fixpoint remove_first_colon (s : string) : string :=
  match s with
  | EmptyString => EmptyString
  | String c s' => if Ascii.eqb c ":"%char then s' else String c (remove_first_colon s')
  end.

(** [parseInt] on what the [port] getter of a URL returns, decimal digits or
    nothing: [None] is [NaN]. *)
Definition digit (c : ascii) : option Z :=
  let n := N_of_ascii c in
  if ((48 <=? n) && (n <=? 57))%N then Some (Z.of_N n - 48)%Z else None.

Fixpoint parseInt_from (acc : option Z) (s : string) : option Z :=
  match s with
  | EmptyString => acc
  | String c s' =>
      match digit c with
      | Some d => parseInt_from (Some (10 * default 0 acc + d)%Z) s'
      | None => acc
      end
  end.

Definition parseInt (s : string) : option Z := parseInt_from None s.

(** *** The platform: the WHATWG [URL] parser and [decodeURIComponent]

    Both are library code; each is [None] where the library throws.  The
    getters of a parsed URL are strings; [port] is empty when the address
    names no port or the default port of its scheme. *)
Record URL := {
  protocol : string;
  username : string;
  password : string;
  hostname : string;
  port : string;
}.

Class Platform := {
  new_URL : string → option URL;
  decodeURIComponent : string → option string;
}.

(** *** Types of the client *)

Record AxiosBasicCredentials := { auth_username : string; auth_password : string }.

Record AxiosProxyConfig := {
  proxy_host : string;
  proxy_port : Z;
  proxy_auth : option AxiosBasicCredentials;
  proxy_protocol : option string;
}.

(** [string | AxiosProxyConfig] *)
Inductive Proxy :=
| ProxyUrl (address : string)
| ProxyObject (config : AxiosProxyConfig).

Record CloudflareSolverOptions := {
  o_apiBase : option string;
  o_solve : option bool;
  o_onChallenge : option bool;
  o_proxy : option Proxy;
  o_apiProxy : option Proxy;
  o_usePolling : option bool;
  o_pollingInterval : option Z;
  o_timeout : option Z;
  o_verbose : option bool;
}.

(** The solution a task reports; [sol_cookies] in the order of
    [Object.entries]. *)
Record Solution := {
  sol_cookies : option (list (string * string));
  sol_userAgent : option string;
  sol_headers : option (gmap string string);
  sol_token : option string;
}.

(** [TaskResult.result]: the solution fields, possibly wrapped once more
    under [result], and an [error]. *)
Record WorkerResult := {
  wr_fields : Solution;
  wr_result : option Solution;
  wr_error : option string;
}.

Record TaskResult := {
  tr_status : option string;
  tr_success : option bool;
  tr_result : option WorkerResult;
  tr_error : option string;
}.

Record LinkSocksConfig := {
  ls_url : string;
  ls_token : string;
  ls_connector_token : string;
}.

(** The fields of an [AxiosRequestConfig] and of an [AxiosResponse] the
    client reads or writes.  [headers] is an object used as a map. *)
Record AxiosRequestConfig := {
  method : option string;
  url : option string;
  data : option string;
  headers : gmap string string;
}.

Inductive Body :=
| TextBody (text : string)
| OtherBody.

Record AxiosResponse := {
  status : Z;
  response_headers : gmap string string;
  response_data : Body;
}.

(** The configuration of a [CloudflareSolver] and what it remembers of the
    challenges solved.  The two Axios instances and the LinkSocks connection
    ([linkSocksProvider] and the fields beside it) are the environment of
    [request]. *)
Record CloudflareSolver := {
  apiKey : string;
  apiBase : string;
  solve : bool;
  onChallenge : bool;
  proxy : option Proxy;
  apiProxy : option Proxy;
  usePolling : bool;
  pollingInterval : Z;
  timeout : Z;
  verbose : bool;
  cookies : list (string * list (string * string));
  userAgent : option string;
}.

Definition set_jar (c : list (string * list (string * string))) (u : option string)
    (s : CloudflareSolver) : CloudflareSolver :=
  {| apiKey := apiKey s; apiBase := apiBase s; solve := solve s;
     onChallenge := onChallenge s; proxy := proxy s; apiProxy := apiProxy s;
     usePolling := usePolling s; pollingInterval := pollingInterval s;
     timeout := timeout s; verbose := verbose s; cookies := c; userAgent := u |}.

(** [a || d] on numbers: 0 gives way. *)
Definition num_or (o : option Z) (d : Z) : Z :=
  match o with
  | Some n => if (n =? 0)%Z then d else n
  | None => d
  end.

(** The constructor. *)
Definition new_CloudflareSolver (key : string) (o : CloudflareSolverOptions) : CloudflareSolver := {|
  apiKey := key;
  apiBase := strip_trailing_slash (or_else (o_apiBase o) "https://solver.zetx.site");
  solve := negb (bool_decide (o_solve o = Some false));
  onChallenge := negb (bool_decide (o_onChallenge o = Some false));
  proxy := o_proxy o;
  apiProxy := o_apiProxy o;
  usePolling := default false (o_usePolling o);
  pollingInterval := num_or (o_pollingInterval o) 2000;
  timeout := num_or (o_timeout o) 30000;
  verbose := default false (o_verbose o);
  cookies := [];
  userAgent := None;
|}.

Section Client.
Context `{Platform}.

(** [parseProxy]; [None] is the [false] it returns when the URL does not
    parse. *)
Definition parseProxy (p : Proxy) : option AxiosProxyConfig :=
  match p with
  | ProxyObject c => Some c
  | ProxyUrl address =>
      match new_URL address with
      | None => None
      | Some u =>
          let fallback := (if String.eqb (protocol u) "https:" then 443 else 80)%Z in
          let number := num_or (parseInt (port u)) fallback in
          let scheme := remove_first_colon (protocol u) in
          if truthy (username u) then
            match decodeURIComponent (username u), decodeURIComponent (password u) with
            | Some name, Some pass =>
                Some {| proxy_host := hostname u; proxy_port := number;
                        proxy_auth := Some {| auth_username := name; auth_password := pass |};
                        proxy_protocol := Some scheme |}
            | _, _ => None
            end
          else
            Some {| proxy_host := hostname u; proxy_port := number;
                    proxy_auth := None; proxy_protocol := Some scheme |}
      end
  end.

(** [detectChallenge] *)
Definition detectChallenge (r : AxiosResponse) : bool :=
  if negb ((status r =? 403)%Z || (status r =? 503)%Z) then false
  else
    let server := or_else (response_headers r !! "server"%string) "" in
    if negb (includes "cloudflare" (toLowerCase server)) then false
    else
      let text := match response_data r with TextBody t => t | OtherBody => ""%string end in
      existsb (λ k, includes k text) ["cf-turnstile"; "cf-challenge"; "Just a moment"]%string.

(** What [parseUpstreamProxy] returns. *)
Record UpstreamProxy := {
  up_host : option string;
  up_username : option string;
  up_password : option string;
  up_type : option ProxyType;
}.

Definition no_upstream : UpstreamProxy :=
  {| up_host := None; up_username := None; up_password := None; up_type := None |}.

(** [s ? decodeURIComponent(s) : undefined]; the outer [None] is an
    exception. *)
Definition decoded (s : string) : option (option string) :=
  if truthy s then
    match decodeURIComponent s with
    | Some d => Some (Some d)
    | None => None
    end
  else Some None.

(** [parseUpstreamProxy] *)
Definition parseUpstreamProxy (p : option Proxy) : UpstreamProxy :=
  match p with
  | None => no_upstream
  | Some (ProxyObject c) =>
      {| up_host :=
           if truthy (proxy_host c) && negb (proxy_port c =? 0)%Z
           then Some (proxy_host c +:+ ":" +:+ pretty (proxy_port c))%string
           else None;
         up_username := auth_username <$> proxy_auth c;
         up_password := auth_password <$> proxy_auth c;
         up_type := Some (if bool_decide (proxy_protocol c = Some "socks5"%string)
                          then socks5 else http) |}
  | Some (ProxyUrl address) =>
      if negb (truthy address) then no_upstream
      else
        match new_URL address with
        | None => no_upstream
        | Some u =>
            match decoded (username u), decoded (password u) with
            | Some name, Some pass =>
                {| up_host :=
                     if truthy (hostname u) && truthy (port u)
                     then Some (hostname u +:+ ":" +:+ port u)%string
                     else None;
                   up_username := name;
                   up_password := pass;
                   up_type := Some (if String.eqb (protocol u) "socks5:"
                                    then socks5 else http) |}
            | _, _ => no_upstream
            end
        end
  end.

(** The options [connectLinkSocks] passes to [new LocalProvider]. *)
Definition connectLinkSocks_options (s : CloudflareSolver) (cfg : LinkSocksConfig)
    : PartialProviderOptions :=
  let upstreamProxy := parseUpstreamProxy (proxy s) in
  {| opt_serverUrl := ls_url cfg;
     opt_token := ls_token cfg;
     opt_debug := Some false;
     opt_silent := Some (negb (verbose s));
     opt_reconnectInterval := Some 5000%Z;
     opt_maxReconnectAttempts := Some 3%Z;
     opt_connectTimeout := Some 10000%Z;
     opt_upstreamProxy := up_host upstreamProxy;
     opt_upstreamProxyType := up_type upstreamProxy;
     opt_upstreamUsername := up_username upstreamProxy;
     opt_upstreamPassword := up_password upstreamProxy |}.

(** [buildRequestConfig]; [None] when [new URL(url)] throws, as it does on
    the ["undefined"] an absent [url] reads as. *)
Definition buildRequestConfig (s : CloudflareSolver) (url : option string)
    (config : AxiosRequestConfig) : option AxiosRequestConfig :=
  match new_URL (default "undefined"%string url) with
  | None => None
  | Some u =>
      let domain := hostname u in
      let headers := headers config in
      let headers :=
        match Map_get domain (cookies s) with
        | Some (entry :: entries) =>
            let cookieStr :=
              join "; " ((λ kv, (kv.1 +:+ "=" +:+ kv.2)%string) <$> (entry :: entries)) in
            <["Cookie"%string := cookieStr]> headers
        | _ => headers
        end in
      let headers :=
        if truthy_opt (userAgent s)
        then <["User-Agent"%string := default ""%string (userAgent s)]> headers
        else headers in
      Some {| method := method config; url := Solver.url config; data := data config;
              headers := headers |}
  end.

(** The solution inside a task result:
    [(result.result || {}).result || (result.result || {})]. *)
Definition solutionOf (result : TaskResult) : Solution :=
  match tr_result result with
  | Some workerResult => default (wr_fields workerResult) (wr_result workerResult)
  | None => {| sol_cookies := None; sol_userAgent := None; sol_headers := None;
               sol_token := None |}
  end.

(** The end of [solveCloudflare], once [waitForResult] has returned: the
    cookies of the solution are stored under the host name of the address
    and its user agent, if it has one, is kept.  [None] when [new URL(url)]
    throws; an absent [url] reads as ["undefined"]. *)
Definition storeSolution (url : option string) (result : TaskResult) (s : CloudflareSolver)
    : option CloudflareSolver :=
  let solution := solutionOf result in
  let found := default [] (sol_cookies solution) in
  let agent :=
    or_else (sol_userAgent solution)
      (or_else (sol_headers solution ≫= λ h, h !! "User-Agent"%string) "") in
  match new_URL (default "undefined"%string url) with
  | None => None
  | Some u =>
      let domain := hostname u in
      let domainCookies := default [] (Map_get domain (cookies s)) in
      let domainCookies := foldl (λ m kv, Map_set kv.1 kv.2 m) domainCookies found in
      Some (set_jar (Map_set domain domainCookies (cookies s))
              (if truthy agent then Some agent else userAgent s) s)
  end.

(** *** [waitForResult]

    One turn of the loop: [now] is [Date.now() - start] in milliseconds at
    the test of the loop, [reply] what the request of that turn gives. *)
Inductive Reply :=
| Failed
| Answered (code : Z) (body : option TaskResult).

Record Turn := { now : Z; reply : Reply }.

Inductive Outcome :=
| Returned (r : TaskResult)
| TaskFailed (message : string)
| TimedOut
| StillWaiting.

(** [result.success] if it is a boolean, else what the status and the error
    say. *)
Definition succeeded (r : TaskResult) : bool :=
  match tr_success r with
  | Some b => b
  | None =>
      (bool_decide (tr_status r = Some "completed"%string) ||
       bool_decide (tr_status r = Some "ready"%string)) &&
      negb (truthy_opt (tr_error r))
  end.

Definition failureText (r : TaskResult) : string :=
  or_else (tr_error r) (or_else (tr_result r ≫= wr_error) "Unknown error").

(** The loop over the turns the environment provides; [StillWaiting] when
    they are used up.  [seconds] is the [timeout] parameter. *)
Fixpoint waitForResult (seconds : Z) (turns : list Turn) : Outcome :=
  match turns with
  | [] => StillWaiting
  | t :: rest =>
      if negb (now t <? seconds * 1000)%Z then TimedOut
      else
        match reply t with
        | Failed => waitForResult seconds rest
        | Answered code body =>
            if negb (code =? 200)%Z then waitForResult seconds rest
            else
              match body with
              | None => waitForResult seconds rest
              | Some result =>
                  if bool_decide (tr_status result = Some "processing"%string)
                  then waitForResult seconds rest
                  else if bool_decide (tr_status result = Some "timeout"%string)
                  then waitForResult seconds rest
                  else if negb (succeeded result)
                  then TaskFailed ("Task failed: " +:+ failureText result)
                  else Returned result
              end
        end
  end.

(** A turn that decides nothing: it is within the time limit, and its
    request fails, is answered with another code than 200 or with no
    result, or reports a task that is still processing or timed out. *)
Definition inconclusive (seconds : Z) (t : Turn) : bool :=
  (now t <? seconds * 1000)%Z &&
  match reply t with
  | Failed => true
  | Answered code body =>
      negb (code =? 200)%Z ||
      match body with
      | None => true
      | Some result =>
          bool_decide (tr_status result = Some "processing"%string) ||
          bool_decide (tr_status result = Some "timeout"%string)
      end
  end.

(** *** [request]

    The environment of one call: what the [n]-th request of the HTTP client
    gives ([None]: it throws), and what the task started by [solveChallenge]
    ends with ([None]: an exception anywhere up to [waitForResult]). *)
Record Network := {
  respond : nat → AxiosRequestConfig → option AxiosResponse;
  solved : option string → option TaskResult;
}.

Inductive Action :=
| Request (config : AxiosRequestConfig)
| Solve (url : option string).

(** [solveChallenge]: the solver after it, or [None] when it throws. *)
Definition solveChallenge (net : Network) (url : option string) (s : CloudflareSolver)
    : option CloudflareSolver :=
  match solved net url with
  | Some result => storeSolution url result s
  | None => None
  end.

(** [request]: the solver afterwards, the actions taken in order, and the
    response ([None]: the call throws). *)
Definition request (net : Network) (config : AxiosRequestConfig) (s : CloudflareSolver)
    : CloudflareSolver * list Action * option AxiosResponse :=
  let url := Solver.url config in
  if negb (solve s) then
    match buildRequestConfig s url config with
    | Some c => (s, [Request c], respond net 0 c)
    | None => (s, [], None)
    end
  else
    let '(s, before) :=
      if negb (onChallenge s) then
        match solveChallenge net url s with
        | Some s' => (s', [Solve url])
        | None => (s, [Solve url])
        end
      else (s, []) in
    match buildRequestConfig s url config with
    | None => (s, before, None)
    | Some c =>
        match respond net 0 c with
        | None => (s, before ++ [Request c], None)
        | Some response =>
            if onChallenge s && detectChallenge response then
              match solveChallenge net url s with
              | None =>
                  (s, before ++ [Request c; Solve url], None)
              | Some s' =>
                  match buildRequestConfig s' url config with
                  | None =>
                      (s', before ++ [Request c; Solve url], None)
                  | Some c' =>
                      (s', before ++ [Request c; Solve url;
                                      Request c'],
                       respond net 1 c')
                  end
              end
            else (s, before ++ [Request c], Some response)
        end
    end.

(** The requests and the solves among the actions of a call. *)
Definition requests (l : list Action) : list AxiosRequestConfig :=
  omap (λ a, match a with Request c => Some c | Solve _ => None end) l.

Definition solves (l : list Action) : list (option string) :=
  omap (λ a, match a with Solve u => Some u | Request _ => None end) l.

End Client.

End Solver.

(** ** Sample proxies, providers and solver values *)

Definition sample_socks_options : ProviderOptions := {|
  serverUrl := "wss://relay.example.com";
  token := "secret";
  debug := false;
  silent := true;
  reconnectInterval := 5000;
  maxReconnectAttempts := 3;
  connectTimeout := 10000;
  upstreamProxy := "127.0.0.1:1080";
  upstreamProxyType := socks5;
  upstreamUsername := "";
  upstreamPassword := "";
|}.

Definition sample_socks_auth_options : ProviderOptions := {|
  serverUrl := "wss://relay.example.com";
  token := "secret";
  debug := false;
  silent := true;
  reconnectInterval := 5000;
  maxReconnectAttempts := 3;
  connectTimeout := 10000;
  upstreamProxy := "127.0.0.1:1080";
  upstreamProxyType := socks5;
  upstreamUsername := "user";
  upstreamPassword := "pass";
|}.

Definition sample_http_options : ProviderOptions := {|
  serverUrl := "wss://relay.example.com";
  token := "secret";
  debug := false;
  silent := true;
  reconnectInterval := 5000;
  maxReconnectAttempts := 3;
  connectTimeout := 10000;
  upstreamProxy := "127.0.0.1:8080";
  upstreamProxyType := http;
  upstreamUsername := "user";
  upstreamPassword := "pass";
|}.

(** A provider with the given options that connected and authenticated. *)
Definition sample_ready_with (o : ProviderOptions) : LocalProvider :=
  sample_run (@new_LocalProvider sample_runtime o)
    [CallConnect; WsOpen 0; WsMessage 0 (Some authOk)].

(** The handshake with the SOCKS5 proxy has reached the connect request. *)
Definition sample_socks_requested : LocalProvider :=
  sample_run (sample_ready_with sample_socks_options)
    [connectTcp "c1"; TcpConnect 0; TcpData 0 (bytes [5; 0]%Z)].

Definition sample_socks_socket : Socket := {|
  kind := NetSocket;
  sock_channelId := "c1";
  sock_address := Some "target.example"%string;
  sock_port := Some 443%Z;
  connectCallback := true;
  phase := Live;
  listener := Socks5ProxyHandler 2;
  written :=
    [(bytes [5; 1; 0]%Z, None);
     ((bytes [5; 1; 0; 3; 14]%Z +:+ "target.example" +:+ bytes [1; 187]%Z)%string, None)];
  closeCalls := 0;
  destroyError := None;
|}.

(** The HTTP proxy has been sent the [CONNECT] request. *)
Definition sample_http_requested : LocalProvider :=
  sample_run (sample_ready_with sample_http_options) [connectTcp "c1"; TcpConnect 0].

Definition sample_http_request : string :=
  ("CONNECT target.example:443 HTTP/1.1" +:+ CRLF +:+ "Host: target.example:443" +:+ CRLF +:+
   "Proxy-Authorization: Basic b64:user:pass" +:+ CRLF +:+ CRLF)%string.

Definition sample_http_socket : Socket := {|
  kind := NetSocket;
  sock_channelId := "c1";
  sock_address := Some "target.example"%string;
  sock_port := Some 443%Z;
  connectCallback := true;
  phase := Live;
  listener := HttpProxyHandler "";
  written := [(sample_http_request, None)];
  closeCalls := 0;
  destroyError := None;
|}.

Definition sample_http_reply : string :=
  ("HTTP/1.1 200 Connection established" +:+ CRLF +:+ CRLF)%string.

(** [connect()] was called a second time on a connected provider with one
    channel; the second relay socket is open and authenticated. *)
Definition sample_reconnected_by_hand : LocalProvider :=
  sample_run sample_one_channel [CallConnect; WsOpen 1; WsMessage 1 (Some authOk)].

Definition sample_replaced_connection : Connection := {|
  url := Some "wss://relay.example.com/socket?token=sha256:secret&reverse=true"%string;
  readyState := CLOSING;
  promise := Resolved;
  awaiter := ByCaller;
  timeout := Cleared;
|}.

(** A [Connect] frame for ["c2"] has arrived; its socket is still
    connecting. *)
Definition sample_connecting : LocalProvider :=
  sample_run sample_one_channel [connectTcp "c2"].

Definition sample_connecting_socket : Socket := {|
  kind := NetSocket;
  sock_channelId := "c2";
  sock_address := Some "target.example"%string;
  sock_port := Some 443%Z;
  connectCallback := false;
  phase := Opening;
  listener := OriginalDataHandler;
  written := [];
  closeCalls := 0;
  destroyError := None;
|}.

(** One UDP channel, ["u1"], is open on socket 0. *)
Definition sample_udp_channel_open : LocalProvider :=
  sample_run sample_ready
    [WsMessage 0 (Some (ConnectMessage "udp" "u1" None None)); UdpListening 0].

Definition sample_udp_channel : UDPChannel :=
  {| udp_socket := 0; udp_channelId := "u1"; clientAddr := None; clientPort := None |}.

Definition sample_udp_socket : Socket := {|
  kind := DgramSocket;
  sock_channelId := "u1";
  sock_address := None;
  sock_port := None;
  connectCallback := false;
  phase := Live;
  listener := OriginalDataHandler;
  written := [];
  closeCalls := 0;
  destroyError := None;
|}.

Definition sample_tcp_data (payload : string) : DataFields := {|
  data_protocol := "tcp";
  data_channelId := "c1";
  data_payload := payload;
  data_compression := false;
  data_address := None;
  data_port := None;
  data_targetAddr := None;
  data_targetPort := None;
|}.

Definition sample_udp_data : DataFields := {|
  data_protocol := "udp";
  data_channelId := "u1";
  data_payload := "query";
  data_compression := false;
  data_address := Some "10.0.0.7"%string;
  data_port := Some 5353%Z;
  data_targetAddr := Some "9.9.9.9"%string;
  data_targetPort := Some 53%Z;
|}.

(** A platform that knows two addresses. *)
Definition sample_proxy_url : Solver.URL := {|
  Solver.protocol := "http:";
  Solver.username := "";
  Solver.password := "";
  Solver.hostname := "proxy.example.com";
  Solver.port := "";
|}.

Definition sample_site_url : Solver.URL := {|
  Solver.protocol := "https:";
  Solver.username := "";
  Solver.password := "";
  Solver.hostname := "shop.example.com";
  Solver.port := "";
|}.

Definition sample_platform : Solver.Platform := {|
  Solver.new_URL := λ s,
    if String.eqb s "http://proxy.example.com" then Some sample_proxy_url
    else if String.eqb s "https://shop.example.com/cart" then Some sample_site_url
    else None;
  Solver.decodeURIComponent := Some;
|}.

Definition sample_solver : Solver.CloudflareSolver :=
  Solver.new_CloudflareSolver "key"
    {| Solver.o_apiBase := None; Solver.o_solve := None; Solver.o_onChallenge := None;
       Solver.o_proxy := Some (Solver.ProxyUrl "http://proxy.example.com");
       Solver.o_apiProxy := None; Solver.o_usePolling := None;
       Solver.o_pollingInterval := None; Solver.o_timeout := None;
       Solver.o_verbose := None |}.

Definition sample_linksocks : Solver.LinkSocksConfig :=
  {| Solver.ls_url := "wss://relay.example.com"; Solver.ls_token := "secret";
     Solver.ls_connector_token := "connector" |}.

Definition sample_cookies : list (string * string) :=
  [("cf_clearance", "abc"); ("session", "1")]%string.

Definition sample_result : Solver.TaskResult := {|
  Solver.tr_status := Some "completed"%string;
  Solver.tr_success := None;
  Solver.tr_result :=
    Some {| Solver.wr_fields :=
              {| Solver.sol_cookies := Some sample_cookies;
                 Solver.sol_userAgent := Some "Mozilla/5.0"%string;
                 Solver.sol_headers := None; Solver.sol_token := None |};
            Solver.wr_result := None; Solver.wr_error := None |};
  Solver.tr_error := None;
|}.

Definition sample_processing : Solver.TaskResult := {|
  Solver.tr_status := Some "processing"%string;
  Solver.tr_success := None;
  Solver.tr_result := None;
  Solver.tr_error := None;
|}.

Definition sample_turns : list Solver.Turn :=
  [ {| Solver.now := 0; Solver.reply := Solver.Failed |};
    {| Solver.now := 2000; Solver.reply := Solver.Answered 502 None |};
    {| Solver.now := 4000; Solver.reply := Solver.Answered 200 (Some sample_processing) |} ]%Z.

Definition sample_solved_solver : Solver.CloudflareSolver :=
  Solver.set_jar [("shop.example.com"%string, sample_cookies)] (Some "Mozilla/5.0"%string)
    sample_solver.

(** * Properties *)

Section ProviderFacts.
Context `{Runtime}.

(** ** Frame lemmas: what a handler leaves alone *)

Lemma or_else_some t : or_else (Some t) "" = t.
Proof.
  unfold or_else, truthy. destruct (String.eqb t "") eqn:E; simpl; auto.
  by apply String.eqb_eq in E.
Qed.

Lemma send_disconnected m s : isConnected s = false → send m s = s.
Proof.
  unfold isConnected, send. intros Hc.
  destruct (ws s) as [k|]; [|done].
  destruct (connections s !! k) as [c|]; [|done].
  by destruct (readyState c).
Qed.

Lemma send_connected m s :
  isConnected s = true →
  ∃ k, ws s = Some k ∧ send m s = set_wire (wire s ++ [(k, m)]) s.
Proof.
  unfold isConnected, send. intros Hc.
  destruct (ws s) as [k|]; [|done]. exists k. split; [done|].
  destruct (connections s !! k) as [c|]; [|done].
  by destruct (readyState c).
Qed.

(** C10. While the relay socket is absent or not open, [send] drops every
    frame: the provider is left exactly as it was (nothing is queued), for
    connect responses, data and disconnects alike; [addConnectorToken] and
    [removeConnectorToken] put nothing on the wire. *)
Theorem send_discards_when_not_open (s : LocalProvider) :
  isConnected s = false →
  (∀ m, send m s = s) ∧
  (∀ c ok err, sendConnectResponse c ok err s = s) ∧
  (∀ c proto d a p, sendData c proto d a p s = s) ∧
  (∀ c, sendDisconnect c s = s) ∧
  (∀ tok, wire (addConnectorToken tok s) = wire s) ∧
  (∀ tok, wire (removeConnectorToken tok s) = wire s) ∧
  (∀ tok, isConnected (addConnectorToken tok s) = false) ∧
  (∀ tok, isConnected (removeConnectorToken tok s) = false).
Proof.
  intros Hc.
  assert (Hu : ∀ n, isConnected (set_uuids n s) = false) by (intros; exact Hc).
  repeat split; intros.
  - by apply send_disconnected.
  - by apply send_disconnected.
  - by apply send_disconnected.
  - by apply send_disconnected.
  - unfold addConnectorToken. by rewrite send_disconnected.
  - unfold removeConnectorToken. by rewrite send_disconnected.
  - unfold addConnectorToken. by rewrite send_disconnected.
  - unfold removeConnectorToken. by rewrite send_disconnected.
Qed.

Lemma set_wire_id s : set_wire (wire s) s = s.
Proof. by destruct s. Qed.

Lemma send_eq m s : send m s = set_wire (wire s ++ outgoing m s) s.
Proof.
  unfold send, outgoing, isConnected.
  repeat case_match; simplify_eq; rewrite ?app_nil_r, ?set_wire_id; done.
Qed.

Lemma send_session m s : session (send m s) = session s.
Proof. unfold send. repeat case_match; done. Qed.

Lemma send_uuids m s : uuids (send m s) = uuids s.
Proof. unfold send. repeat case_match; done. Qed.

Lemma isConnected_session s s' : session s' = session s → isConnected s' = isConnected s.
Proof.
  unfold session, isConnected.
  intros [= Ho Hws Hid Htcp Hudp Hra Hcl Hpc Hct Hcn Hso Hrt].
  by rewrite Hws, Hcn.
Qed.

Lemma session_fields s s' :
  session s' = session s →
  options s' = options s ∧ ws s' = ws s ∧ tcpChannels s' = tcpChannels s ∧
  udpChannels s' = udpChannels s ∧ reconnectAttempts s' = reconnectAttempts s ∧
  isClosing s' = isClosing s ∧ connectorTokens s' = connectorTokens s ∧
  connections s' = connections s ∧ sockets s' = sockets s ∧
  reconnectTimers s' = reconnectTimers s.
Proof.
  unfold session.
  intros [= Ho Hws Hid Htcp Hudp Hra Hcl Hpc Hct Hcn Hso Hrt].
  repeat split; assumption.
Qed.

Lemma addConnectorToken_session tok s : session (addConnectorToken tok s) = session s.
Proof. unfold addConnectorToken. by rewrite send_session. Qed.

Lemma replay_fold ts : ∀ s,
  let s' := foldl (λ acc t, addConnectorToken (Some t) acc) s ts in
  session s' = session s ∧
  uuids s' = (uuids s + length ts)%nat ∧
  wire s' = wire s ++ replayFrames s ts.
Proof.
  induction ts as [|t ts IH]; intros s; simpl.
  - repeat split; [lia|]. unfold replayFrames. repeat case_match; by rewrite app_nil_r.
  - destruct (IH (addConnectorToken (Some t) s)) as (Hs & Hu & Hw).
    pose proof (addConnectorToken_session (Some t) s) as Hs1.
    assert (Hu1 : uuids (addConnectorToken (Some t) s) = S (uuids s)).
    { unfold addConnectorToken. by rewrite send_uuids. }
    repeat split.
    + by rewrite Hs.
    + rewrite Hu, Hu1. lia.
    + rewrite Hw. unfold replayFrames.
      rewrite (isConnected_session _ _ Hs1).
      assert (Hws : ws (addConnectorToken (Some t) s) = ws s).
      { by destruct (session_fields _ _ Hs1) as (_ & ? & _). }
      rewrite Hws, Hu1.
      destruct (isConnected s) eqn:Hc.
      * unfold addConnectorToken at 1. rewrite or_else_some.
        destruct (send_connected (ConnectorMessage (uuidv4 (uuids s)) t "add")
                    (set_uuids (S (uuids s)) s) Hc) as (k & Hk & ->).
        simpl in Hk. rewrite Hk. simpl. rewrite <- app_assoc. simpl.
        rewrite Nat.add_0_r. do 2 f_equal.
        apply imap_ext. intros i x _. simpl. do 3 f_equal. lia.
      * unfold addConnectorToken at 1. rewrite send_disconnected by exact Hc.
        simpl. by destruct (ws s).
Qed.

Lemma replayTokens_spec s :
  session (replayTokens s) = session s ∧
  uuids (replayTokens s) = (uuids s + length (connectorTokens s))%nat ∧
  wire (replayTokens s) = wire s ++ replayFrames s (connectorTokens s).
Proof. apply replay_fold. Qed.

(** ** Events that concern channels only *)

Ltac unfold_handlers :=
  unfold step, connection_event, tcp_event, udp_event,
    ws_on_message, handleMessage, handleConnect, handleTCPConnect, handleUDPConnect,
    connectViaProxy, handleData, handleDisconnectMessage, handleConnectorResponse,
    handlePartners, tcp_on_connect, tcp_on_data, tcp_on_close, tcp_on_error,
    udp_on_listening, udp_on_message, udp_on_error, udp_on_close,
    socks5ProxyHandler, httpProxyHandler, sendSocks5ConnectRequest, register_tcp,
    addConnectorToken, removeConnectorToken,
    sendConnectResponse, sendData, sendDisconnect,
    socket_destroy, socket_write, set_listener, set_phase in *.

Lemma channelEvent_relayView e s :
  channelEvent e = true → relayView (step s e) = relayView s.
Proof.
  intros He. destruct e; try discriminate He; unfold_handlers.
  all: repeat (case_match; try discriminate He; simplify_eq/=); rewrite ?send_eq; reflexivity.
Qed.

Lemma relayView_fields s s' :
  relayView s' = relayView s →
  options s' = options s ∧ ws s' = ws s ∧ reconnectAttempts s' = reconnectAttempts s ∧
  isClosing s' = isClosing s ∧ connections s' = connections s ∧
  reconnectTimers s' = reconnectTimers s.
Proof. unfold relayView. intros [= ? ? ? ? ? ?]. repeat split; assumption. Qed.

(** ** The channel teardown loops *)

Lemma destroyAll_outside sids s : outsideSockets (destroyAll sids s) = outsideSockets s.
Proof. induction sids as [|sid sids IH]; simpl; [done|]. by rewrite <- IH. Qed.

Lemma destroyAll_fields sids s :
  options (destroyAll sids s) = options s ∧ ws (destroyAll sids s) = ws s ∧
  instanceId (destroyAll sids s) = instanceId s ∧
  tcpChannels (destroyAll sids s) = tcpChannels s ∧
  udpChannels (destroyAll sids s) = udpChannels s ∧
  reconnectAttempts (destroyAll sids s) = reconnectAttempts s ∧
  isClosing (destroyAll sids s) = isClosing s ∧
  partnersCount (destroyAll sids s) = partnersCount s ∧
  connectorTokens (destroyAll sids s) = connectorTokens s ∧
  connections (destroyAll sids s) = connections s ∧
  reconnectTimers (destroyAll sids s) = reconnectTimers s ∧
  uuids (destroyAll sids s) = uuids s ∧ wire (destroyAll sids s) = wire s.
Proof.
  pose proof (destroyAll_outside sids s) as Ho. unfold outsideSockets in Ho.
  injection Ho as ? ? ? ? ? ? ? ? ? ? ? ? ?. repeat split; assumption.
Qed.

Lemma cleanupChannels_outside s : outsideChannels (cleanupChannels s) = outsideChannels s.
Proof.
  unfold cleanupChannels, outsideChannels; simpl.
  set (s1 := destroyAll _ s).
  destruct (destroyAll_fields (udp_socket <$> (map_to_list (udpChannels s1)).*2)
              (set_tcpChannels ∅ s1))
    as (E1 & E2 & E3 & _ & _ & E6 & E7 & E8 & E9 & E10 & E11 & E12 & E13).
  simpl in *. rewrite E1, E2, E3, E6, E7, E8, E9, E10, E11, E12, E13.
  subst s1.
  destruct (destroyAll_fields (tcp_socket <$> (map_to_list (tcpChannels s)).*2) s)
    as (F1 & F2 & F3 & _ & _ & F6 & F7 & F8 & F9 & F10 & F11 & F12 & F13).
  by rewrite F1, F2, F3, F6, F7, F8, F9, F10, F11, F12, F13.
Qed.

Lemma cleanupChannels_fields s :
  options (cleanupChannels s) = options s ∧ ws (cleanupChannels s) = ws s ∧
  reconnectAttempts (cleanupChannels s) = reconnectAttempts s ∧
  isClosing (cleanupChannels s) = isClosing s ∧
  connectorTokens (cleanupChannels s) = connectorTokens s ∧
  connections (cleanupChannels s) = connections s ∧
  reconnectTimers (cleanupChannels s) = reconnectTimers s ∧
  uuids (cleanupChannels s) = uuids s ∧ wire (cleanupChannels s) = wire s.
Proof.
  pose proof (cleanupChannels_outside s) as Ho. unfold outsideChannels in Ho.
  injection Ho as ? ? ? ? ? ? ? ? ? ? ?. repeat split; assumption.
Qed.

Lemma cleanup_options s : options (cleanupChannels s) = options s.
Proof. apply cleanupChannels_fields. Qed.
Lemma cleanup_ws s : ws (cleanupChannels s) = ws s.
Proof. apply cleanupChannels_fields. Qed.
Lemma cleanup_reconnectAttempts s : reconnectAttempts (cleanupChannels s) = reconnectAttempts s.
Proof. apply cleanupChannels_fields. Qed.
Lemma cleanup_isClosing s : isClosing (cleanupChannels s) = isClosing s.
Proof. apply cleanupChannels_fields. Qed.
Lemma cleanup_connectorTokens s : connectorTokens (cleanupChannels s) = connectorTokens s.
Proof. apply cleanupChannels_fields. Qed.
Lemma cleanup_connections s : connections (cleanupChannels s) = connections s.
Proof. apply cleanupChannels_fields. Qed.
Lemma cleanup_reconnectTimers s : reconnectTimers (cleanupChannels s) = reconnectTimers s.
Proof. apply cleanupChannels_fields. Qed.
Lemma cleanup_uuids s : uuids (cleanupChannels s) = uuids s.
Proof. apply cleanupChannels_fields. Qed.
Lemma cleanup_wire s : wire (cleanupChannels s) = wire s.
Proof. apply cleanupChannels_fields. Qed.
Lemma cleanup_tcpChannels s : tcpChannels (cleanupChannels s) = ∅.
Proof.
  unfold cleanupChannels; simpl.
  match goal with |- tcpChannels (destroyAll ?l ?x) = _ =>
    by destruct (destroyAll_fields l x) as (_ & _ & _ & -> & _) end.
Qed.
Lemma cleanup_udpChannels s : udpChannels (cleanupChannels s) = ∅.
Proof. reflexivity. Qed.

Lemma replay_fields s :
  options (replayTokens s) = options s ∧ ws (replayTokens s) = ws s ∧
  tcpChannels (replayTokens s) = tcpChannels s ∧
  udpChannels (replayTokens s) = udpChannels s ∧
  reconnectAttempts (replayTokens s) = reconnectAttempts s ∧
  isClosing (replayTokens s) = isClosing s ∧
  connectorTokens (replayTokens s) = connectorTokens s ∧
  connections (replayTokens s) = connections s ∧
  sockets (replayTokens s) = sockets s ∧
  reconnectTimers (replayTokens s) = reconnectTimers s.
Proof. apply session_fields, replayTokens_spec. Qed.

Lemma replay_options s : options (replayTokens s) = options s.
Proof. apply replay_fields. Qed.
Lemma replay_ws s : ws (replayTokens s) = ws s.
Proof. apply replay_fields. Qed.
Lemma replay_reconnectAttempts s : reconnectAttempts (replayTokens s) = reconnectAttempts s.
Proof. apply replay_fields. Qed.
Lemma replay_isClosing s : isClosing (replayTokens s) = isClosing s.
Proof. apply replay_fields. Qed.
Lemma replay_connectorTokens s : connectorTokens (replayTokens s) = connectorTokens s.
Proof. apply replay_fields. Qed.
Lemma replay_connections s : connections (replayTokens s) = connections s.
Proof. apply replay_fields. Qed.
Lemma replay_reconnectTimers s : reconnectTimers (replayTokens s) = reconnectTimers s.
Proof. apply replay_fields. Qed.
Lemma replay_sockets s : sockets (replayTokens s) = sockets s.
Proof. apply replay_fields. Qed.

Lemma provider_eq s s' :
  options s = options s' → ws s = ws s' → instanceId s = instanceId s' →
  tcpChannels s = tcpChannels s' → udpChannels s = udpChannels s' →
  reconnectAttempts s = reconnectAttempts s' → isClosing s = isClosing s' →
  partnersCount s = partnersCount s' → connectorTokens s = connectorTokens s' →
  connections s = connections s' → sockets s = sockets s' →
  reconnectTimers s = reconnectTimers s' → uuids s = uuids s' → wire s = wire s' →
  s = s'.
Proof. destruct s, s'; simpl; intros; by subst. Qed.

Lemma destroyAll_app l1 l2 s : destroyAll (l1 ++ l2) s = destroyAll l1 (destroyAll l2 s).
Proof. unfold destroyAll. apply foldr_app. Qed.

Lemma destroyAll_closeCalls sids : ∀ s sid x,
  sockets s !! sid = Some x →
  ∃ x', sockets (destroyAll sids s) !! sid = Some x' ∧
        closeCalls x' = (closeCalls x + length (filter (λ i, i = sid) sids))%nat.
Proof.
  induction sids as [|i sids IH]; intros s sid x Hx; simpl.
  - exists x. split; [done|]. lia.
  - destruct (IH s sid x Hx) as (x1 & Hx1 & Hc1).
    unfold socket_destroy; simpl. rewrite filter_cons.
    destruct (decide (i = sid)) as [->|Hne].
    + rewrite list_lookup_alter_eq, Hx1. simpl. eexists. split; [done|].
      unfold destroyed. destruct (phase x1); simpl; lia.
    + rewrite list_lookup_alter_ne by done. exists x1. split; [done|]. lia.
Qed.

Lemma destroyAll_sockets_congr l : ∀ a b,
  sockets a = sockets b → sockets (destroyAll l a) = sockets (destroyAll l b).
Proof.
  induction l as [|i l IHl]; intros a b Hab; simpl; [done|].
  unfold socket_destroy; simpl. by rewrite (IHl a b Hab).
Qed.

Lemma cleanupChannels_sockets s :
  sockets (cleanupChannels s) = sockets (destroyAll (registeredSockets s) s).
Proof.
  unfold cleanupChannels, registeredSockets. simpl.
  set (l1 := tcp_socket <$> _). set (s1 := destroyAll l1 s).
  destruct (destroyAll_fields l1 s) as (_ & _ & _ & _ & Hu & _). fold s1 in Hu.
  rewrite Hu. set (l2 := udp_socket <$> _).
  rewrite (destroyAll_sockets_congr l2 (set_tcpChannels ∅ s1) s1) by done.
  subst s1. rewrite <- destroyAll_app.
  clear Hu. generalize dependent s.
  assert (Hperm : ∀ (la lb : list nat) s, la ≡ₚ lb →
            sockets (destroyAll la s) = sockets (destroyAll lb s)).
  { intros la lb s0 Hp. induction Hp as [|i la lb Hp IHp|i j la|la lb lc Hp1 IH1 Hp2 IH2];
      simpl; unfold socket_destroy; simpl.
    - done.
    - by rewrite IHp.
    - destruct (decide (i = j)) as [->|Hij]; [done|].
      by apply list_alter_alter_ne.
    - by rewrite IH1. }
  intros s. apply Hperm. apply Permutation_app_comm.
Qed.


Opaque cleanupChannels replayTokens.

Ltac unfold_relay :=
  unfold ws_on_close, ws_on_error, ws_on_open, ws_on_timeout, handleAuthResponse,
    handleDisconnect, attemptReconnect, connect, thrown, close, resolve, reject,
    clearTimeout, ws_close, set_readyState in *.

Ltac fold_fields :=
  rewrite ?cleanup_options, ?cleanup_ws, ?cleanup_reconnectAttempts, ?cleanup_isClosing,
    ?cleanup_connectorTokens, ?cleanup_connections, ?cleanup_reconnectTimers,
    ?cleanup_uuids, ?cleanup_wire, ?cleanup_tcpChannels, ?cleanup_udpChannels,
    ?replay_options, ?replay_ws, ?replay_reconnectAttempts, ?replay_isClosing,
    ?replay_connectorTokens, ?replay_connections, ?replay_reconnectTimers,
    ?replay_sockets in *.

(** ** Connector tokens *)

Lemma set_add_elem t l : t ∈ set_add t l.
Proof. unfold set_add. case_bool_decide; set_solver. Qed.

Lemma set_add_mono t u l : u ∈ l → u ∈ set_add t l.
Proof. unfold set_add. case_bool_decide; set_solver. Qed.

Lemma set_add_NoDup t l : NoDup l → NoDup (set_add t l).
Proof.
  unfold set_add. intros Hl. case_bool_decide as Ht; [done|].
  apply NoDup_app. repeat split; [done| |apply NoDup_singleton].
  intros x Hx Hx'. apply list_elem_of_singleton in Hx'. by subst.
Qed.

Lemma set_delete_NoDup t l : NoDup l → NoDup (set_delete t l).
Proof. apply NoDup_filter. Qed.

Lemma step_connectorTokens s e :
  connectorTokens (step s e) = connectorTokens s ∨
  (∃ t, connectorTokens (step s e) = set_add t (connectorTokens s)) ∨
  (∃ t, connectorTokens (step s e) = set_delete t (connectorTokens s)).
Proof.
  destruct e; unfold_handlers; unfold_relay.
  all: repeat (case_match; simplify_eq/=); rewrite ?send_eq; fold_fields; simpl;
    fold_fields; eauto.
Qed.

(** The token registry is a set: no event introduces a duplicate. *)
Lemma step_tokens_NoDup s e :
  NoDup (connectorTokens s) → NoDup (connectorTokens (step s e)).
Proof.
  intros Hs. destruct (step_connectorTokens s e) as [-> | [[t ->] | [t ->]]];
    auto using set_add_NoDup, set_delete_NoDup.
Qed.

Lemma run_tokens_NoDup es : ∀ s,
  NoDup (connectorTokens s) → NoDup (connectorTokens (run s es)).
Proof.
  induction es as [|e es IH]; intros s Hs; simpl; [done|].
  apply IH. by apply step_tokens_NoDup.
Qed.

(** C5, as the code has it.  [addConnectorToken] leaves the token set as it
    is and, over an open relay socket, emits one [Connector] frame with
    operation [add] and the token, the empty one when it is called without
    a token; a token that is not empty becomes a member when a
    [ConnectorResponse] with [success] and that token arrives, and a later
    response for any token keeps it.  A response without [success], with
    the empty token or with none changes nothing. *)
Theorem addConnectorToken_membership_on_confirmation (s : LocalProvider) (t : string) :
  getConnectorTokens (addConnectorToken (Some t) s) = getConnectorTokens s ∧
  (isConnected s = true →
   ∃ k, ws s = Some k ∧
        wire (addConnectorToken (Some t) s) =
        wire s ++ [(k, ConnectorMessage (uuidv4 (uuids s)) t "add")]) ∧
  (truthy t = true →
   t ∈ getConnectorTokens (handleConnectorResponse true (Some t) s)) ∧
  (∀ u ok tok, u ∈ getConnectorTokens s →
               u ∈ getConnectorTokens (handleConnectorResponse ok tok s)) ∧
  addConnectorToken None s = addConnectorToken (Some ""%string) s ∧
  (∀ ok, handleConnectorResponse ok (Some ""%string) s = s ∧
         handleConnectorResponse ok None s = s) ∧
  (∀ tok, handleConnectorResponse false tok s = s).
Proof.
  split; [|split; [|split; [|split; [|split; [|split]]]]].
  - unfold getConnectorTokens.
    by destruct (session_fields _ _ (addConnectorToken_session (Some t) s))
      as (_ & _ & _ & _ & _ & _ & ? & _).
  - intros Hc. unfold addConnectorToken. rewrite or_else_some.
    destruct (send_connected (ConnectorMessage (uuidv4 (uuids s)) t "add")
                (set_uuids (S (uuids s)) s) Hc) as (k & Hk & ->).
    exists k. split; [exact Hk | done].
  - intros Ht. unfold handleConnectorResponse, getConnectorTokens. rewrite Ht. simpl.
    apply set_add_elem.
  - intros u ok tok Hu. unfold handleConnectorResponse, getConnectorTokens.
    destruct tok as [t'|]; [|done].
    destruct (ok && truthy t'); [|done]. simpl. by apply set_add_mono.
  - done.
  - intros ok. unfold handleConnectorResponse. simpl. by rewrite andb_false_r.
  - intros [t'|]; done.
Qed.

(** ** Reconnection *)

Lemma occurrences_absent t l : t ∉ l → occurrences t l = 0%nat.
Proof.
  unfold occurrences. induction l as [|x l IH]; intros Ht; [done|].
  apply not_elem_of_cons in Ht as [Hne Ht].
  rewrite filter_cons, decide_False by (intros ->; done). by apply IH.
Qed.

Lemma occurrences_NoDup t l : NoDup l → t ∈ l → occurrences t l = 1%nat.
Proof.
  unfold occurrences. induction 1 as [|x l Hx Hl IH]; intros Ht.
  - by apply elem_of_nil in Ht.
  - rewrite filter_cons. apply elem_of_cons in Ht as [->|Ht].
    + rewrite decide_True by done. simpl. f_equal.
      apply length_zero_iff_nil. clear -Hx.
      induction l as [|y l IHl]; [done|].
      rewrite filter_cons. apply not_elem_of_cons in Hx as [Hne Hx].
      rewrite decide_False by done. by apply IHl.
    + rewrite decide_False; [by apply IH|]. intros ->. done.
Qed.

Lemma addedTokens_imap k (g : nat → string) ts :
  addedTokens (imap (λ i t, (k, ConnectorMessage (g i) t "add")) ts) = ts.
Proof.
  revert g. induction ts as [|t ts IH]; intros g; [done|].
  simpl. unfold addedTokens in *. simpl. f_equal. apply (IH (g ∘ S)).
Qed.

Lemma run_app s es1 es2 : run s (es1 ++ es2) = run (run s es1) es2.
Proof. unfold run. apply foldl_app. Qed.

Lemma channelEvents_awaitingAuth k es : ∀ s,
  forallb channelEvent es = true → awaitingAuth k s → awaitingAuth k (run s es).
Proof.
  induction es as [|e es IH]; intros s Hes Hs; [done|].
  simpl in Hes. apply andb_prop in Hes as [He Hes]. simpl. apply IH; [done|].
  destruct (relayView_fields _ _ (channelEvent_relayView e s He))
    as (_ & Hws & Hra & _ & Hcn & _).
  unfold awaitingAuth. by rewrite Hws, Hra, Hcn.
Qed.

(** [connect()] with a URL that [ws] accepts appends a connecting socket and
    makes it the relay socket; the sockets before it are as they were, but
    for the previous relay socket, which [connect()] closes. *)
Lemma connect_fresh aw s u :
  buildWebSocketUrl (options s) = Some u → websocket_error u = None →
  ∃ old, length old = length (connections s) ∧
         (∀ j, old !! j = connections s !! j ∨ old !! j = closing <$> connections s !! j) ∧
         connect aw s =
         set_ws (Some (length (connections s)))
           (set_connections (old ++ [freshConnection u aw]) s).
Proof.
  intros Hu Hw. unfold connect.
  destruct (ws s) as [j|] eqn:Hws.
  - exists (alter closing j (connections s)). split; [by rewrite length_alter|]. split.
    + intros i. destruct (decide (j = i)) as [->|Hne].
      * right. apply list_lookup_alter_eq.
      * left. by apply list_lookup_alter_ne.
    + unfold ws_close; simpl. rewrite Hu, Hw. by rewrite length_alter.
  - exists (connections s). split; [done|]. split; [by left|]. by rewrite Hu, Hw.
Qed.

(** The reconnect timer fires with a relay URL that [ws] accepts, and the
    new socket opens. *)
Lemma reconnect_open s u :
  (0 < reconnectTimers s)%nat →
  buildWebSocketUrl (options s) = Some u → websocket_error u = None →
  let k := length (connections s) in
  let s2 := run s [ReconnectTimer; WsOpen k] in
  awaitingAuth k s2 ∧ connectorTokens s2 = connectorTokens s ∧ wire s2 = wire s ∧
  uuids s2 = uuids s.
Proof.
  intros Ht Hu Hw k s2. subst s2. unfold run; simpl.
  destruct (reconnectTimers s) as [|n] eqn:Hn; [lia|].
  destruct (connect_fresh ByReconnect (set_reconnectTimers n s) u Hu Hw)
    as (old & Hlen & _ & ->).
  simpl in *. fold k. fold k in Hlen.
  rewrite lookup_app_r by lia. rewrite Hlen, Nat.sub_diag. simpl.
  unfold awaitingAuth, ws_on_open, set_readyState; simpl.
  repeat split; try done.
  eexists. split.
  { rewrite alter_app_r_alt by lia. rewrite lookup_app_r by lia.
    rewrite Hlen, Nat.sub_diag. done. }
  done.
Qed.

(** The [AuthResponse] that resolves the reconnect timer's [connect()]
    replays the token set over the relay socket. *)
Lemma auth_success_replays k s err :
  awaitingAuth k s →
  let s' := step s (WsMessage k (Some (AuthResponseMessage true err))) in
  reconnectAttempts s' = 0%Z ∧ isConnected s' = true ∧
  (∃ c, connections s' !! k = Some c ∧ promise c = Resolved) ∧
  connectorTokens s' = connectorTokens s ∧
  wire s' = wire s ++
    imap (λ i t, (k, ConnectorMessage (uuidv4 (uuids s + i)) t "add")) (connectorTokens s).
Proof.
  intros (Hws & Hra & c & Hc & Hrs & Hp & Ha). simpl.
  rewrite Hc. unfold connection_event. rewrite Hrs.
  unfold ws_on_message, handleMessage, handleAuthResponse, resolve.
  assert (Hc1 : connections (clearTimeout k s) !! k = Some (clear c)).
  { unfold clearTimeout; simpl. by rewrite list_lookup_alter_eq, Hc. }
  rewrite Hc1.
  assert (Hp1 : promise (clear c) = Pending).
  { unfold clear. by destruct (timeout c). }
  assert (Ha1 : awaiter (clear c) = ByReconnect).
  { unfold clear. by destruct (timeout c). }
  assert (Hr1 : readyState (clear c) = OPEN).
  { unfold clear. by destruct (timeout c). }
  rewrite Hp1, Ha1.
  set (s3 := set_connections _ (clearTimeout k s)).
  assert (Hc3 : connections s3 !! k = Some (with_promise Resolved (clear c))).
  { subst s3; simpl. by rewrite list_lookup_alter_eq, list_lookup_alter_eq, Hc. }
  assert (Hws3 : ws s3 = Some k) by done.
  assert (Hcon3 : isConnected s3 = true).
  { unfold isConnected. by rewrite Hws3, Hc3; simpl; rewrite Hr1. }
  destruct (replayTokens_spec s3) as (Hsess & _ & Hwire).
  destruct (session_fields _ _ Hsess) as (_ & Hws' & _ & _ & Hra' & _ & Htok & Hcn & _).
  repeat split.
  - by rewrite Hra'.
  - by rewrite (isConnected_session _ _ Hsess).
  - exists (with_promise Resolved (clear c)). by rewrite Hcn.
  - by rewrite Htok.
  - rewrite Hwire. unfold replayFrames. by rewrite Hws3, Hcon3.
Qed.

(** C6, as the code has it.  A reconnection made by the reconnect timer:
    the timer fires, [ws] accepts the relay URL, the new relay socket opens,
    frames other than [AuthResponse] and channel events may come in, and
    [AuthResponse] with [success] arrives.  Then the attempt counter is zero
    and the frames sent on that occasion are exactly one [Connector]/[add]
    frame per token the registry holds, each token once, and none for a
    token it does not hold. *)
Theorem reconnect_resets_counter_and_replays_tokens
    (s : LocalProvider) (u : string) (es : list Event) (err : option string) :
  (0 < reconnectTimers s)%nat →
  buildWebSocketUrl (options s) = Some u → websocket_error u = None →
  NoDup (connectorTokens s) →
  forallb channelEvent es = true →
  let k := length (connections s) in
  let before := run s ([ReconnectTimer; WsOpen k] ++ es) in
  let after := step before (WsMessage k (Some (AuthResponseMessage true err))) in
  reconnectAttempts after = 0%Z ∧
  isConnected after = true ∧
  (∃ c, connections after !! k = Some c ∧ promise c = Resolved) ∧
  connectorTokens after = connectorTokens before ∧
  wire after = wire before ++
    imap (λ i t, (k, ConnectorMessage (uuidv4 (uuids before + i)) t "add"))
      (connectorTokens before) ∧
  addedTokens (drop (length (wire before)) (wire after)) = connectorTokens before ∧
  (∀ t, t ∈ connectorTokens before →
        occurrences t (addedTokens (drop (length (wire before)) (wire after))) = 1%nat) ∧
  (∀ t, t ∉ connectorTokens before →
        occurrences t (addedTokens (drop (length (wire before)) (wire after))) = 0%nat).
Proof.
  intros Ht Hu Hw Hnd Hes k before after.
  destruct (reconnect_open s u Ht Hu Hw) as (Hawait & Htok & _ & _).
  assert (Hb : awaitingAuth k before).
  { subst before. rewrite run_app. by apply channelEvents_awaitingAuth. }
  assert (Hndb : NoDup (connectorTokens before)).
  { subst before. by apply run_tokens_NoDup. }
  destruct (auth_success_replays k before err Hb) as (H1 & H2 & H3 & H4 & H5).
  fold after in H1, H2, H3, H4, H5.
  assert (H6 : addedTokens (drop (length (wire before)) (wire after)) =
               connectorTokens before).
  { rewrite H5, drop_app_length. apply addedTokens_imap. }
  repeat split; try assumption.
  - intros t Hin. rewrite H6. by apply occurrences_NoDup.
  - intros t Hin. rewrite H6. by apply occurrences_absent.
Qed.

(** ** No authentication frame *)

Lemma outgoing_noAuth m s : isAuth m = false → noAuth (outgoing m s).
Proof.
  intros Hm. unfold outgoing, noAuth. repeat case_match; repeat constructor; done.
Qed.

Lemma replayFrames_noAuth s ts : noAuth (replayFrames s ts).
Proof.
  unfold replayFrames, noAuth. repeat case_match; try constructor.
  apply Forall_forall. intros f Hf.
  apply elem_of_lookup_imap in Hf as (i & t & -> & _). done.
Qed.

Lemma replay_wire s :
  wire (replayTokens s) = wire s ++ replayFrames s (connectorTokens s).
Proof. apply replayTokens_spec. Qed.

Ltac wire_tac :=
  rewrite ?send_eq; simpl; rewrite ?replay_wire, ?cleanup_wire; simpl;
  rewrite ?send_eq; simpl; rewrite ?replay_wire, ?cleanup_wire; simpl;
  rewrite <- ?app_assoc;
  first [ by (exists []; split; [by rewrite app_nil_r | constructor])
        | (eexists; split; [reflexivity|];
           unfold noAuth; rewrite ?Forall_app; repeat split;
           first [by apply outgoing_noAuth | apply replayFrames_noAuth]) ].

(** Whatever the event, the frames it makes the provider send are not
    [Auth] frames. *)
Lemma step_wire s e : ∃ l, wire (step s e) = wire s ++ l ∧ noAuth l.
Proof.
  destruct e.
  all: unfold_handlers; unfold_relay.
  all: repeat (case_match; simplify_eq/=).
  all: wire_tac.
Qed.

Lemma run_noAuth es : ∀ s, noAuth (wire s) → noAuth (wire (run s es)).
Proof.
  induction es as [|e es IH]; intros s Hs; simpl; [done|].
  apply IH. destruct (step_wire s e) as (l & -> & Hl).
  unfold noAuth in *. rewrite Forall_app. by split.
Qed.

Lemma str_app_assoc (a b c : string) : ((a +:+ b) +:+ c = a +:+ (b +:+ c))%string.
Proof.
  induction a as [|x a IH]; [done|].
  change (String x ((a +:+ b) +:+ c) = String x (a +:+ (b +:+ c)))%string.
  by rewrite IH.
Qed.

Lemma includes_char_app (c : ascii) (a b : string) :
  includes (String c "") a = false → includes (String c "") b = false →
  includes (String c "") (a +:+ b) = false.
Proof.
  intros Ha Hb. induction a as [|x a IH]; [exact Hb|].
  change (String x a +:+ b)%string with (String x (a +:+ b)).
  simpl in Ha |- *. destruct (ascii_dec c x).
  - exfalso. destruct a; simpl in Ha; discriminate.
  - simpl in Ha |- *. by apply IH.
Qed.

(** C3, as the code has it.  The derived URL is the base address followed
    by [/socket?], [?] or [&] and the fingerprint of the token; where the
    base address has no query of its own, that is the whole query of the
    URL.  If [ws] accepts the URL, [connect()] opens a socket to it and
    sends nothing: the wire is empty after [connect()] and after the socket
    opened, and the promise is pending.  If [ws] refuses the URL,
    [connect()] rejects with the error of the constructor and there is no
    socket.  No sequence of events makes the provider send an [Auth]
    frame. *)
Theorem connect_authenticates_by_url (o : ProviderOptions) (u : string) :
  buildWebSocketUrl o = Some u →
  let base := strip_trailing_slash (serverUrl o) in
  let query := ("token=" +:+ sha256_hex (token o) +:+ "&reverse=true")%string in
  let s1 := connect ByCaller (new_LocalProvider o) in
  let s2 := step s1 (WsOpen 0) in
  (∃ sep, (sep = "?" ∨ sep = "&" ∨ sep = "/socket?")%string ∧
          u = (base +:+ sep +:+ query)%string) ∧
  (includes "?" base = false →
   ∃ pre, includes "?" pre = false ∧ u = (pre +:+ "?" +:+ query)%string) ∧
  (websocket_error u = None →
   ws s1 = Some 0%nat ∧
   connections s1 = [freshConnection u ByCaller] ∧
   wire s1 = [] ∧
   wire s2 = [] ∧
   connections s2 = [with_readyState OPEN (freshConnection u ByCaller)]) ∧
  (∀ message, websocket_error u = Some message →
   ws s1 = None ∧
   connections s1 =
     [{| url := None; readyState := CLOSED; promise := Rejected message;
         awaiter := ByCaller; timeout := Cleared |}] ∧
   wire s1 = [] ∧
   s2 = s1) ∧
  ∀ es, noAuth (wire (run (new_LocalProvider o) es)).
Proof.
  intros Hu base query s1 s2. subst s1 s2.
  unfold connect. simpl. rewrite Hu. simpl.
  split; [|split; [|split; [|split]]].
  - unfold buildWebSocketUrl in Hu. fold base in Hu.
    destruct (url_pathname base) as [p|]; [|done].
    destruct (_ && _); injection Hu as <-.
    + destruct (includes "?" base); [exists "&"%string | exists "?"%string]; auto.
    + exists "/socket?"%string. auto.
  - intros Hq. unfold buildWebSocketUrl in Hu. fold base in Hu.
    destruct (url_pathname base) as [p|]; [|done].
    destruct (_ && _); injection Hu as <-.
    + rewrite Hq. by exists base.
    + exists (base +:+ "/socket")%string. split.
      * by apply includes_char_app.
      * by rewrite str_app_assoc.
  - intros Hw. rewrite Hw. simpl. done.
  - intros message Hw. rewrite Hw. simpl. done.
  - intros es. apply run_noAuth. constructor.
Qed.

(** ** Duplicate [Connect] *)

Lemma outgoing_relayView m s s' :
  ws s' = ws s → connections s' = connections s → outgoing m s' = outgoing m s.
Proof. intros Hws Hcn. unfold outgoing, isConnected. by rewrite Hws, Hcn. Qed.

(** [handleTCPConnect] creates one socket, not yet connected, and touches
    nothing else. *)
Lemma handleTCPConnect_spec c a p s :
  ∃ x, sockets (handleTCPConnect c a p s) = sockets s ++ [x] ∧
       kind x = NetSocket ∧ phase x = Opening ∧ sock_channelId x = c ∧
       destroyError x = None ∧ closeCalls x = 0%nat ∧
       outsideSockets (handleTCPConnect c a p s) = outsideSockets s.
Proof.
  unfold handleTCPConnect, connectViaProxy. simpl.
  destruct (truthy (upstreamProxy (options s))).
  - destruct (upstreamProxyType (options s)); simpl.
    all: rewrite alter_app_r_alt by lia; rewrite Nat.sub_diag; simpl.
    all: eexists; split; [reflexivity|]; done.
  - eexists; split; [reflexivity|]; done.
Qed.

(** The ['connect'] event of a TCP socket that is still opening registers
    its channel under the socket's identifier and reports success. *)
Lemma tcp_connect_spec sid x s :
  sockets s !! sid = Some x → kind x = NetSocket → phase x = Opening →
  let s' := step s (TcpConnect sid) in
  tcpChannels s' =
    <[sock_channelId x := {| tcp_socket := sid; tcp_channelId := sock_channelId x |}]>
      (tcpChannels s) ∧
  udpChannels s' = udpChannels s ∧
  wire s' = wire s ++ outgoing (ConnectResponseMessage true (sock_channelId x) None) s ∧
  ∀ j, j ≠ sid → sockets s' !! j = sockets s !! j.
Proof.
  intros Hx Hk Hp. simpl. rewrite Hx, Hk. unfold tcp_event. rewrite Hp.
  unfold tcp_on_connect, register_tcp, sendConnectResponse, socket_write, set_phase.
  rewrite !send_eq. simpl.
  destruct (connectCallback x); [destruct (upstreamProxyType (options s))|]; simpl.
  all: repeat split; try done.
  all: intros j Hj; by rewrite ?list_lookup_alter_ne by done.
Qed.

Lemma udp_listening_spec sid x s :
  sockets s !! sid = Some x → kind x = DgramSocket → phase x = Opening →
  let s' := step s (UdpListening sid) in
  udpChannels s' =
    <[sock_channelId x := {| udp_socket := sid; udp_channelId := sock_channelId x;
                             clientAddr := None; clientPort := None |}]>
      (udpChannels s) ∧
  tcpChannels s' = tcpChannels s ∧
  wire s' = wire s ++ outgoing (ConnectResponseMessage true (sock_channelId x) None) s ∧
  ∀ j, j ≠ sid → sockets s' !! j = sockets s !! j.
Proof.
  intros Hx Hk Hp. simpl. rewrite Hx, Hk. unfold udp_event. rewrite Hp.
  unfold udp_on_listening, sendConnectResponse, set_phase.
  rewrite !send_eq. simpl.
  repeat split; try done.
  intros j Hj. by rewrite list_lookup_alter_ne by done.
Qed.

Lemma outsideSockets_fields s s' :
  outsideSockets s' = outsideSockets s →
  ws s' = ws s ∧ tcpChannels s' = tcpChannels s ∧ udpChannels s' = udpChannels s ∧
  connections s' = connections s ∧ wire s' = wire s.
Proof.
  unfold outsideSockets. intros [= ? ? ? ? ? ? ? ? ? ? ? ? ?]. repeat split; assumption.
Qed.

(** C1, as the code has it.  A [Connect] frame for an identifier that already
    has a channel is neither rejected nor ignored.  For TCP a new socket is
    opened; when it connects, its channel takes the place of the registered
    one under that identifier and success is reported, and the socket of the
    replaced channel is left exactly as it was.  UDP behaves the same way
    when the new socket is bound.  Each registry being a map, it holds one
    channel per identifier. *)
Theorem duplicate_connect_replaces_channel
    (s : LocalProvider) (k : nat) (conn : Connection) (c : string)
    (a : option string) (p : option Z) :
  connections s !! k = Some conn →
  readyState conn = OPEN →
  let sid := length (sockets s) in
  (∀ ch, tcpChannels s !! c = Some ch →
     (tcp_socket ch < length (sockets s))%nat →
     let s1 := step s (WsMessage k (Some (ConnectMessage "tcp" c a p))) in
     let s2 := step s1 (TcpConnect sid) in
     tcpChannels s1 = tcpChannels s ∧ wire s1 = wire s ∧
     length (sockets s1) = S sid ∧
     tcpChannels s2 = <[c := {| tcp_socket := sid; tcp_channelId := c |}]> (tcpChannels s) ∧
     wire s2 = wire s ++ outgoing (ConnectResponseMessage true c None) s ∧
     sockets s2 !! tcp_socket ch = sockets s !! tcp_socket ch) ∧
  (∀ ch, udpChannels s !! c = Some ch →
     (udp_socket ch < length (sockets s))%nat →
     let s1 := step s (WsMessage k (Some (ConnectMessage "udp" c None None))) in
     let s2 := step s1 (UdpListening sid) in
     udpChannels s1 = udpChannels s ∧ wire s1 = wire s ∧
     length (sockets s1) = S sid ∧
     udpChannels s2 = <[c := {| udp_socket := sid; udp_channelId := c;
                                clientAddr := None; clientPort := None |}]> (udpChannels s) ∧
     wire s2 = wire s ++ outgoing (ConnectResponseMessage true c None) s ∧
     sockets s2 !! udp_socket ch = sockets s !! udp_socket ch).
Proof.
  intros Hk Hopen sid. split.
  - intros ch Hch Hlt s1 s2.
    assert (Hs1 : s1 = handleTCPConnect c a p s).
    { subst s1. simpl. rewrite Hk. unfold connection_event. by rewrite Hopen. }
    destruct (handleTCPConnect_spec c a p s) as (x & Hso & Hkind & Hph & Hid & _ & _ & Hout).
    rewrite <- Hs1 in Hso, Hout.
    destruct (outsideSockets_fields _ _ Hout) as (Hws & Htcp & Hudp & Hcn & Hw).
    assert (Hx : sockets s1 !! sid = Some x).
    { rewrite Hso. rewrite lookup_app_r by (subst sid; lia).
      subst sid. by rewrite Nat.sub_diag. }
    destruct (tcp_connect_spec sid x s1 Hx Hkind Hph) as (Ht2 & _ & Hw2 & Hso2).
    fold s2 in Ht2, Hw2, Hso2. rewrite Hid in Ht2, Hw2.
    repeat split; try done.
    + rewrite Hso, length_app. simpl. subst sid. lia.
    + by rewrite Ht2, Htcp.
    + rewrite Hw2, Hw. f_equal. by apply outgoing_relayView.
    + rewrite Hso2 by (subst sid; lia). rewrite Hso. by rewrite lookup_app_l by lia.
  - intros ch Hch Hlt s1 s2.
    assert (Hs1 : s1 = handleUDPConnect c s).
    { subst s1. simpl. rewrite Hk. unfold connection_event. by rewrite Hopen. }
    set (x := new_socket DgramSocket c None None).
    assert (Hx : sockets s1 !! sid = Some x).
    { rewrite Hs1. unfold handleUDPConnect. simpl.
      rewrite lookup_app_r by (subst sid; lia). subst sid. by rewrite Nat.sub_diag. }
    destruct (udp_listening_spec sid x s1 Hx eq_refl eq_refl) as (Hu2 & _ & Hw2 & Hso2).
    fold s2 in Hu2, Hw2, Hso2. simpl in Hu2, Hw2.
    rewrite Hs1 in *. unfold handleUDPConnect in *. simpl in *.
    repeat split; try done.
    + rewrite length_app. simpl. subst sid. lia.
    + rewrite Hso2 by (subst sid; lia). by rewrite lookup_app_l by lia.
Qed.

(** ** [Disconnect] from the relay *)

Lemma handleDisconnectMessage_view c s :
  wire (handleDisconnectMessage c s) = wire s ∧
  ws (handleDisconnectMessage c s) = ws s ∧
  connections (handleDisconnectMessage c s) = connections s ∧
  tcpChannels (handleDisconnectMessage c s) = delete c (tcpChannels s) ∧
  udpChannels (handleDisconnectMessage c s) = delete c (udpChannels s).
Proof.
  unfold handleDisconnectMessage, socket_destroy.
  destruct (tcpChannels s !! c) as [ch|] eqn:Ht; simpl;
    (destruct (udpChannels s !! c) as [uch|] eqn:Hu; simpl);
    repeat split; try done; by rewrite delete_id.
Qed.

Lemma handleDisconnectMessage_tcp_socket c s ch x :
  tcpChannels s !! c = Some ch →
  sockets s !! tcp_socket ch = Some x →
  (∀ uch, udpChannels s !! c = Some uch → udp_socket uch ≠ tcp_socket ch) →
  sockets (handleDisconnectMessage c s) !! tcp_socket ch = Some (destroyed None x).
Proof.
  intros Ht Hx Hne. unfold handleDisconnectMessage, socket_destroy. rewrite Ht. simpl.
  destruct (udpChannels s !! c) as [uch|] eqn:Hu; simpl.
  - rewrite list_lookup_alter_ne by (by apply Hne).
    by rewrite list_lookup_alter_eq, Hx.
  - by rewrite list_lookup_alter_eq, Hx.
Qed.

Lemma handleDisconnectMessage_udp_socket c s uch x :
  udpChannels s !! c = Some uch →
  sockets s !! udp_socket uch = Some x →
  (∀ ch, tcpChannels s !! c = Some ch → tcp_socket ch ≠ udp_socket uch) →
  sockets (handleDisconnectMessage c s) !! udp_socket uch = Some (destroyed None x).
Proof.
  intros Hu Hx Hne. unfold handleDisconnectMessage, socket_destroy.
  destruct (tcpChannels s !! c) as [ch|] eqn:Ht; simpl; rewrite Hu; simpl.
  - rewrite list_lookup_alter_eq. rewrite list_lookup_alter_ne by (by apply Hne).
    by rewrite Hx.
  - by rewrite list_lookup_alter_eq, Hx.
Qed.

(** C4, as the code has it.  Handling [Disconnect] for an identifier sends
    nothing, removes the identifier from both registries and calls
    [destroy()] (TCP) or [close()] (UDP) on the socket of each channel
    registered under it.  The ['close'] event that the destroyed TCP socket
    emits next runs its close listener, which sends one [Disconnect] frame
    for the identifier over the open relay socket; the ['close'] of a UDP
    socket sends nothing. *)
Theorem relay_disconnect_teardown (s : LocalProvider) (c : string) :
  let s1 := handleDisconnectMessage c s in
  wire s1 = wire s ∧
  tcpChannels s1 !! c = None ∧
  udpChannels s1 !! c = None ∧
  (∀ ch x,
     tcpChannels s !! c = Some ch →
     sockets s !! tcp_socket ch = Some x →
     (∀ uch, udpChannels s !! c = Some uch → udp_socket uch ≠ tcp_socket ch) →
     sockets s1 !! tcp_socket ch = Some (destroyed None x) ∧
     (kind x = NetSocket → phase x = Live → destroyError x = None →
      sock_channelId x = c →
      phase (destroyed None x) = Destroyed ∧
      closeCalls (destroyed None x) = S (closeCalls x) ∧
      wire (step s1 (TcpClose (tcp_socket ch))) =
      wire s ++ outgoing (DisconnectMessage c) s)) ∧
  (∀ uch x,
     udpChannels s !! c = Some uch →
     sockets s !! udp_socket uch = Some x →
     (∀ ch, tcpChannels s !! c = Some ch → tcp_socket ch ≠ udp_socket uch) →
     sockets s1 !! udp_socket uch = Some (destroyed None x) ∧
     (kind x = DgramSocket → phase x = Live →
      phase (destroyed None x) = Destroyed ∧
      closeCalls (destroyed None x) = S (closeCalls x) ∧
      wire (step s1 (UdpClose (udp_socket uch))) = wire s)).
Proof.
  intros s1.
  destruct (handleDisconnectMessage_view c s) as (Hw & Hws & Hcn & Ht & Hu).
  fold s1 in Hw, Hws, Hcn, Ht, Hu.
  split; [done|]. split; [by rewrite Ht, lookup_delete_eq|].
  split; [by rewrite Hu, lookup_delete_eq|]. split.
  - intros ch x Hch Hx Hne.
    pose proof (handleDisconnectMessage_tcp_socket c s ch x Hch Hx Hne) as Hx1.
    fold s1 in Hx1. split; [done|].
    intros Hk Hp He Hid. unfold destroyed at 1 2. rewrite Hp. simpl.
    split; [done|]. split; [done|].
    rewrite Hx1. unfold destroyed. rewrite Hp. simpl. rewrite Hk.
    unfold tcp_event. simpl.
    unfold tcp_on_close, sendDisconnect, set_phase. rewrite send_eq. simpl.
    rewrite Hw, Hid. f_equal. by apply outgoing_relayView.
  - intros uch x Huch Hx Hne.
    pose proof (handleDisconnectMessage_udp_socket c s uch x Huch Hx Hne) as Hx1.
    fold s1 in Hx1. split; [done|].
    intros Hk Hp. unfold destroyed at 1 2. rewrite Hp. simpl.
    split; [done|]. split; [done|].
    rewrite Hx1. unfold destroyed. rewrite Hp. simpl. rewrite Hk.
    unfold udp_event. simpl. done.
Qed.

(** ** Reconnect exhaustion *)

Lemma attemptReconnect_exhausted s : exhausted s → attemptReconnect s = s.
Proof.
  intros [Hpos Hmax]. unfold attemptReconnect.
  apply Z.ltb_lt in Hpos. apply Z.leb_le in Hmax. by rewrite Hpos, Hmax.
Qed.

Lemma attemptReconnect_counts s :
  ¬ exhausted s →
  reconnectAttempts (attemptReconnect s) = (reconnectAttempts s + 1)%Z ∧
  reconnectTimers (attemptReconnect s) = S (reconnectTimers s).
Proof.
  intros Hne. unfold attemptReconnect.
  destruct (0 <? maxReconnectAttempts (options s))%Z eqn:Hpos;
    destruct (maxReconnectAttempts (options s) <=? reconnectAttempts s)%Z eqn:Hmax;
    simpl; try done.
  exfalso. apply Hne. split; [by apply Z.ltb_lt | by apply Z.leb_le].
Qed.

(** ** The promise of [connect()] *)

Lemma alter_frozen (f : Connection → Connection) (j : nat) (l : list Connection) k c :
  l !! k = Some c → (j = k → f c = c) → alter f j l !! k = Some c.
Proof.
  intros Hc Hf. destruct (decide (j = k)) as [->|Hne].
  - rewrite list_lookup_alter_eq, Hc. simpl. by rewrite Hf.
  - by rewrite list_lookup_alter_ne.
Qed.

Lemma closing_closed c : readyState c = CLOSED → closing c = c.
Proof. intros Hc. unfold closing. by rewrite Hc. Qed.

Lemma clear_unarmed c : timeout c ≠ Armed → clear c = c.
Proof. intros Hc. unfold clear. by destruct (timeout c). Qed.

Lemma connect_frozen aw s k c :
  connections s !! k = Some c → readyState c = CLOSED →
  connections (connect aw s) !! k = Some c.
Proof.
  intros Hc Hcl. unfold connect, ws_close.
  assert (Hlt : (k < length (connections s))%nat) by (by eapply lookup_lt_Some).
  destruct (ws s) as [j|]; simpl; destruct (buildWebSocketUrl (options s)) as [u|]; simpl.
  all: try destruct (websocket_error u); simpl.
  all: rewrite lookup_app_l by (rewrite ?length_alter; lia).
  all: try done.
  all: apply alter_frozen; [done|]; intros _; by apply closing_closed.
Qed.

(** A relay socket that emitted ['close'] and whose connect timer is not
    armed is out of reach: no event changes its record, its promise
    included. *)
Lemma closed_connection_frozen s e k c :
  connections s !! k = Some c → readyState c = CLOSED → timeout c ≠ Armed →
  connections (step s e) !! k = Some c.
Proof.
  intros Hc Hcl Hto.
  destruct (channelEvent e) eqn:Hch.
  { destruct (relayView_fields _ _ (channelEvent_relayView e s Hch))
      as (_ & _ & _ & _ & Hcn & _).
    by rewrite Hcn. }
  assert (Hclose : closing c = c) by (by apply closing_closed).
  assert (Hclear : clear c = c) by (by apply clear_unarmed).
  destruct e as [| | | |j|j raw|j err|j|j| | | | | | | | |]; try discriminate Hch.
  - by apply connect_frozen.
  - unfold step, close.
    set (s1 := cleanupChannels (set_isClosing true s)).
    destruct (cleanupChannels_fields (set_isClosing true s))
      as (_ & _ & _ & _ & _ & Hcn & _).
    fold s1 in Hcn. simpl in Hcn.
    destruct (ws s1) as [i|]; unfold ws_close; simpl; rewrite Hcn; [|done].
    by apply alter_frozen.
  - simpl. destruct (connections s !! j) as [cj|] eqn:Hj; [|done].
    unfold connection_event.
    destruct (readyState cj) eqn:Hr; try done.
    unfold ws_on_open, set_readyState; simpl.
    apply alter_frozen; [done|]. intros ->. congruence.
  - simpl. destruct (connections s !! j) as [cj|] eqn:Hj; [|done].
    unfold connection_event.
    destruct raw as [[]|]; try discriminate Hch.
    assert (Hjk : readyState cj ≠ CLOSED → j ≠ k).
    { intros Hne ->. rewrite Hc in Hj. by injection Hj as <-. }
    destruct (readyState cj) eqn:Hr; try done.
    all: unfold ws_on_message, handleMessage, handleAuthResponse, resolve, reject,
           clearTimeout; simpl.
    all: repeat (case_match; simpl); fold_fields; simpl.
    all: rewrite ?list_lookup_alter_ne by (by apply Hjk); done.
  - simpl. destruct (connections s !! j) as [cj|] eqn:Hj; [|done].
    unfold connection_event.
    assert (Hjk : readyState cj ≠ CLOSED → j ≠ k).
    { intros Hne ->. rewrite Hc in Hj. by injection Hj as <-. }
    destruct (readyState cj) eqn:Hr; try done.
    all: unfold ws_on_error, reject, clearTimeout, set_readyState; simpl.
    all: repeat (case_match; simpl).
    all: rewrite ?list_lookup_alter_ne by (by apply Hjk); done.
  - simpl. destruct (connections s !! j) as [cj|] eqn:Hj; [|done].
    unfold connection_event.
    assert (Hjk : readyState cj ≠ CLOSED → j ≠ k).
    { intros Hne ->. rewrite Hc in Hj. by injection Hj as <-. }
    destruct (readyState cj) eqn:Hr; try done.
    all: unfold ws_on_close, handleDisconnect, attemptReconnect, clearTimeout,
           set_readyState; simpl.
    all: repeat (case_match; simpl); fold_fields; simpl.
    all: rewrite ?list_lookup_alter_ne by (by apply Hjk); done.
  - simpl. destruct (connections s !! j) as [cj|] eqn:Hj; [|done].
    destruct (timeout cj) eqn:Ht; try done.
    assert (Hjk : j ≠ k).
    { intros ->. rewrite Hc in Hj. injection Hj as <-. done. }
    unfold ws_on_timeout, reject, ws_close; simpl.
    repeat (case_match; simpl).
    all: rewrite ?(list_lookup_alter_ne _ _ j k) by done.
    all: try done.
    all: apply alter_frozen; [by rewrite ?list_lookup_alter_ne by done | done].
  - simpl. destruct (reconnectTimers s); [done|].
    by apply connect_frozen.
Qed.

Lemma closed_connection_frozen_run es : ∀ s k c,
  connections s !! k = Some c → readyState c = CLOSED → timeout c ≠ Armed →
  connections (run s es) !! k = Some c.
Proof.
  induction es as [|e es IH]; intros s k c Hc Hcl Hto; [done|].
  simpl. apply IH; try done. by apply closed_connection_frozen.
Qed.

Lemma clear_promise x : promise (clear x) = promise x.
Proof. unfold clear. by destruct (timeout x). Qed.

Lemma closing_promise x : promise (closing x) = promise x.
Proof. unfold closing. by destruct (readyState x). Qed.

Lemma isConnected_alter (f : Connection → Connection) k s :
  (∀ x, readyState (f x) = readyState x) →
  isConnected (set_connections (alter f k (connections s)) s) = isConnected s.
Proof.
  intros Hf. unfold isConnected. simpl.
  destruct (ws s) as [j|]; [|done].
  destruct (decide (k = j)) as [->|Hne].
  - rewrite list_lookup_alter_eq. destruct (connections s !! j); simpl; [|done].
    by rewrite Hf.
  - by rewrite list_lookup_alter_ne.
Qed.

Lemma isConnected_reject k r s : isConnected (reject k r s) = isConnected s.
Proof.
  unfold reject. destruct (connections s !! k) as [x|]; [|done].
  destruct (promise x); try done. by apply isConnected_alter.
Qed.

Lemma isConnected_ws_close j s : ws s = Some j → isConnected (ws_close j s) = false.
Proof.
  intros Hws. unfold isConnected, ws_close. simpl. rewrite Hws.
  rewrite list_lookup_alter_eq. destruct (connections s !! j) as [x|]; simpl; [|done].
  unfold closing. destruct (readyState x) eqn:Hx; simpl; by rewrite ?Hx.
Qed.

(** How the listeners of connection [k] settle a pending promise: the three
    rejections and the resolution, and the ['close'] listener, which clears
    the connect timer and settles nothing. *)
Lemma connect_settlement s k c :
  connections s !! k = Some c → promise c = Pending →
  (∀ err, readyState c = OPEN →
     promise <$> connections (step s (WsMessage k (Some (AuthResponseMessage true err)))) !! k
     = Some Resolved) ∧
  (∀ err, readyState c = OPEN →
     promise <$> connections (step s (WsMessage k (Some (AuthResponseMessage false err)))) !! k
     = Some (Rejected ("Authentication failed: " +:+ or_else err "Unknown error"))) ∧
  (∀ err, readyState c ≠ CLOSED →
     promise <$> connections (step s (WsError k err)) !! k = Some (Rejected err)) ∧
  (timeout c = Armed →
     promise <$> connections (step s (ConnectTimeout k)) !! k
     = Some (Rejected "Connection timeout") ∧
     isConnected (step s (ConnectTimeout k)) = false) ∧
  (readyState c ≠ CLOSED →
     ∃ c', connections (step s (WsClose k)) !! k = Some c' ∧
           promise c' = Pending ∧ readyState c' = CLOSED ∧ timeout c' ≠ Armed).
Proof.
  intros Hc Hp.
  assert (Hclear : promise (clear c) = Pending) by (unfold clear; by destruct (timeout c)).
  repeat split.
  - intros err Hr. simpl. rewrite Hc. unfold connection_event. rewrite Hr.
    unfold ws_on_message, handleMessage, handleAuthResponse, resolve, clearTimeout. simpl.
    rewrite list_lookup_alter_eq, Hc. simpl. rewrite Hclear.
    destruct (awaiter (clear c)); fold_fields; simpl.
    all: by rewrite !list_lookup_alter_eq, Hc.
  - intros err Hr. simpl. rewrite Hc. unfold connection_event. rewrite Hr.
    unfold ws_on_message, handleMessage, handleAuthResponse, reject, clearTimeout. simpl.
    rewrite list_lookup_alter_eq, Hc. simpl. rewrite Hclear. simpl.
    by rewrite !list_lookup_alter_eq, Hc.
  - intros err Hr. simpl. rewrite Hc. unfold connection_event.
    destruct (readyState c) eqn:Hrs; try done.
    all: unfold ws_on_error, reject, clearTimeout, set_readyState; simpl.
    all: rewrite !list_lookup_alter_eq, Hc; simpl; rewrite clear_promise; simpl.
    all: rewrite Hp; simpl.
    all: by rewrite !list_lookup_alter_eq, Hc.
  - simpl. rewrite Hc, H0. unfold ws_on_timeout, reject, ws_close. simpl.
    destruct (ws s) as [j|]; simpl.
    + destruct (decide (j = k)) as [->|Hjk].
      * rewrite !list_lookup_alter_eq, Hc. simpl.
        assert (Hpc : promise (closing (with_timeout Fired c)) = Pending).
        { unfold closing. simpl. by destruct (readyState c). }
        rewrite Hpc. simpl. by rewrite !list_lookup_alter_eq, Hc.
      * rewrite list_lookup_alter_ne by done. rewrite list_lookup_alter_eq, Hc. simpl.
        rewrite Hp. simpl. rewrite list_lookup_alter_eq.
        rewrite list_lookup_alter_ne by done. by rewrite list_lookup_alter_eq, Hc.
    + rewrite list_lookup_alter_eq, Hc. simpl. rewrite Hp. simpl.
      by rewrite !list_lookup_alter_eq, Hc.
  - simpl. rewrite Hc, H0. unfold ws_on_timeout.
    rewrite isConnected_reject.
    destruct (ws _) as [j|] eqn:Hws.
    + by apply isConnected_ws_close.
    + unfold isConnected. by rewrite Hws.
  - intros Hr. simpl. rewrite Hc. unfold connection_event.
    set (c' := clear (with_readyState CLOSED c)).
    assert (Hc' : promise c' = Pending ∧ readyState c' = CLOSED ∧ timeout c' ≠ Armed).
    { subst c'. unfold clear. simpl. destruct (timeout c) eqn:Hto; simpl; by rewrite ?Hto. }
    destruct (readyState c) eqn:Hrs; try done.
    all: unfold ws_on_close, handleDisconnect, attemptReconnect, clearTimeout,
           set_readyState; simpl.
    all: exists c'; split; [|exact Hc'].
    all: repeat (case_match; simpl); fold_fields; simpl.
    all: by rewrite !list_lookup_alter_eq, Hc.
Qed.

Lemma settles_refl c : settles c c.
Proof. by left. Qed.

Lemma settles_trans c1 c2 c3 : settles c1 c2 → settles c2 c3 → settles c1 c3.
Proof.
  intros [H12|[r H12]] [H23|[r' H23]]; unfold settles.
  - left. congruence.
  - right. by exists r'.
  - right. exists r. congruence.
  - right. by exists r'.
Qed.

Lemma lookup_alter_settles (f : Connection → Connection) j (l : list Connection) k c :
  (∀ x, settles x (f x)) →
  (∃ c1, l !! k = Some c1 ∧ settles c c1) →
  ∃ c2, alter f j l !! k = Some c2 ∧ settles c c2.
Proof.
  intros Hf (c1 & Hc1 & Hs). destruct (decide (j = k)) as [->|Hne].
  - exists (f c1). rewrite list_lookup_alter_eq, Hc1. split; [done|].
    by eapply settles_trans.
  - exists c1. by rewrite list_lookup_alter_ne.
Qed.

Lemma lookup_app_settles (l : list Connection) x k c :
  (∃ c1, l !! k = Some c1 ∧ settles c c1) →
  ∃ c2, (l ++ [x]) !! k = Some c2 ∧ settles c c2.
Proof. intros (c1 & Hc1 & Hs). exists c1. split; [|done]. by apply lookup_app_l_Some. Qed.

Lemma settles_closing x : settles x (closing x).
Proof. left. apply closing_promise. Qed.
Lemma settles_clear x : settles x (clear x).
Proof. left. apply clear_promise. Qed.
Lemma settles_with_readyState r x : settles x (with_readyState r x).
Proof. by left. Qed.
Lemma settles_with_timeout t x : settles x (with_timeout t x).
Proof. by left. Qed.
Lemma settles_rejected r x : settles x (with_promise (Rejected r) x).
Proof. right. by exists r. Qed.

Ltac settle :=
  repeat first
    [ apply lookup_app_settles
    | apply lookup_alter_settles;
        [first [apply settles_closing | apply settles_clear | apply settles_with_readyState
               | apply settles_with_timeout | apply settles_rejected]|]
    | (eexists; split; [eassumption | apply settles_refl]) ].

(** Only an [AuthResponse] with [success] on connection [k] resolves the
    promise of connection [k]; every other event keeps the promise or
    rejects it. *)
Lemma resolve_needs_auth s e k c :
  connections s !! k = Some c →
  (∃ c', connections (step s e) !! k = Some c' ∧ settles c c') ∨
  (∃ err, e = WsMessage k (Some (AuthResponseMessage true err))).
Proof.
  intros Hc.
  destruct (channelEvent e) eqn:Hch.
  { left. destruct (relayView_fields _ _ (channelEvent_relayView e s Hch))
      as (_ & _ & _ & _ & Hcn & _).
    rewrite Hcn. exists c. split; [done | apply settles_refl]. }
  destruct e as [| | | |j|j raw|j err|j|j| | | | | | | | |]; try discriminate Hch.
  - left. simpl. unfold connect, ws_close. repeat case_match; simpl; settle.
  - left. unfold step, close.
    set (s1 := cleanupChannels (set_isClosing true s)).
    destruct (cleanupChannels_fields (set_isClosing true s))
      as (_ & _ & _ & _ & _ & Hcn & _).
    fold s1 in Hcn. simpl in Hcn.
    destruct (ws s1); unfold ws_close; simpl; rewrite Hcn; settle.
  - left. simpl. destruct (connections s !! j) as [cj|] eqn:Hj; [|settle].
    unfold connection_event. destruct (readyState cj); settle.
  - destruct raw as [[]|]; try discriminate Hch.
    destruct success.
    + destruct (decide (j = k)) as [->|Hjk]; [right; by eexists|].
      left. simpl. destruct (connections s !! j) as [cj|] eqn:Hj; [|settle].
      unfold connection_event. destruct (readyState cj); try settle.
      all: unfold ws_on_message, handleMessage, handleAuthResponse, resolve, clearTimeout;
        simpl.
      all: repeat (case_match; simpl); fold_fields; simpl.
      all: rewrite ?(list_lookup_alter_ne _ _ j k) by done; settle.
    + left. simpl. destruct (connections s !! j) as [cj|] eqn:Hj; [|settle].
      unfold connection_event. destruct (readyState cj); try settle.
      all: unfold ws_on_message, handleMessage, handleAuthResponse, reject, clearTimeout;
        simpl.
      all: repeat (case_match; simpl); settle.
  - left. simpl. destruct (connections s !! j) as [cj|] eqn:Hj; [|settle].
    unfold connection_event. destruct (readyState cj); try settle.
    all: unfold ws_on_error, reject, clearTimeout, set_readyState; simpl.
    all: repeat (case_match; simpl); settle.
  - left. simpl. destruct (connections s !! j) as [cj|] eqn:Hj; [|settle].
    unfold connection_event. destruct (readyState cj); try settle.
    all: unfold ws_on_close, handleDisconnect, attemptReconnect, clearTimeout,
           set_readyState; simpl.
    all: repeat (case_match; simpl); fold_fields; simpl; settle.
  - left. simpl. destruct (connections s !! j) as [cj|] eqn:Hj; [|settle].
    destruct (timeout cj); try settle.
    unfold ws_on_timeout, reject, ws_close; simpl.
    repeat (case_match; simpl); settle.
  - left. simpl. destruct (reconnectTimers s); [settle|].
    unfold connect, ws_close. repeat case_match; simpl; settle.
Qed.

Lemma resolved_only_by_auth s e k c c' :
  connections s !! k = Some c → promise c ≠ Resolved →
  connections (step s e) !! k = Some c' → promise c' = Resolved →
  ∃ err, e = WsMessage k (Some (AuthResponseMessage true err)).
Proof.
  intros Hc Hp Hc' Hp'.
  destruct (resolve_needs_auth s e k c Hc) as [(c2 & Hc2 & Hs)|Hauth]; [|done].
  rewrite Hc' in Hc2. injection Hc2 as <-.
  destruct Hs as [Hs|[r Hs]]; congruence.
Qed.

(** ** The registries and the sockets they refer to *)

Lemma idPreserving_destroyed e : idPreserving (destroyed e).
Proof. intros x. unfold destroyed. by destruct (phase x). Qed.
Lemma idPreserving_wrote d t : idPreserving (wrote d t).
Proof. intros x. unfold wrote. by destruct (phase x). Qed.
Lemma idPreserving_with_phase p : idPreserving (with_phase p).
Proof. by intros x. Qed.
Lemma idPreserving_with_listener l : idPreserving (with_listener l).
Proof. by intros x. Qed.
Lemma idPreserving_with_destroyError e : idPreserving (with_destroyError e).
Proof. by intros x. Qed.
Lemma livePreserving_wrote d t : livePreserving (wrote d t).
Proof. intros x Hx. unfold wrote. by rewrite Hx. Qed.
Lemma livePreserving_with_listener l : livePreserving (with_listener l).
Proof. by intros x. Qed.
Lemma livePreserving_with_destroyError e : livePreserving (with_destroyError e).
Proof. by intros x. Qed.
Lemma livePreserving_with_phase_Live : livePreserving (with_phase Live).
Proof. by intros x. Qed.

Lemma registryOk_ext s s' :
  sockets s' = sockets s → tcpChannels s' = tcpChannels s →
  udpChannels s' = udpChannels s → registryOk s → registryOk s'.
Proof. unfold registryOk. intros -> -> ->. done. Qed.

Lemma registryOk_send m s : registryOk s → registryOk (send m s).
Proof. rewrite send_eq. by apply registryOk_ext. Qed.

Lemma registryOk_alter f sid s :
  idPreserving f →
  (livePreserving f ∨ ∃ x, sockets s !! sid = Some x ∧ (kind x = NetSocket ∨ phase x ≠ Live)) →
  registryOk s → registryOk (set_sockets (alter f sid (sockets s)) s).
Proof.
  intros Hid Hlive [Ht Hu]. split; simpl.
  - intros c ch Hch. destruct (Ht c ch Hch) as (x & Hx & Hk & Hc).
    destruct (decide (sid = tcp_socket ch)) as [->|Hne].
    + exists (f x). rewrite list_lookup_alter_eq, Hx. destruct (Hid x) as [-> ->]. done.
    + exists x. by rewrite list_lookup_alter_ne.
  - intros c ch Hch. destruct (Hu c ch Hch) as (x & Hx & Hk & Hc & Hp).
    destruct (decide (sid = udp_socket ch)) as [->|Hne].
    + exists (f x). rewrite list_lookup_alter_eq, Hx. destruct (Hid x) as [-> ->].
      repeat split; try done.
      destruct Hlive as [Hlive | (y & Hy & Hy')]; [by apply Hlive|].
      rewrite Hx in Hy. injection Hy as <-. destruct Hy' as [Hy'|Hy']; congruence.
    + exists x. by rewrite list_lookup_alter_ne.
Qed.

Lemma registryOk_app x s :
  registryOk s → registryOk (set_sockets (sockets s ++ [x]) s).
Proof.
  intros [Ht Hu]. split; simpl.
  - intros c ch Hch. destruct (Ht c ch Hch) as (y & Hy & Hk & Hc).
    exists y. split; [|done]. by apply lookup_app_l_Some.
  - intros c ch Hch. destruct (Hu c ch Hch) as (y & Hy & Hk & Hc & Hp).
    exists y. split; [|done]. by apply lookup_app_l_Some.
Qed.

Lemma registryOk_register_tcp sid x s :
  sockets s !! sid = Some x → kind x = NetSocket →
  registryOk s → registryOk (register_tcp (sock_channelId x) sid s).
Proof.
  intros Hx Hk [Ht Hu]. split; simpl; [|done].
  apply map_Forall_insert_2; [|done]. by exists x.
Qed.

Lemma registryOk_delete_tcp c s :
  registryOk s → registryOk (set_tcpChannels (delete c (tcpChannels s)) s).
Proof. intros [Ht Hu]. split; simpl; [|done]. by apply map_Forall_delete. Qed.

Lemma registryOk_delete_udp c s :
  registryOk s → registryOk (set_udpChannels (delete c (udpChannels s)) s).
Proof. intros [Ht Hu]. split; simpl; [done|]. by apply map_Forall_delete. Qed.

Lemma registryOk_cleanup s : registryOk (cleanupChannels s).
Proof.
  unfold registryOk. rewrite cleanup_tcpChannels, cleanup_udpChannels.
  split; apply map_Forall_empty.
Qed.

(** Closing the datagram socket of the channel registered under [c] and
    forgetting [c]. *)
Lemma registryOk_close_udp c uch s :
  udpChannels s !! c = Some uch →
  registryOk s →
  registryOk (set_udpChannels (delete c (udpChannels s))
                (socket_destroy (udp_socket uch) None s)).
Proof.
  intros Huch [Ht Hu]. destruct (Hu c uch Huch) as (y & Hy & Hyk & Hyc & Hyp).
  split; simpl.
  - intros c' ch Hch. destruct (Ht c' ch Hch) as (x & Hx & Hk & Hc).
    exists x. split; [|done]. rewrite list_lookup_alter_ne; [done|].
    intros Heq. rewrite Heq, Hx in Hy. injection Hy as <-. congruence.
  - intros c' ch Hch. apply lookup_delete_Some in Hch as [Hne Hch].
    destruct (Hu c' ch Hch) as (x & Hx & Hk & Hc & Hp).
    exists x. split; [|done]. rewrite list_lookup_alter_ne; [done|].
    intros Heq. rewrite Heq, Hx in Hy. injection Hy as <-. congruence.
Qed.

Lemma registryOk_destroy_tcp c ch s :
  tcpChannels s !! c = Some ch →
  registryOk s → registryOk (socket_destroy (tcp_socket ch) None s).
Proof.
  intros Hch Hok. destruct (proj1 Hok c ch Hch) as (x & Hx & Hk & _).
  apply registryOk_alter; [apply idPreserving_destroyed| |done].
  right. exists x. split; [done|]. by left.
Qed.

Lemma registryOk_handleDisconnectMessage c s :
  registryOk s → registryOk (handleDisconnectMessage c s).
Proof.
  intros Hok. unfold handleDisconnectMessage.
  destruct (tcpChannels s !! c) as [ch|] eqn:Hch.
  - assert (Hok1 : registryOk (set_tcpChannels (delete c (tcpChannels s))
                                 (socket_destroy (tcp_socket ch) None s))).
    { apply (registryOk_delete_tcp c (socket_destroy (tcp_socket ch) None s)).
      by eapply registryOk_destroy_tcp. }
    set (s1 := set_tcpChannels _ _) in *.
    destruct (udpChannels s1 !! c) as [uch|] eqn:Hu; [|done].
    by apply registryOk_close_udp.
  - destruct (udpChannels s !! c) as [uch|] eqn:Hu; [|done].
    by apply registryOk_close_udp.
Qed.

Lemma registryOk_handleData d s : registryOk s → registryOk (handleData d s).
Proof.
  intros Hok. unfold handleData.
  destruct (String.eqb (data_protocol d) "tcp").
  { destruct (tcpChannels s !! data_channelId d); [|done].
    apply registryOk_alter; [apply idPreserving_wrote | left; apply livePreserving_wrote | done]. }
  destruct (String.eqb (data_protocol d) "udp"); [|done].
  destruct (udpChannels s !! data_channelId d) as [ch|] eqn:Hch; [|done].
  destruct (data_targetAddr d) as [ta|]; [|done].
  destruct (data_targetPort d) as [tp|]; [|done].
  destruct (truthy ta && negb (tp =? 0)%Z); [|done].
  assert (Hok1 : registryOk (socket_write (udp_socket ch) (data_payload d) (Some (ta, tp)) s)).
  { apply registryOk_alter;
      [apply idPreserving_wrote | left; apply livePreserving_wrote | done]. }
  destruct (truthy_opt (data_address d) && truthy_num (data_port d)); [|done].
  destruct Hok1 as [Ht1 Hu1]. split; simpl; [done|].
  apply map_Forall_insert_2; [|done].
  apply (Hu1 (data_channelId d) ch). exact Hch.
Qed.
Lemma registryOk_tcp_alter f sid x s :
  sockets s !! sid = Some x → kind x = NetSocket → idPreserving f →
  registryOk s → registryOk (set_sockets (alter f sid (sockets s)) s).
Proof.
  intros Hx Hk Hf Hok. apply registryOk_alter; [done| |done].
  right. exists x. split; [done|]. by left.
Qed.

Lemma lookup_set_sockets_alter (f : Socket → Socket) sid x s :
  sockets s !! sid = Some x →
  sockets (set_sockets (alter f sid (sockets s)) s) !! sid = Some (f x).
Proof. intros Hx. simpl. by rewrite list_lookup_alter_eq, Hx. Qed.

Lemma registryOk_tcp_alter2 f g sid x s :
  sockets s !! sid = Some x → kind x = NetSocket → idPreserving f → idPreserving g →
  registryOk s →
  registryOk (set_sockets (alter g sid (alter f sid (sockets s)))
                (set_sockets (alter f sid (sockets s)) s)).
Proof.
  intros Hx Hk Hf Hg Hok.
  assert (H1 : sockets (set_sockets (alter f sid (sockets s)) s) !! sid = Some (f x)).
  { simpl. by rewrite list_lookup_alter_eq, Hx. }
  assert (H2 : kind (f x) = NetSocket) by (by rewrite (proj1 (Hf x))).
  assert (H3 : registryOk (set_sockets (alter f sid (sockets s)) s))
    by (by eapply registryOk_tcp_alter).
  exact (registryOk_tcp_alter g sid (f x) _ H1 H2 Hg H3).
Qed.

Lemma registryOk_tcp_event sid e x s :
  sockets s !! sid = Some x → kind x = NetSocket →
  registryOk s → registryOk (tcp_event sid e x s).
Proof.
  intros Hx Hk Hok.
  assert (Halter : ∀ f, idPreserving f →
            registryOk (set_sockets (alter f sid (sockets s)) s)).
  { intros f Hf. by eapply registryOk_tcp_alter. }
  assert (Hlook : ∀ f, set_sockets (alter f sid (sockets s)) s
                       = set_sockets (alter f sid (sockets s)) s) by done.
  unfold tcp_event.
  destruct e; try done; destruct (phase x) eqn:Hp; try done.
  - (* 'connect' *)
    unfold tcp_on_connect, set_phase, sendConnectResponse.
    set (s1 := set_sockets (alter (with_phase Live) sid (sockets s)) s).
    assert (Hok1 : registryOk s1) by (apply Halter, idPreserving_with_phase).
    assert (Hx1 : sockets s1 !! sid = Some (with_phase Live x)).
    { subst s1; simpl. by rewrite list_lookup_alter_eq, Hx. }
    assert (Hok2 : registryOk (send (ConnectResponseMessage true (sock_channelId x) None)
                                 (register_tcp (sock_channelId x) sid s1))).
    { apply registryOk_send.
      by apply (registryOk_register_tcp sid (with_phase Live x) s1). }
    set (s2 := send _ _) in *.
    assert (Hx2 : sockets s2 !! sid = Some (with_phase Live x)).
    { subst s2. rewrite send_eq. simpl. exact Hx1. }
    destruct (connectCallback x); [|done].
    destruct (upstreamProxyType (options s1)); unfold socket_write.
    all: eapply registryOk_tcp_alter; [exact Hx2 | exact Hk | apply idPreserving_wrote | done].
  - (* 'data' *)
    unfold tcp_on_data. destruct (listener x).
    + unfold sendData. by apply registryOk_send.
    + unfold socks5ProxyHandler, sendSocks5ConnectRequest, socket_destroy, socket_write,
        set_listener, sendConnectResponse.
      destruct handshakeState as [|[|[|n]]]; [| | |done].
      all: repeat case_match.
      all: try (apply Halter, idPreserving_destroyed).
      * eapply registryOk_tcp_alter2;
          [exact Hx | exact Hk | apply idPreserving_wrote | apply idPreserving_with_listener
          | exact Hok].
      * eapply registryOk_tcp_alter2;
          [exact Hx | exact Hk | apply idPreserving_wrote | apply idPreserving_with_listener
          | exact Hok].
      * eapply registryOk_tcp_alter2;
          [exact Hx | exact Hk | apply idPreserving_wrote | apply idPreserving_with_listener
          | exact Hok].
      * apply registryOk_send.
        set (s1 := set_sockets (alter (with_listener OriginalDataHandler) sid (sockets s)) s).
        apply (registryOk_register_tcp sid (with_listener OriginalDataHandler x) s1);
          [subst s1; simpl; by rewrite list_lookup_alter_eq, Hx | done
          | apply Halter, idPreserving_with_listener].
    + unfold httpProxyHandler, socket_destroy, set_listener, sendConnectResponse.
      pose proof (Halter (with_listener (HttpProxyHandler (responseBuffer +:+ data)))
                    (idPreserving_with_listener _)) as Hok1.
      set (x1 := with_listener (HttpProxyHandler (responseBuffer +:+ data)) x).
      set (s1 := set_sockets _ s) in *.
      assert (Hx1 : sockets s1 !! sid = Some x1)
        by (by apply lookup_set_sockets_alter).
      repeat case_match; [| |done].
      * apply registryOk_send.
        pose proof (registryOk_tcp_alter (with_listener OriginalDataHandler) sid x1 s1
                      Hx1 Hk (idPreserving_with_listener _) Hok1) as Hok2.
        set (s2 := set_sockets _ s1) in *.
        assert (Hx2 : sockets s2 !! sid = Some (with_listener OriginalDataHandler x1))
          by (by apply lookup_set_sockets_alter).
        exact (registryOk_register_tcp sid _ s2 Hx2 Hk Hok2).
      * exact (registryOk_tcp_alter _ sid x1 s1 Hx1 Hk (idPreserving_destroyed _) Hok1).
  - (* 'error' while opening *)
    unfold tcp_on_error, set_phase, sendConnectResponse.
    apply registryOk_send, registryOk_delete_tcp, Halter, idPreserving_with_phase.
  - (* 'error' while connected *)
    unfold tcp_on_error, set_phase, sendConnectResponse.
    apply registryOk_send, registryOk_delete_tcp, Halter, idPreserving_with_phase.
  - (* 'error' after destroy(err) *)
    destruct (destroyError x); [|done].
    unfold tcp_on_error, sendConnectResponse.
    apply registryOk_send, registryOk_delete_tcp, Halter, idPreserving_with_destroyError.
  - (* 'close' of a connected socket *)
    destruct (destroyError x); [done|].
    unfold tcp_on_close, set_phase, sendDisconnect.
    apply registryOk_send, registryOk_delete_tcp, Halter, idPreserving_with_phase.
  - (* 'close' after destroy() *)
    destruct (destroyError x); [done|].
    unfold tcp_on_close, set_phase, sendDisconnect.
    apply registryOk_send, registryOk_delete_tcp, Halter, idPreserving_with_phase.
Qed.

Lemma registryOk_udp_event sid e x s :
  sockets s !! sid = Some x → kind x = DgramSocket →
  registryOk s → registryOk (udp_event sid e x s).
Proof.
  intros Hx Hk Hok. unfold udp_event.
  destruct e; try done; destruct (phase x) eqn:Hp; try done.
  - (* the bind callback *)
    unfold udp_on_listening, set_phase, sendConnectResponse.
    apply registryOk_send.
    set (s1 := set_sockets (alter (with_phase Live) sid (sockets s)) s).
    assert (Hok1 : registryOk s1).
    { apply registryOk_alter;
        [apply idPreserving_with_phase | left; apply livePreserving_with_phase_Live | done]. }
    destruct Hok1 as [Ht1 Hu1]. split; simpl; [done|].
    apply map_Forall_insert_2; [|done].
    exists (with_phase Live x). simpl. by rewrite list_lookup_alter_eq, Hx.
  - unfold udp_on_message, sendData. by apply registryOk_send.
  - unfold udp_on_error. by apply registryOk_delete_udp.
  - unfold udp_on_error. by apply registryOk_delete_udp.
  - unfold udp_on_close, set_phase.
    apply (registryOk_delete_udp _ (set_sockets _ s)).
    apply registryOk_alter; [apply idPreserving_with_phase| |done].
    right. exists x. split; [done|]. right. congruence.
Qed.

(** The registries stay consistent with the sockets under every event. *)
Lemma registryOk_step s e : registryOk s → registryOk (step s e).
Proof.
  intros Hok.
  destruct e as [| |tok|tok|k|k raw|k err|k|k| |sid|sid d|sid err|sid|sid|sid d a p|sid err|sid];
    simpl.
  - (* connect() *)
    unfold connect, ws_close.
    repeat case_match; by eapply registryOk_ext; [| | |exact Hok].
  - (* close() *)
    unfold close. set (s1 := cleanupChannels _).
    assert (Hok1 : registryOk s1) by apply registryOk_cleanup.
    destruct (ws s1); [|done]. by eapply registryOk_ext; [| | |exact Hok1].
  - unfold addConnectorToken. apply registryOk_send. by eapply registryOk_ext; [| | |exact Hok].
  - unfold removeConnectorToken.
    refine (registryOk_ext
              (send (ConnectorMessage (uuidv4 (uuids s)) tok "remove")
                 (set_uuids (S (uuids s)) s)) _ eq_refl eq_refl eq_refl _).
    apply registryOk_send. by eapply registryOk_ext; [| | |exact Hok].
  - destruct (connections s !! k) as [c|]; [|done]. unfold connection_event.
    destruct (readyState c); try done.
    all: unfold ws_on_open, set_readyState; by eapply registryOk_ext; [| | |exact Hok].
  - destruct (connections s !! k) as [c|]; [|done]. unfold connection_event.
    assert (Hmsg : registryOk (ws_on_message k raw s)).
    { unfold ws_on_message. destruct raw as [m|]; [|exact Hok].
      destruct m as [tk|ok er|proto cid ad po|ok cid er|d|cid|cid ct op|ok ct er|lv ms|n];
        simpl.
      - exact Hok.
      - unfold handleAuthResponse, resolve, reject, clearTimeout.
        repeat case_match; try (by eapply registryOk_ext; [| | |exact Hok]).
        destruct (replay_fields
                    (set_connections (alter (with_promise Resolved) k
                       (connections (set_connections (alter clear k (connections s)) s)))
                       (set_connections (alter clear k (connections s)) s)))
          as (_ & _ & Ht & Hu & _ & _ & _ & _ & Hso & _).
        by eapply registryOk_ext; [exact Hso | exact Ht | exact Hu | exact Hok].
      - unfold handleConnect, handleTCPConnect, handleUDPConnect, connectViaProxy.
        repeat case_match; try exact Hok; try (by apply registryOk_app).
        all: apply (registryOk_alter _ _ (set_sockets _ s));
          [by intros y | left; by intros y | by apply registryOk_app].
      - exact Hok.
      - by apply registryOk_handleData.
      - by apply registryOk_handleDisconnectMessage.
      - exact Hok.
      - unfold handleConnectorResponse. repeat case_match; try exact Hok.
        all: by eapply registryOk_ext; [| | |exact Hok].
      - exact Hok.
      - unfold handlePartners. by eapply registryOk_ext; [| | |exact Hok]. }
    destruct (readyState c); first [exact Hmsg | exact Hok].
  - destruct (connections s !! k) as [c|]; [|done]. unfold connection_event.
    destruct (readyState c); try done.
    all: unfold ws_on_error, reject, clearTimeout, set_readyState.
    all: repeat case_match; by eapply registryOk_ext; [| | |exact Hok].
  - destruct (connections s !! k) as [c|]; [|done]. unfold connection_event.
    destruct (readyState c); try done.
    all: unfold ws_on_close, handleDisconnect, attemptReconnect.
    all: repeat case_match;
      try (by eapply registryOk_ext; [| | |apply registryOk_cleanup]);
      apply registryOk_cleanup.
  - destruct (connections s !! k) as [c|]; [|done].
    destruct (timeout c); try done.
    unfold ws_on_timeout, reject, ws_close.
    repeat case_match; by eapply registryOk_ext; [| | |exact Hok].
  - destruct (reconnectTimers s); [done|].
    unfold connect, ws_close.
    repeat case_match; by eapply registryOk_ext; [| | |exact Hok].
  - destruct (sockets s !! sid) as [x|] eqn:Hx; [|exact Hok].
    destruct (kind x) eqn:Hk; [|exact Hok].
    exact (registryOk_tcp_event sid (TcpConnect sid) x s Hx Hk Hok).
  - destruct (sockets s !! sid) as [x|] eqn:Hx; [|exact Hok].
    destruct (kind x) eqn:Hk; [|exact Hok].
    exact (registryOk_tcp_event sid (TcpData sid d) x s Hx Hk Hok).
  - destruct (sockets s !! sid) as [x|] eqn:Hx; [|exact Hok].
    destruct (kind x) eqn:Hk; [|exact Hok].
    exact (registryOk_tcp_event sid (TcpError sid err) x s Hx Hk Hok).
  - destruct (sockets s !! sid) as [x|] eqn:Hx; [|exact Hok].
    destruct (kind x) eqn:Hk; [|exact Hok].
    exact (registryOk_tcp_event sid (TcpClose sid) x s Hx Hk Hok).
  - destruct (sockets s !! sid) as [x|] eqn:Hx; [|exact Hok].
    destruct (kind x) eqn:Hk; [exact Hok|].
    exact (registryOk_udp_event sid (UdpListening sid) x s Hx Hk Hok).
  - destruct (sockets s !! sid) as [x|] eqn:Hx; [|exact Hok].
    destruct (kind x) eqn:Hk; [exact Hok|].
    exact (registryOk_udp_event sid (UdpMessage sid d a p) x s Hx Hk Hok).
  - destruct (sockets s !! sid) as [x|] eqn:Hx; [|exact Hok].
    destruct (kind x) eqn:Hk; [exact Hok|].
    exact (registryOk_udp_event sid (UdpError sid err) x s Hx Hk Hok).
  - destruct (sockets s !! sid) as [x|] eqn:Hx; [|exact Hok].
    destruct (kind x) eqn:Hk; [exact Hok|].
    exact (registryOk_udp_event sid (UdpClose sid) x s Hx Hk Hok).
Qed.

Lemma registryOk_new o : registryOk (new_LocalProvider o).
Proof. split; apply map_Forall_empty. Qed.

Lemma registryOk_run es : ∀ s, registryOk s → registryOk (run s es).
Proof.
  induction es as [|e es IH]; intros s Hs; [done|].
  simpl. by apply IH, registryOk_step.
Qed.

(** No socket is registered twice. *)
Lemma registryOk_NoDup s : registryOk s → NoDup (registeredSockets s).
Proof.
  intros [Ht Hu]. unfold registeredSockets. apply NoDup_app. repeat split.
  - rewrite <- list_fmap_compose.
    apply NoDup_fmap_2_strong; [|apply NoDup_map_to_list].
    intros [c1 ch1] [c2 ch2] H1 H2 Heq. simpl in Heq.
    apply elem_of_map_to_list in H1, H2.
    destruct (Ht c1 ch1 H1) as (x1 & Hx1 & _ & Hc1).
    destruct (Ht c2 ch2 H2) as (x2 & Hx2 & _ & Hc2).
    rewrite Heq, Hx2 in Hx1. injection Hx1 as <-.
    assert (c1 = c2) by congruence. subst c2. congruence.
  - intros sid H1 H2.
    apply list_elem_of_fmap in H1 as (ch1 & -> & H1).
    apply list_elem_of_fmap in H1 as ([c1 ch1'] & -> & H1).
    apply list_elem_of_fmap in H2 as (ch2 & Heq & H2).
    apply list_elem_of_fmap in H2 as ([c2 ch2'] & -> & H2).
    apply elem_of_map_to_list in H1, H2. simpl in *.
    destruct (Ht c1 ch1' H1) as (x1 & Hx1 & Hk1 & _).
    destruct (Hu c2 ch2' H2) as (x2 & Hx2 & Hk2 & _).
    rewrite Heq, Hx2 in Hx1. injection Hx1 as <-. congruence.
  - rewrite <- list_fmap_compose.
    apply NoDup_fmap_2_strong; [|apply NoDup_map_to_list].
    intros [c1 ch1] [c2 ch2] H1 H2 Heq. simpl in Heq.
    apply elem_of_map_to_list in H1, H2.
    destruct (Hu c1 ch1 H1) as (x1 & Hx1 & _ & Hc1 & _).
    destruct (Hu c2 ch2 H2) as (x2 & Hx2 & _ & Hc2 & _).
    rewrite Heq, Hx2 in Hx1. injection Hx1 as <-.
    assert (c1 = c2) by congruence. subst c2. congruence.
Qed.

(** ** Shutdown *)

(** What [close()] leaves behind. *)
Lemma close_spec s :
  isClosing (close s) = true ∧ ws (close s) = None ∧
  tcpChannels (close s) = ∅ ∧ udpChannels (close s) = ∅ ∧
  isConnected (close s) = false ∧
  connections (close s) =
    match ws s with
    | Some k => alter closing k (connections s)
    | None => connections s
    end ∧
  sockets (close s) = sockets (destroyAll (registeredSockets s) s) ∧
  wire (close s) = wire s ∧ reconnectTimers (close s) = reconnectTimers s.
Proof.
  unfold close.
  set (s1 := cleanupChannels (set_isClosing true s)).
  destruct (cleanupChannels_fields (set_isClosing true s))
    as (_ & Hws & _ & Hcl & _ & Hcn & Hrt & _ & Hw).
  pose proof (cleanup_tcpChannels (set_isClosing true s)) as Htcp.
  pose proof (cleanup_udpChannels (set_isClosing true s)) as Hudp.
  assert (Hso : sockets s1 = sockets (destroyAll (registeredSockets s) s)).
  { subst s1. rewrite cleanupChannels_sockets.
    change (registeredSockets (set_isClosing true s)) with (registeredSockets s).
    by apply destroyAll_sockets_congr. }
  fold s1 in Hws, Hcl, Hcn, Hrt, Hw, Htcp, Hudp. simpl in Hws, Hcl, Hcn, Hrt, Hw.
  rewrite Hws. destruct (ws s) as [k|] eqn:Hk; unfold ws_close, isConnected; simpl.
  - rewrite Hcn. repeat split; done.
  - rewrite Hws. repeat split; done.
Qed.

(** [close()] destroys the socket of each registered channel once, and no
    other socket. *)
Lemma close_teardown s sid x :
  NoDup (registeredSockets s) →
  sockets s !! sid = Some x →
  ∃ x', sockets (close s) !! sid = Some x' ∧
        closeCalls x' =
        (closeCalls x + if bool_decide (sid ∈ registeredSockets s) then 1 else 0)%nat.
Proof.
  intros Hnd Hx. destruct (close_spec s) as (_ & _ & _ & _ & _ & _ & -> & _).
  destruct (destroyAll_closeCalls (registeredSockets s) s sid x Hx) as (x' & Hx' & Hc).
  exists x'. split; [done|]. rewrite Hc. f_equal.
  clear -Hnd. induction Hnd as [|i l Hi Hnd IH]; [done|].
  rewrite filter_cons. destruct (decide (i = sid)) as [->|Hne].
  - rewrite bool_decide_true by (apply elem_of_cons; by left). simpl. f_equal.
    rewrite bool_decide_false in IH by done. done.
  - rewrite IH.
    rewrite (bool_decide_ext (sid ∈ i :: l) (sid ∈ l)); [done|].
    rewrite elem_of_cons. split; [intros [->|Hin]; done | by right].
Qed.

(** In a provider reached from a fresh one, [close()] calls [destroy()] or
    [close()] exactly once on the socket of each registered channel and on no
    other socket. *)
Lemma close_destroys_each_channel_once o es sid x :
  let s := run (new_LocalProvider o) es in
  sockets s !! sid = Some x →
  ∃ x', sockets (close s) !! sid = Some x' ∧
        closeCalls x' =
        (closeCalls x + if bool_decide (sid ∈ registeredSockets s) then 1 else 0)%nat.
Proof.
  intros s Hx. apply close_teardown; [|done].
  apply registryOk_NoDup, registryOk_run, registryOk_new.
Qed.

(** A registered datagram socket is running: the [close()] and [send()]
    calls of the provider never hit a socket that is not. *)
Lemma registered_udp_running s c ch :
  registryOk s → udpChannels s !! c = Some ch →
  ∃ x, sockets s !! udp_socket ch = Some x ∧ kind x = DgramSocket ∧ phase x = Live.
Proof.
  intros [_ Hu] Hch. destruct (Hu c ch Hch) as (x & Hx & Hk & _ & Hp). by exists x.
Qed.

Lemma close_untouched s :
  options (close s) = options s ∧ instanceId (close s) = instanceId s ∧
  reconnectAttempts (close s) = reconnectAttempts s ∧
  partnersCount (close s) = partnersCount s ∧
  connectorTokens (close s) = connectorTokens s ∧ uuids (close s) = uuids s.
Proof.
  unfold close.
  pose proof (cleanupChannels_outside (set_isClosing true s)) as Ho.
  unfold outsideChannels in Ho. injection Ho as ? ? ? ? ? ? ? ? ? ? ?.
  destruct (ws (cleanupChannels (set_isClosing true s))); simpl; repeat split; assumption.
Qed.

(** A second [close()] changes nothing. *)
Lemma close_idempotent s : close (close s) = close s.
Proof.
  destruct (close_spec s) as (Hcl & Hws & Htcp & Hudp & _ & _).
  destruct (close_untouched (close s)) as (U1 & U2 & U3 & U4 & U5 & U6).
  destruct (close_spec (close s))
    as (Hcl2 & Hws2 & Htcp2 & Hudp2 & _ & Hcn2 & Hso2 & Hw2 & Hrt2).
  assert (Hreg : registeredSockets (close s) = []).
  { unfold registeredSockets. by rewrite Htcp, Hudp. }
  rewrite Hws in Hcn2. rewrite Hreg in Hso2. simpl in Hso2.
  apply provider_eq; congruence.
Qed.

(** Once the flag is set, the ['close'] of a relay socket arms no timer. *)
Lemma closing_suppresses_reconnect s :
  isClosing s = true →
  reconnectTimers (handleDisconnect s) = reconnectTimers s ∧
  reconnectAttempts (handleDisconnect s) = reconnectAttempts s.
Proof.
  intros Hc. unfold handleDisconnect.
  destruct (cleanupChannels_fields s) as (_ & _ & Hra & Hcl & _ & _ & Hrt & _).
  rewrite Hcl, Hc. simpl. done.
Qed.

(** ** The relay URL *)

Lemma prefix_app (p r : string) : String.prefix p (p +:+ r) = true.
Proof.
  induction p as [|c p IH]; simpl; [by destruct r|].
  change (String c p +:+ r)%string with (String c (p +:+ r)).
  destruct (ascii_dec c c); [exact IH | done].
Qed.

Lemma substring_all (r : string) : String.substring 0 (String.length r) r = r.
Proof. induction r as [|c r IH]; simpl; [done|]. by rewrite IH. Qed.

Lemma slice_app (p r : string) : slice (String.length p) (p +:+ r) = r.
Proof.
  unfold slice. induction p as [|c p IH].
  - change (""%string +:+ r)%string with r. simpl. rewrite Nat.sub_0_r. apply substring_all.
  - change (String c p +:+ r)%string with (String c (p +:+ r)). simpl. exact IH.
Qed.

Lemma normalizeWsUrl_https (r : string) :
  normalizeWsUrl ("https://" +:+ r) = ("wss://" +:+ r)%string.
Proof.
  unfold normalizeWsUrl. rewrite prefix_app.
  pose proof (slice_app "https://" r) as Hs.
  change (String.length "https://") with 8%nat in Hs. by rewrite Hs.
Qed.

Lemma normalizeWsUrl_http (r : string) :
  normalizeWsUrl ("http://" +:+ r) = ("ws://" +:+ r)%string.
Proof.
  unfold normalizeWsUrl.
  replace (String.prefix "https://" ("http://" +:+ r)) with false
    by (vm_compute; by destruct r).
  rewrite prefix_app.
  pose proof (slice_app "http://" r) as Hs.
  change (String.length "http://") with 7%nat in Hs. by rewrite Hs.
Qed.

Lemma strip_trailing_slash_app (b : string) : strip_trailing_slash (b +:+ "/") = b.
Proof.
  induction b as [|c b IH]; [done|].
  change (String c b +:+ "/")%string with (String c (b +:+ "/")).
  simpl. rewrite IH. by destruct b.
Qed.

Lemma hasTunnelPath_length (p : string) :
  truthy p && negb (String.eqb p "/") && (1 <? String.length p)%nat =
  (1 <? String.length p)%nat.
Proof.
  destruct (1 <? String.length p)%nat eqn:Hl; [|by rewrite andb_false_r].
  apply Nat.ltb_lt in Hl.
  destruct p as [|c [|c' p]]; simpl in Hl; try lia.
  unfold truthy. simpl. rewrite andb_true_r.
  destruct (Ascii.eqb c "/"); done.
Qed.

(** C9, as the code has it.  [normalizeWsUrl] maps [http://] to [ws://] and
    [https://] to [wss://]; [buildWebSocketUrl] drops one trailing slash of
    the result and appends, when the path of what is left is longer than
    ["/"], the query [token=<hash>&reverse=true] after [?], or after [&] if
    a [?] is already there, and otherwise, the address having no query of
    its own, [/socket] and the same query. *)
Theorem relay_url_derivation (o : ProviderOptions) (cfg p : string) :
  serverUrl o = normalizeWsUrl cfg →
  let base := strip_trailing_slash (normalizeWsUrl cfg) in
  let query := ("token=" +:+ sha256Sync (token o) +:+ "&reverse=true")%string in
  url_pathname base = Some p →
  ((1 < String.length p)%nat → includes "?" base = false →
   buildWebSocketUrl o = Some (base +:+ "?" +:+ query)%string) ∧
  ((1 < String.length p)%nat → includes "?" base = true →
   buildWebSocketUrl o = Some (base +:+ "&" +:+ query)%string) ∧
  ((String.length p ≤ 1)%nat → includes "?" base = false →
   buildWebSocketUrl o = Some (base +:+ "/socket?" +:+ query)%string) ∧
  (∀ r, cfg = ("https://" +:+ r)%string → normalizeWsUrl cfg = ("wss://" +:+ r)%string) ∧
  (∀ r, cfg = ("http://" +:+ r)%string → normalizeWsUrl cfg = ("ws://" +:+ r)%string) ∧
  (∀ b, normalizeWsUrl cfg = (b +:+ "/")%string → base = b).
Proof.
  intros Ho base query Hp. unfold buildWebSocketUrl. rewrite Ho. fold base.
  rewrite Hp, hasTunnelPath_length.
  repeat split.
  - intros Hl Hq. apply Nat.ltb_lt in Hl. by rewrite Hl, Hq.
  - intros Hl Hq. apply Nat.ltb_lt in Hl. by rewrite Hl, Hq.
  - intros Hl _. apply Nat.ltb_ge in Hl. by rewrite Hl.
  - intros r ->. apply normalizeWsUrl_https.
  - intros r ->. apply normalizeWsUrl_http.
  - intros b Hb. subst base. rewrite Hb. apply strip_trailing_slash_app.
Qed.

(** * Further properties of the provider *)

(** ** One relay socket at a time *)

Lemma noRevive_closing : noRevive closing.
Proof.
  intros c. unfold closing, liveConnection.
  destruct (readyState c) eqn:E; simpl; rewrite ?E; intros [?|?]; auto; discriminate.
Qed.

Lemma noRevive_clear : noRevive clear.
Proof. intros c. unfold clear, liveConnection. by destruct (timeout c). Qed.

Lemma noRevive_with_promise p : noRevive (with_promise p).
Proof. by intros c. Qed.

Lemma noRevive_with_timeout t : noRevive (with_timeout t).
Proof. by intros c. Qed.

Lemma noRevive_CLOSING : noRevive (with_readyState CLOSING).
Proof. intros c [?|?]; discriminate. Qed.

Lemma noRevive_CLOSED : noRevive (with_readyState CLOSED).
Proof. intros c [?|?]; discriminate. Qed.

Lemma uniqueIn_alter f j w (l : list Connection) :
  noRevive f → uniqueIn w l → uniqueIn w (alter f j l).
Proof.
  intros Hf Hu k c Hk Hlive. destruct (decide (j = k)) as [->|Hne].
  - rewrite list_lookup_alter_eq in Hk.
    destruct (l !! k) as [c0|] eqn:Hc0; simplify_eq/=. apply (Hu k c0); auto.
  - rewrite list_lookup_alter_ne in Hk by done. by apply (Hu k c).
Qed.

(** [ws.close()] on the socket referred to leaves none connecting or open. *)
Lemma uniqueIn_closed w (l : list Connection) :
  uniqueIn w l →
  ∀ k c, (match w with Some j => alter closing j l | None => l end) !! k = Some c →
         ¬ liveConnection c.
Proof.
  intros Hu k c Hk Hlive. destruct w as [j|].
  - destruct (decide (j = k)) as [->|Hne].
    + rewrite list_lookup_alter_eq in Hk.
      destruct (l !! k) as [c0|] eqn:Hc0; simplify_eq/=.
      unfold closing, liveConnection in Hlive.
      destruct (readyState c0) eqn:E; simpl in Hlive; rewrite ?E in Hlive;
        destruct Hlive; discriminate.
    + rewrite list_lookup_alter_ne in Hk by done.
      specialize (Hu k c Hk Hlive). congruence.
  - by specialize (Hu k c Hk Hlive).
Qed.

Lemma uniqueIn_open j c w (l : list Connection) :
  l !! j = Some c → readyState c = CONNECTING →
  uniqueIn w l → uniqueIn w (alter (with_readyState OPEN) j l).
Proof.
  intros Hc Hr Hu k c' Hk Hlive.
  assert (Hw : w = Some j) by (apply (Hu j c); [done | by left]).
  destruct (decide (j = k)) as [->|Hne]; [done|].
  rewrite list_lookup_alter_ne in Hk by done. by apply (Hu k c').
Qed.

Lemma uniqueIn_fresh w (l : list Connection) c :
  (∀ k c', l !! k = Some c' → ¬ liveConnection c') →
  (liveConnection c → w = Some (length l)) →
  uniqueIn w (l ++ [c]).
Proof.
  intros Hdead Hc k c' Hk Hlive. apply lookup_app_Some in Hk as [Hk|[Hlen Hk]].
  - by destruct (Hdead k c' Hk).
  - destruct (k - length l)%nat as [|n] eqn:Hn; simplify_eq/=.
    rewrite (Hc Hlive). f_equal. lia.
Qed.

Lemma relayUnique_connect aw s : relayUnique s → relayUnique (connect aw s).
Proof.
  unfold relayUnique. intros Hu. pose proof (uniqueIn_closed _ _ Hu) as Hdead.
  unfold connect, thrown, ws_close.
  destruct (ws s) as [j|] eqn:Hw; simpl.
  - destruct (buildWebSocketUrl (options s)) as [u|]; [destruct (websocket_error u)|]; simpl.
    + rewrite Hw. apply uniqueIn_fresh; [done|]. intros [?|?]; discriminate.
    + apply uniqueIn_fresh; [done|]. intros _. by rewrite length_alter.
    + rewrite Hw. apply uniqueIn_fresh; [done|]. intros [?|?]; discriminate.
  - destruct (buildWebSocketUrl (options s)) as [u|]; [destruct (websocket_error u)|]; simpl.
    + rewrite Hw. apply uniqueIn_fresh; [done|]. intros [?|?]; discriminate.
    + by apply uniqueIn_fresh.
    + rewrite Hw. apply uniqueIn_fresh; [done|]. intros [?|?]; discriminate.
Qed.

Ltac unique_tac :=
  repeat first
    [ assumption
    | match goal with E : ws ?s = _ |- context [ws ?s] => rewrite E end
    | apply uniqueIn_alter;
        [first [apply noRevive_closing | apply noRevive_clear | apply noRevive_with_promise
               | apply noRevive_with_timeout | apply noRevive_CLOSING
               | apply noRevive_CLOSED]|] ].

Lemma relayUnique_step s e : relayUnique s → relayUnique (step s e).
Proof.
  intros Hu.
  destruct (channelEvent e) eqn:Hch.
  { destruct (relayView_fields _ _ (channelEvent_relayView e s Hch))
      as (_ & Hw & _ & _ & Hcn & _).
    unfold relayUnique. by rewrite Hw, Hcn. }
  unfold relayUnique in *.
  destruct e as [| | | |j|j raw|j err|j|j| | | | | | | | |]; try discriminate Hch.
  - by apply relayUnique_connect.
  - unfold step, close.
    destruct (cleanupChannels_fields (set_isClosing true s))
      as (_ & Hw & _ & _ & _ & Hcn & _).
    set (s1 := cleanupChannels (set_isClosing true s)) in *. simpl in Hw, Hcn.
    pose proof (uniqueIn_closed _ _ Hu) as Hdead. rewrite Hw.
    destruct (ws s) as [k|]; unfold ws_close; simpl; rewrite Hcn.
    + intros k' c Hk Hlive. by destruct (Hdead k' c Hk).
    + intros k' c Hk Hlive. by destruct (Hdead k' c Hk).
  - simpl. destruct (connections s !! j) as [cj|] eqn:Hj; [|done].
    unfold connection_event. destruct (readyState cj) eqn:Hr; try done.
    unfold ws_on_open, set_readyState; simpl. by eapply uniqueIn_open.
  - destruct raw as [[]|]; try discriminate Hch.
    simpl. destruct (connections s !! j) as [cj|] eqn:Hj; [|done].
    unfold connection_event. destruct (readyState cj); try done.
    all: unfold ws_on_message, handleMessage, handleAuthResponse, resolve, reject,
           clearTimeout; simpl.
    all: repeat (case_match; simpl); fold_fields; simpl; unique_tac.
  - simpl. destruct (connections s !! j) as [cj|] eqn:Hj; [|done].
    unfold connection_event. destruct (readyState cj); try done.
    all: unfold ws_on_error, reject, clearTimeout, set_readyState; simpl.
    all: repeat (case_match; simpl); unique_tac.
  - simpl. destruct (connections s !! j) as [cj|] eqn:Hj; [|done].
    unfold connection_event. destruct (readyState cj); try done.
    all: unfold ws_on_close, handleDisconnect, attemptReconnect, clearTimeout,
           set_readyState; simpl.
    all: repeat (case_match; simpl); fold_fields; simpl; unique_tac.
  - simpl. destruct (connections s !! j) as [cj|] eqn:Hj; [|done].
    destruct (timeout cj); try done.
    unfold ws_on_timeout, reject, ws_close; simpl.
    repeat (case_match; simpl); unique_tac.
  - simpl. destruct (reconnectTimers s); [done|].
    by apply (relayUnique_connect ByReconnect (set_reconnectTimers n s)).
Qed.

Lemma relayUnique_run es : ∀ s, relayUnique s → relayUnique (run s es).
Proof.
  induction es as [|e es IH]; intros s Hs; simpl; [done|].
  apply IH. by apply relayUnique_step.
Qed.

(** In every state a provider reaches, a relay socket that is connecting or
    open is the one the provider refers to: [connect()] and [close()] call
    [ws.close()] on the socket they replace or drop, so no second relay
    socket stays open beside the current one. *)
Theorem relay_socket_is_unique (o : ProviderOptions) (es : list Event) (k : nat) (c : Connection) :
  connections (run (new_LocalProvider o) es) !! k = Some c →
  readyState c = CONNECTING ∨ readyState c = OPEN →
  ws (run (new_LocalProvider o) es) = Some k.
Proof.
  intros Hk Hlive.
  assert (Hu : relayUnique (run (new_LocalProvider o) es)).
  { apply relayUnique_run. intros k' c' Hk'. simpl in Hk'. by rewrite lookup_nil in Hk'. }
  by apply (Hu k c).
Qed.

(** ** The reconnect counter *)

Lemma attemptReconnect_counter s :
  options (attemptReconnect s) = options s ∧
  (reconnectAttempts (attemptReconnect s) = reconnectAttempts s ∨
   reconnectAttempts (attemptReconnect s) = (reconnectAttempts s + 1)%Z ∧ ¬ exhausted s).
Proof.
  unfold attemptReconnect, exhausted.
  destruct ((0 <? _)%Z && _) eqn:E; simpl; [by auto|].
  split; [done|]. right. split; [done|].
  apply andb_false_iff in E as [E|E]; [apply Z.ltb_ge in E | apply Z.leb_gt in E]; lia.
Qed.

(** What an event does to the reconnect counter: nothing, a reset, or one
    increment below the maximum. *)
Lemma step_counter s e :
  options (step s e) = options s ∧
  (reconnectAttempts (step s e) = reconnectAttempts s ∨
   reconnectAttempts (step s e) = 0%Z ∨
   reconnectAttempts (step s e) = (reconnectAttempts s + 1)%Z ∧ ¬ exhausted s).
Proof.
  destruct (channelEvent e) eqn:Hch.
  { destruct (relayView_fields _ _ (channelEvent_relayView e s Hch))
      as (Ho & _ & Ha & _). auto. }
  destruct e as [| | | |j|j raw|j err|j|j| | | | | | | | |]; try discriminate Hch.
  - simpl. unfold connect, ws_close. repeat case_match; simpl; auto.
  - unfold step, close.
    destruct (cleanupChannels_fields (set_isClosing true s))
      as (Ho & _ & Ha & _).
    set (s1 := cleanupChannels (set_isClosing true s)) in *. simpl in Ho, Ha.
    destruct (ws s1); unfold ws_close; simpl; rewrite Ho, Ha; auto.
  - simpl. destruct (connections s !! j) as [cj|] eqn:Hj; [|by auto].
    unfold connection_event. destruct (readyState cj); auto.
  - destruct raw as [[]|]; try discriminate Hch.
    simpl. destruct (connections s !! j) as [cj|] eqn:Hj; [|by auto].
    unfold connection_event. destruct (readyState cj); auto.
    all: unfold ws_on_message, handleMessage, handleAuthResponse, resolve, reject,
           clearTimeout; simpl.
    all: repeat (case_match; simpl); fold_fields; simpl; auto.
  - simpl. destruct (connections s !! j) as [cj|] eqn:Hj; [|by auto].
    unfold connection_event. destruct (readyState cj); auto.
    all: unfold ws_on_error, reject, clearTimeout, set_readyState; simpl.
    all: repeat (case_match; simpl); auto.
  - simpl. destruct (connections s !! j) as [cj|] eqn:Hj; [|by auto].
    unfold connection_event. destruct (readyState cj); auto.
    all: unfold ws_on_close, handleDisconnect, clearTimeout, set_readyState; cbv beta zeta.
    all: set (s1 := cleanupChannels _).
    all: assert (Hs1 : options s1 = options s ∧ reconnectAttempts s1 = reconnectAttempts s)
           by (subst s1; by fold_fields).
    all: destruct Hs1 as [Ho Ha].
    all: destruct (negb (isClosing s1)); [|by rewrite Ho, Ha; auto].
    all: destruct (attemptReconnect_counter s1) as [Ho' [Ha'|[Ha' Hex]]].
    all: rewrite Ho', Ha', Ho, Ha; split; auto.
    all: right; right; split; [done|]; unfold exhausted in *; by rewrite <- Ho, <- Ha.
  - simpl. destruct (connections s !! j) as [cj|] eqn:Hj; [|by auto].
    destruct (timeout cj); auto.
    unfold ws_on_timeout, reject, ws_close; simpl.
    repeat (case_match; simpl); auto.
  - simpl. destruct (reconnectTimers s); [by auto|].
    unfold connect, ws_close. repeat case_match; simpl; auto.
Qed.

Lemma attemptsBounded_step s e : attemptsBounded s → attemptsBounded (step s e).
Proof.
  intros [H0 Hmax]. unfold attemptsBounded.
  destruct (step_counter s e) as [Ho [Ha|[Ha|[Ha Hex]]]]; rewrite Ho, Ha.
  - done.
  - split; [done|]. lia.
  - unfold exhausted in Hex. split; [lia|]. intros Hpos. specialize (Hmax Hpos). lia.
Qed.

Lemma run_options es : ∀ s, options (run s es) = options s.
Proof.
  induction es as [|e es IH]; intros s; simpl; [done|].
  rewrite IH. apply step_counter.
Qed.

Lemma attemptsBounded_run es : ∀ s, attemptsBounded s → attemptsBounded (run s es).
Proof.
  induction es as [|e es IH]; intros s Hs; simpl; [done|].
  apply IH. by apply attemptsBounded_step.
Qed.

(** The reconnect counter never goes below zero, and with a positive
    [maxReconnectAttempts] never above it, whatever happens to the provider:
    [attemptReconnect] increments it only below the maximum, and ['open']
    resets it. *)
Theorem reconnect_counter_within_bounds (o : ProviderOptions) (es : list Event) :
  let s := run (new_LocalProvider o) es in
  (0 ≤ reconnectAttempts s)%Z ∧
  ((0 < maxReconnectAttempts o)%Z → (reconnectAttempts s ≤ maxReconnectAttempts o)%Z).
Proof.
  intros s.
  assert (Hb : attemptsBounded s).
  { apply attemptsBounded_run. split; simpl; lia. }
  assert (Ho : options s = o) by (subst s; by rewrite run_options).
  destruct Hb as [H0 Hmax]. rewrite Ho in Hmax. done.
Qed.

(** ** The reconnect attempts a provider can make *)

Lemma connect_counts aw s :
  length (connections (connect aw s)) = S (length (connections s)) ∧
  reconnectTimers (connect aw s) = reconnectTimers s ∧
  reconnectAttempts (connect aw s) = reconnectAttempts s.
Proof.
  unfold connect, thrown, ws_close.
  repeat case_match; simpl; rewrite ?length_app, ?length_alter; simpl; repeat split; lia.
Qed.

Lemma attemptReconnect_account s : account (attemptReconnect s) = account s.
Proof. unfold attemptReconnect, account. case_match; simpl; lia. Qed.

(** Every increment of the counter arms one timer and every timer that
    fires calls [connect()] once: the account changes only when [connect()]
    is called explicitly and when ['open'] resets the counter. *)
Lemma step_account s e :
  e ≠ CallConnect → (∀ k, e ≠ WsOpen k) → account (step s e) = account s.
Proof.
  intros Hc Ho.
  destruct (channelEvent e) eqn:Hch.
  { destruct (relayView_fields _ _ (channelEvent_relayView e s Hch))
      as (_ & _ & Ha & _ & Hcn & Hrt).
    unfold account. by rewrite Ha, Hcn, Hrt. }
  destruct e as [| | | |j|j raw|j err|j|j| | | | | | | | |]; try discriminate Hch.
  - done.
  - unfold step, close.
    destruct (cleanupChannels_fields (set_isClosing true s))
      as (_ & _ & Ha & _ & _ & Hcn & Hrt & _).
    set (s1 := cleanupChannels (set_isClosing true s)) in *. simpl in Ha, Hcn, Hrt.
    destruct (ws s1); unfold account, ws_close; simpl;
      rewrite ?length_alter, Ha, Hcn, Hrt; done.
  - by destruct (Ho j).
  - destruct raw as [[]|]; try discriminate Hch.
    simpl. destruct (connections s !! j) as [cj|] eqn:Hj; [|done].
    unfold connection_event. destruct (readyState cj); try done.
    all: unfold ws_on_message, handleMessage, handleAuthResponse, resolve, reject,
           clearTimeout; simpl.
    all: repeat (case_match; simpl); unfold account; fold_fields; simpl;
           rewrite ?length_alter; done.
  - simpl. destruct (connections s !! j) as [cj|] eqn:Hj; [|done].
    unfold connection_event. destruct (readyState cj); try done.
    all: unfold ws_on_error, reject, clearTimeout, set_readyState; simpl.
    all: repeat (case_match; simpl); unfold account; simpl; rewrite ?length_alter; done.
  - simpl. destruct (connections s !! j) as [cj|] eqn:Hj; [|done].
    unfold connection_event. destruct (readyState cj); try done.
    all: unfold ws_on_close, handleDisconnect, clearTimeout, set_readyState; cbv beta zeta.
    all: set (s1 := cleanupChannels _).
    all: assert (Hs1 : account s1 = account s)
           by (subst s1; unfold account; fold_fields; simpl; by rewrite !length_alter).
    all: destruct (negb (isClosing s1)); [|done].
    all: by rewrite attemptReconnect_account.
  - simpl. destruct (connections s !! j) as [cj|] eqn:Hj; [|done].
    destruct (timeout cj); try done.
    unfold ws_on_timeout, reject, ws_close; simpl.
    repeat (case_match; simpl); unfold account; simpl; rewrite ?length_alter; done.
  - simpl. destruct (reconnectTimers s) as [|n] eqn:Hn; [done|].
    destruct (connect_counts ByReconnect (set_reconnectTimers n s)) as (Hl & Ht & Ha).
    unfold account. rewrite Hl, Ht, Ha. simpl. rewrite Hn. lia.
Qed.

Lemma run_account es : ∀ s,
  CallConnect ∉ es → (∀ k, WsOpen k ∉ es) → account (run s es) = account s.
Proof.
  induction es as [|e es IH]; intros s Hc Ho; [done|].
  apply not_elem_of_cons in Hc as [Hc Hcs]. simpl.
  rewrite IH; [|done|].
  - apply step_account; [by apply not_eq_sym|].
    intros k ->. apply (Ho k). by left.
  - intros k Hk. apply (Ho k). by right.
Qed.

Lemma alter_dead f k l :
  noRevive f →
  Forall (λ c, ¬ liveConnection c) l →
  Forall (λ c, ¬ liveConnection c) (alter f k l).
Proof.
  intros Hf Hl. apply Forall_alter; [done|]. intros c _ Hdead Hlive. by apply Hdead, Hf.
Qed.

Lemma idle_not_connected s : idle s → isConnected s = false.
Proof.
  intros [_ Hall]. unfold isConnected.
  destruct (ws s) as [k|]; [|done].
  destruct (connections s !! k) as [c|] eqn:Hc; [|done].
  rewrite Forall_lookup in Hall. specialize (Hall k c Hc).
  destruct (readyState c) eqn:E; try done. destruct Hall. by right.
Qed.

Ltac dead_tac :=
  repeat first
    [ assumption
    | apply alter_dead;
        [first [apply noRevive_closing | apply noRevive_clear | apply noRevive_with_promise
               | apply noRevive_with_timeout | apply noRevive_CLOSING
               | apply noRevive_CLOSED]|] ].

(** In an exhausted provider with nothing under way, an event other than an
    explicit [connect()] constructs no relay socket, schedules no timer and
    leaves the counter and the configuration alone: the ['close'] of a relay
    socket that was closing finds the counter at the maximum. *)
Lemma idle_step s e :
  e ≠ CallConnect → exhausted s → idle s →
  idle (step s e) ∧
  options (step s e) = options s ∧
  reconnectAttempts (step s e) = reconnectAttempts s ∧
  length (connections (step s e)) = length (connections s).
Proof.
  intros He Hex [Ht Hall].
  assert (Hdead : ∀ k c, connections s !! k = Some c →
                         readyState c = CLOSING ∨ readyState c = CLOSED).
  { intros k c Hc. rewrite Forall_lookup in Hall. specialize (Hall k c Hc).
    unfold liveConnection in Hall. destruct (readyState c); auto; destruct Hall; auto. }
  destruct (channelEvent e) eqn:Hch.
  { destruct (relayView_fields _ _ (channelEvent_relayView e s Hch))
      as (Ho & _ & Hra & _ & Hcn & Hrt).
    unfold idle. rewrite Ho, Hra, Hcn, Hrt. repeat split; assumption || reflexivity. }
  destruct e as [| | | |k|k raw|k err|k|k| | | | | | | | |]; try discriminate Hch; try done.
  - (* close() *)
    unfold step, close.
    set (s1 := cleanupChannels (set_isClosing true s)).
    destruct (cleanupChannels_fields (set_isClosing true s))
      as (Ho & Hws & Hra & _ & _ & Hcn & Hrt & _).
    fold s1 in Ho, Hws, Hra, Hcn, Hrt. simpl in *.
    destruct (ws s1) as [k|]; unfold idle, ws_close; simpl.
    + rewrite Ho, Hra, Hcn, Hrt, length_alter. repeat split; try done. dead_tac.
    + rewrite Ho, Hra, Hcn, Hrt. repeat split; done.
  - (* 'open' *)
    simpl. destruct (connections s !! k) as [c|] eqn:Hc; [|done].
    unfold connection_event. by destruct (Hdead k c Hc) as [-> | ->].
  - (* 'message' *)
    destruct raw as [[]|]; try discriminate Hch.
    simpl. destruct (connections s !! k) as [c|] eqn:Hc; [|done].
    unfold connection_event. destruct (Hdead k c Hc) as [-> | ->]; [|done].
    unfold ws_on_message, handleMessage, handleAuthResponse, resolve, reject,
      clearTimeout, idle; simpl.
    repeat (case_match; simpl); fold_fields; simpl; rewrite ?length_alter.
    all: repeat split; try done.
    all: dead_tac.
  - (* 'error' *)
    simpl. destruct (connections s !! k) as [c|] eqn:Hc; [|done].
    unfold connection_event. destruct (Hdead k c Hc) as [-> | ->]; [|done].
    unfold ws_on_error, reject, clearTimeout, set_readyState, idle; simpl.
    repeat (case_match; simpl); rewrite ?length_alter.
    all: repeat split; try done.
    all: dead_tac.
  - (* 'close' *)
    simpl. destruct (connections s !! k) as [c|] eqn:Hc; [|done].
    unfold connection_event. destruct (Hdead k c Hc) as [-> | ->]; [|done].
    unfold ws_on_close, handleDisconnect, clearTimeout, set_readyState; cbv beta zeta.
    set (s1 := cleanupChannels _).
    assert (Hs1 : options s1 = options s ∧ reconnectAttempts s1 = reconnectAttempts s ∧
                  reconnectTimers s1 = reconnectTimers s ∧
                  connections s1 =
                  alter clear k (alter (with_readyState CLOSED) k (connections s)))
      by (subst s1; by fold_fields).
    destruct Hs1 as (Ho & Ha & Hrt & Hcn).
    assert (Hex1 : exhausted s1) by (unfold exhausted; by rewrite Ho, Ha).
    assert (Hend : (if negb (isClosing s1) then attemptReconnect s1 else s1) = s1).
    { destruct (negb (isClosing s1)); [|done]. by apply attemptReconnect_exhausted. }
    rewrite Hend. unfold idle. rewrite Ho, Ha, Hrt, Hcn, !length_alter.
    repeat split; try done. dead_tac.
  - (* connect timer *)
    simpl. destruct (connections s !! k) as [c|] eqn:Hc; [|done].
    destruct (timeout c); try done.
    unfold ws_on_timeout, reject, ws_close, idle; simpl.
    destruct (ws s) as [j|]; simpl.
    all: repeat case_match; simpl; rewrite ?length_alter.
    all: repeat split; try done.
    all: dead_tac.
  - (* reconnect timer *)
    simpl. by rewrite Ht.
Qed.

Lemma idle_run es : ∀ s,
  CallConnect ∉ es → exhausted s → idle s →
  exhausted (run s es) ∧ idle (run s es) ∧
  length (connections (run s es)) = length (connections s).
Proof.
  induction es as [|e es IH]; intros s Hes Hex Hq; [done|].
  apply not_elem_of_cons in Hes as [He Hes]. simpl.
  destruct (idle_step s e (not_eq_sym He) Hex Hq) as (Hq1 & Ho1 & Hra1 & Hl1).
  assert (Hex1 : exhausted (step s e)) by (unfold exhausted in *; by rewrite Ho1, Hra1).
  destruct (IH (step s e) Hes Hex1 Hq1) as (Hex2 & Hq2 & Hl2).
  repeat split; try apply Hex2; try apply Hq2. congruence.
Qed.

(** One try: ['close'] on a relay socket while the provider is not shutting
    down. *)
Lemma close_event_attempt s k c :
  connections s !! k = Some c → readyState c ≠ CLOSED → isClosing s = false →
  (¬ exhausted s →
   reconnectAttempts (step s (WsClose k)) = (reconnectAttempts s + 1)%Z ∧
   reconnectTimers (step s (WsClose k)) = S (reconnectTimers s)) ∧
  (exhausted s →
   reconnectAttempts (step s (WsClose k)) = reconnectAttempts s ∧
   reconnectTimers (step s (WsClose k)) = reconnectTimers s).
Proof.
  intros Hc Hr Hcl.
  assert (Hs : step s (WsClose k) = ws_on_close k (set_readyState k CLOSED s)).
  { simpl. rewrite Hc. unfold connection_event. by destruct (readyState c). }
  rewrite Hs. unfold ws_on_close, handleDisconnect, clearTimeout, set_readyState.
  cbv beta zeta. set (s1 := cleanupChannels _).
  assert (Hs1 : options s1 = options s ∧ reconnectAttempts s1 = reconnectAttempts s ∧
                reconnectTimers s1 = reconnectTimers s ∧ isClosing s1 = false)
    by (subst s1; by fold_fields).
  destruct Hs1 as (Ho & Ha & Hrt & Hic). rewrite Hic. simpl.
  split.
  - intros Hne. rewrite <- Ha, <- Hrt. apply attemptReconnect_counts.
    unfold exhausted. by rewrite Ho, Ha.
  - intros Hex. rewrite attemptReconnect_exhausted; [done|].
    unfold exhausted. by rewrite Ho, Ha.
Qed.

(** C7, as the code has it.  A try is the ['close'] of a relay socket while
    the provider is not shutting down: it increments the counter and arms
    one timer, unless a positive maximum is reached, in which case it does
    neither.  The attempt armed by the increment that reaches the maximum
    still runs.  Without an explicit [connect()] and between two ['open']
    events, the relay sockets the provider constructs are at most the
    timers pending plus what the counter leaves of the maximum.  With the
    maximum reached, no timer pending and no relay socket connecting or
    open, no sequence of events without an explicit [connect()] constructs
    a relay socket, and [isConnected()] stays false; an explicit
    [connect()] with a URL that [ws] accepts opens one. *)
Theorem reconnect_attempts_are_bounded (o : ProviderOptions) (es0 es : list Event) :
  CallConnect ∉ es →
  let s := run (new_LocalProvider o) es0 in
  let s' := run s es in
  (∀ k c, connections s !! k = Some c → readyState c ≠ CLOSED → isClosing s = false →
     (¬ exhausted s →
      reconnectAttempts (step s (WsClose k)) = (reconnectAttempts s + 1)%Z ∧
      reconnectTimers (step s (WsClose k)) = S (reconnectTimers s)) ∧
     (exhausted s →
      reconnectAttempts (step s (WsClose k)) = reconnectAttempts s ∧
      reconnectTimers (step s (WsClose k)) = reconnectTimers s)) ∧
  ((0 < maxReconnectAttempts o)%Z → (∀ k, WsOpen k ∉ es) →
     (Z.of_nat (length (connections s')) ≤
      Z.of_nat (length (connections s)) + Z.of_nat (reconnectTimers s) +
      (maxReconnectAttempts o - reconnectAttempts s))%Z) ∧
  (exhausted s → idle s →
     exhausted s' ∧ idle s' ∧
     length (connections s') = length (connections s) ∧
     isConnected s' = false) ∧
  (∀ u, buildWebSocketUrl o = Some u → websocket_error u = None →
     ws (step s' CallConnect) = Some (length (connections s')) ∧
     connections (step s' CallConnect) !! length (connections s') =
       Some (freshConnection u ByCaller)).
Proof.
  intros Hes s s'.
  split; [|split; [|split]].
  - intros k c. apply close_event_attempt.
  - intros Hpos Hopen.
    assert (Hacc : account s' = account s) by (subst s'; by apply run_account).
    assert (Hb : attemptsBounded s').
    { subst s' s. rewrite <- run_app. apply attemptsBounded_run. split; simpl; lia. }
    assert (Ho : options s' = o) by (subst s' s; by rewrite !run_options).
    destruct Hb as [_ Hmax]. rewrite Ho in Hmax. specialize (Hmax Hpos).
    unfold account in Hacc. lia.
  - intros Hex Hidle.
    destruct (idle_run es s Hes Hex Hidle) as (Hex' & Hidle' & Hlen).
    repeat split; try apply Hex'; try apply Hidle'; try done.
    by apply idle_not_connected.
  - intros u Hu Hw.
    assert (Ho : options s' = o) by (subst s' s; by rewrite !run_options).
    rewrite <- Ho in Hu.
    destruct (connect_fresh ByCaller s' u Hu Hw) as (old & Hlen & _ & Hs).
    change (step s' CallConnect) with (connect ByCaller s'). rewrite Hs. simpl.
    split; [done|].
    rewrite lookup_app_r by lia. by rewrite Hlen, Nat.sub_diag.
Qed.

(** ** The registries, for every provider reached from a fresh one *)

(** Whatever happened to a provider, a channel registered under identifier
    [c] refers to a socket the provider created for [c], a [net.Socket] in
    the TCP registry and a running [dgram.Socket] in the UDP registry, and no
    socket is registered twice. *)
Theorem registry_entries_own_their_sockets (o : ProviderOptions) (es : list Event) :
  let s := run (new_LocalProvider o) es in
  (∀ c ch, tcpChannels s !! c = Some ch →
     ∃ x, sockets s !! tcp_socket ch = Some x ∧ kind x = NetSocket ∧ sock_channelId x = c) ∧
  (∀ c ch, udpChannels s !! c = Some ch →
     ∃ x, sockets s !! udp_socket ch = Some x ∧ kind x = DgramSocket ∧
          sock_channelId x = c ∧ phase x = Live) ∧
  NoDup (registeredSockets s).
Proof.
  intros s.
  assert (Hok : registryOk s) by apply registryOk_run, registryOk_new.
  split; [|split].
  - intros c ch Hch. destruct Hok as [Ht _]. exact (Ht c ch Hch).
  - intros c ch Hch. destruct Hok as [_ Hu]. exact (Hu c ch Hch).
  - by apply registryOk_NoDup.
Qed.

(** ** Partners *)

Lemma cleanup_partnersCount s : partnersCount (cleanupChannels s) = partnersCount s.
Proof.
  pose proof (cleanupChannels_outside s) as Ho. unfold outsideChannels in Ho.
  by injection Ho as ? ? ? ? ? ? ? ? ? ? ?.
Qed.

Lemma replay_partnersCount s : partnersCount (replayTokens s) = partnersCount s.
Proof.
  destruct (replayTokens_spec s) as [Hs _]. unfold session in Hs.
  by injection Hs as ? ? ? ? ? ? ? ? ? ? ? ?.
Qed.

Lemma step_partnersCount s e :
  (∀ k n, e ≠ WsMessage k (Some (PartnersMessage n))) →
  partnersCount (step s e) = partnersCount s.
Proof.
  intros He.
  destruct e as [| | | |j|j raw|j err|j|j| | | | | | | | |].
  - simpl. unfold connect, ws_close. by repeat case_match.
  - unfold step, close. set (s1 := cleanupChannels _).
    assert (Hs1 : partnersCount s1 = partnersCount s)
      by (subst s1; by rewrite cleanup_partnersCount).
    by destruct (ws s1).
  - unfold step, addConnectorToken. by rewrite send_eq.
  - unfold step, removeConnectorToken. by rewrite send_eq.
  - simpl. destruct (connections s !! j); [|done].
    unfold connection_event. by destruct (readyState _).
  - simpl. destruct (connections s !! j); [|done].
    unfold connection_event. destruct (readyState _); try done.
    all: destruct raw as [m|]; [|done].
    all: destruct m; try done; try (by destruct (He j count)).
    all: unfold_handlers; unfold handleAuthResponse, resolve, reject, clearTimeout.
    all: repeat (case_match; simplify_eq/=); rewrite ?send_eq; simpl;
      rewrite ?replay_partnersCount; done.
  - simpl. destruct (connections s !! j); [|done].
    unfold connection_event. destruct (readyState _); try done.
    all: unfold ws_on_error, reject, clearTimeout, set_readyState; simpl.
    all: by repeat (case_match; simpl).
  - simpl. destruct (connections s !! j); [|done].
    unfold connection_event. destruct (readyState _); try done.
    all: unfold ws_on_close, handleDisconnect, attemptReconnect, clearTimeout,
           set_readyState; cbv beta zeta.
    all: repeat (case_match; simpl); by rewrite cleanup_partnersCount.
  - simpl. destruct (connections s !! j) as [cj|]; [|done].
    destruct (timeout cj); try done.
    unfold ws_on_timeout, reject, ws_close; simpl.
    by repeat (case_match; simpl).
  - simpl. destruct (reconnectTimers s); [done|].
    unfold connect, ws_close. by repeat case_match.
  - unfold_handlers. repeat (case_match; simplify_eq/=); rewrite ?send_eq; done.
  - unfold_handlers. repeat (case_match; simplify_eq/=); rewrite ?send_eq; done.
  - unfold_handlers. repeat (case_match; simplify_eq/=); rewrite ?send_eq; done.
  - unfold_handlers. repeat (case_match; simplify_eq/=); rewrite ?send_eq; done.
  - unfold_handlers. repeat (case_match; simplify_eq/=); rewrite ?send_eq; done.
  - unfold_handlers. repeat (case_match; simplify_eq/=); rewrite ?send_eq; done.
  - unfold_handlers. repeat (case_match; simplify_eq/=); rewrite ?send_eq; done.
  - unfold_handlers. repeat (case_match; simplify_eq/=); rewrite ?send_eq; done.
Qed.

(** [getPartnersCount()] is 0 on a new provider, becomes the count of a
    [Partners] frame received on a relay socket that has not closed, and
    is changed by nothing else: [close()], a lost connection and a
    reconnection all leave the last count in place. *)
Theorem partners_count_is_last_reported (o : ProviderOptions) (s : LocalProvider) :
  getPartnersCount (new_LocalProvider o) = 0%Z ∧
  (∀ k c n, connections s !! k = Some c →
            readyState c = OPEN ∨ readyState c = CLOSING →
            getPartnersCount (step s (WsMessage k (Some (PartnersMessage n)))) = n) ∧
  (∀ e, (∀ k n, e ≠ WsMessage k (Some (PartnersMessage n))) →
        getPartnersCount (step s e) = getPartnersCount s).
Proof.
  split; [done|]. split.
  - intros k c n Hk Hr. simpl. rewrite Hk. unfold connection_event.
    by destruct Hr as [-> | ->].
  - intros e He. by apply step_partnersCount.
Qed.

(** ** The ['close'] listener of a relay socket that was replaced *)

Lemma connect_closes_current aw s j cj :
  ws s = Some j → connections s !! j = Some cj →
  connections (connect aw s) !! j = Some (closing cj) ∧
  tcpChannels (connect aw s) = tcpChannels s ∧ udpChannels (connect aw s) = udpChannels s ∧
  (readyState cj = OPEN → isConnected (connect aw s) = false).
Proof.
  intros Hw Hj. unfold connect, thrown. rewrite Hw. unfold ws_close. simpl.
  assert (Hlt : (j < length (alter closing j (connections s)))%nat).
  { rewrite length_alter. by apply lookup_lt_Some in Hj. }
  assert (Hcl : alter closing j (connections s) !! j = Some (closing cj)).
  { by rewrite list_lookup_alter_eq, Hj. }
  destruct (buildWebSocketUrl (options s)) as [u|]; [destruct (websocket_error u)|]; simpl.
  - repeat split; try done.
    + by rewrite lookup_app_l.
    + intros Hopen. unfold isConnected. simpl. rewrite Hw.
      rewrite lookup_app_l by done. rewrite Hcl. unfold closing. by rewrite Hopen.
  - repeat split; try done.
    + by rewrite lookup_app_l.
    + intros _. unfold isConnected. simpl.
      rewrite lookup_app_r by done. by rewrite Nat.sub_diag.
  - repeat split; try done.
    + by rewrite lookup_app_l.
    + intros Hopen. unfold isConnected. simpl. rewrite Hw.
      rewrite lookup_app_l by done. rewrite Hcl. unfold closing. by rewrite Hopen.
Qed.

(** [connect()] called on a connected provider replaces the relay socket but
    leaves the ['close'] listener of the old one in place.  When the old
    socket emits ['close'], that listener tears down the channels of the
    new connection and arms a reconnect timer; when the timer fires,
    [connect()] calls [ws.close()] on the current socket, although it is
    open. *)
Theorem close_event_of_replaced_socket_drops_the_current_one
    (s : LocalProvider) (k j : nat) (c cj : Connection) :
  connections s !! k = Some c → readyState c = CLOSING →
  j ≠ k → ws s = Some j → connections s !! j = Some cj → readyState cj = OPEN →
  isClosing s = false → ¬ exhausted s →
  let s1 := step s (WsClose k) in
  let s2 := step s1 ReconnectTimer in
  isConnected s = true ∧
  tcpChannels s1 = ∅ ∧ udpChannels s1 = ∅ ∧
  reconnectTimers s1 = S (reconnectTimers s) ∧
  tcpChannels s2 = ∅ ∧ udpChannels s2 = ∅ ∧
  (∃ cj', connections s2 !! j = Some cj' ∧ readyState cj' = CLOSING) ∧
  isConnected s2 = false.
Proof.
  intros Hk Hc Hjk Hw Hj Hopen Hcl Hex s1 s2.
  set (s0 := clearTimeout k (set_readyState k CLOSED s)).
  assert (Hs1 : s1 = set_reconnectTimers (S (reconnectTimers s))
                       (set_reconnectAttempts (reconnectAttempts s + 1)%Z
                          (cleanupChannels s0))).
  { subst s1. simpl. rewrite Hk. unfold connection_event. rewrite Hc.
    unfold ws_on_close, handleDisconnect. fold s0.
    rewrite cleanup_isClosing. change (isClosing s0) with (isClosing s). rewrite Hcl. simpl.
    unfold attemptReconnect. rewrite cleanup_options, cleanup_reconnectAttempts,
      cleanup_reconnectTimers.
    change (options s0) with (options s).
    change (reconnectAttempts s0) with (reconnectAttempts s).
    change (reconnectTimers s0) with (reconnectTimers s).
    destruct ((0 <? _)%Z && _) eqn:E; [|done].
    destruct Hex. apply andb_true_iff in E as [E1 E2].
    apply Z.ltb_lt in E1. apply Z.leb_le in E2. by split. }
  assert (Hj0 : connections s0 !! j = Some cj).
  { subst s0. unfold clearTimeout, set_readyState. simpl.
    by rewrite !list_lookup_alter_ne by done. }
  set (s1' := set_reconnectTimers (reconnectTimers s) s1).
  assert (Hs2 : s2 = connect ByReconnect s1').
  { subst s2 s1'. simpl. rewrite Hs1. simpl. done. }
  assert (Hw1 : ws s1' = Some j).
  { subst s1'. rewrite Hs1. simpl. by rewrite cleanup_ws. }
  assert (Hj1 : connections s1' !! j = Some cj).
  { subst s1'. rewrite Hs1. simpl. by rewrite cleanup_connections. }
  destruct (connect_closes_current ByReconnect s1' j cj Hw1 Hj1) as (Hcj & Ht & Hu & Hnc).
  rewrite <- Hs2 in Hcj, Ht, Hu, Hnc.
  assert (Ht1 : tcpChannels s1 = ∅) by (rewrite Hs1; simpl; apply cleanup_tcpChannels).
  assert (Hu1 : udpChannels s1 = ∅) by (rewrite Hs1; simpl; apply cleanup_udpChannels).
  repeat split.
  - unfold isConnected. by rewrite Hw, Hj, Hopen.
  - done.
  - done.
  - by rewrite Hs1.
  - rewrite Ht. subst s1'. simpl. done.
  - rewrite Hu. subst s1'. simpl. done.
  - exists (closing cj). split; [done|]. unfold closing. by rewrite Hopen.
  - by apply Hnc.
Qed.

(** ** [connect()] called by the user replays no token *)

(** A [connect()] the user calls, unlike the one of the reconnect timer, has
    no continuation that re-registers tokens: when [ws] accepts the URL, the
    socket opens and its [AuthResponse] arrives, the promise resolves and
    the provider is connected, the token set is what it was, and no frame
    has been sent. *)
Theorem explicit_connect_replays_no_tokens (s : LocalProvider) (u : string) (err : option string) :
  buildWebSocketUrl (options s) = Some u → websocket_error u = None →
  let k := length (connections s) in
  let s' := run s [CallConnect; WsOpen k; WsMessage k (Some (AuthResponseMessage true err))] in
  isConnected s' = true ∧
  (∃ c, connections s' !! k = Some c ∧ promise c = Resolved) ∧
  getConnectorTokens s' = getConnectorTokens s ∧
  wire s' = wire s.
Proof.
  intros Hu Hacc k s'.
  destruct (connect_fresh ByCaller s u Hu Hacc) as (old & Hlen & _ & Hs1).
  assert (Hk : (old ++ [freshConnection u ByCaller]) !! k = Some (freshConnection u ByCaller)).
  { rewrite lookup_app_r by (subst k; lia). subst k. by rewrite Hlen, Nat.sub_diag. }
  subst s'. unfold run. cbn [foldl].
  change (step s CallConnect) with (connect ByCaller s). rewrite Hs1.
  set (s1 := set_ws _ _).
  assert (H1 : connections s1 !! k = Some (freshConnection u ByCaller)) by exact Hk.
  assert (Hs2 : step s1 (WsOpen k) = ws_on_open (set_readyState k OPEN s1)).
  { simpl. by rewrite Hk. }
  rewrite Hs2. set (s2 := ws_on_open _).
  assert (H2 : connections s2 !! k = Some (with_readyState OPEN (freshConnection u ByCaller))).
  { subst s2. unfold ws_on_open, set_readyState. simpl.
    by rewrite list_lookup_alter_eq, Hk. }
  assert (Hs3 : step s2 (WsMessage k (Some (AuthResponseMessage true err))) =
                handleAuthResponse true err k s2).
  { simpl. simpl in H2. by rewrite H2. }
  rewrite Hs3. clear Hs2 Hs3 H1 H2. subst s2 s1.
  unfold handleAuthResponse, resolve, clearTimeout, ws_on_open, set_readyState. simpl.
  rewrite !list_lookup_alter_eq, Hk. simpl.
  unfold isConnected. simpl. fold k. rewrite !list_lookup_alter_eq, Hk. simpl.
  repeat split; try done. eexists. split; [reflexivity|done].
Qed.

(** ** Frames the provider drops *)

(** A frame the provider cannot route changes nothing and is answered by
    nothing: a buffer [parseMessage] throws on, a [Data] frame for an
    identifier without a channel, of an unknown protocol, or for a UDP
    channel without a target, a [Connect] frame of an unknown protocol, a
    [Disconnect] frame for an identifier without a channel, a [Log]
    frame, and the frame kinds only the provider sends. *)
Theorem unroutable_frames_are_dropped (s : LocalProvider) (k : nat) :
  step s (WsMessage k None) = s ∧
  (∀ d, (data_protocol d = "tcp"%string → tcpChannels s !! data_channelId d = None) →
        (data_protocol d = "udp"%string →
         udpChannels s !! data_channelId d = None ∨
         truthy_opt (data_targetAddr d) = false ∨ truthy_num (data_targetPort d) = false) →
        step s (WsMessage k (Some (DataMessage d))) = s) ∧
  (∀ proto c a p, proto ≠ "tcp"%string → proto ≠ "udp"%string →
        step s (WsMessage k (Some (ConnectMessage proto c a p))) = s) ∧
  (∀ c, tcpChannels s !! c = None → udpChannels s !! c = None →
        step s (WsMessage k (Some (DisconnectMessage c))) = s) ∧
  (∀ level msg, step s (WsMessage k (Some (LogMessage level msg))) = s) ∧
  (∀ tok, step s (WsMessage k (Some (AuthMessage tok))) = s) ∧
  (∀ ok c err, step s (WsMessage k (Some (ConnectResponseMessage ok c err))) = s) ∧
  (∀ c tok op, step s (WsMessage k (Some (ConnectorMessage c tok op))) = s).
Proof.
  assert (Hstep : ∀ raw, (∀ m, raw = Some m → handleMessage m k s = s) →
                         step s (WsMessage k raw) = s).
  { intros raw Hm. simpl. destruct (connections s !! k) as [c|]; [|done].
    unfold connection_event. destruct (readyState c); try done.
    all: unfold ws_on_message; destruct raw as [m|]; [by apply Hm | done]. }
  split; [by apply Hstep|].
  split; [intros d Htcp Hudp|split; [intros proto c a p Hnt Hnu|split; [intros c Htcp Hudp|]]].
  4: by repeat split; intros; apply Hstep; intros m [= <-].
  all: apply Hstep; intros m [= <-]; simpl.
  - unfold handleData.
    destruct (String.eqb_spec (data_protocol d) "tcp") as [Ht|Ht].
    { by rewrite (Htcp Ht). }
    destruct (String.eqb_spec (data_protocol d) "udp") as [Hu|Hu]; [|done].
    destruct (Hudp Hu) as [-> | [Ha | Hp]]; [done| |].
    + destruct (udpChannels s !! data_channelId d); [|done].
      destruct (data_targetAddr d) as [a|]; [|done].
      destruct (data_targetPort d); [|done].
      simpl in Ha. by rewrite Ha.
    + destruct (udpChannels s !! data_channelId d); [|done].
      destruct (data_targetAddr d) as [a|]; [|done].
      destruct (data_targetPort d) as [p|]; [|done].
      simpl in Hp. rewrite Hp. by rewrite andb_false_r.
  - unfold handleConnect.
    destruct (String.eqb_spec proto "tcp"); [done|].
    by destruct (String.eqb_spec proto "udp").
  - unfold handleDisconnectMessage. by rewrite Htcp, Hudp.
Qed.

(** ** Payloads from the relay *)

Lemma handleData_tcp_write s c ch x d :
  tcpChannels s !! c = Some ch → sockets s !! tcp_socket ch = Some x → phase x = Live →
  data_protocol d = "tcp"%string → data_channelId d = c →
  let s' := handleData d s in
  sockets s' !! tcp_socket ch = Some (wrote (data_payload d) None x) ∧
  written (wrote (data_payload d) None x) = written x ++ [(data_payload d, None)] ∧
  phase (wrote (data_payload d) None x) = Live ∧
  (∀ j, j ≠ tcp_socket ch → sockets s' !! j = sockets s !! j) ∧
  outsideSockets s' = outsideSockets s.
Proof.
  intros Hch Hx Hp Hproto Hid. unfold handleData. rewrite Hproto, Hid, Hch. simpl.
  unfold socket_write. simpl. repeat split.
  - by rewrite list_lookup_alter_eq, Hx.
  - unfold wrote. by rewrite Hp.
  - unfold wrote. by rewrite Hp.
  - intros j Hj. by rewrite list_lookup_alter_ne.
Qed.

(** The payloads of the [Data] frames the relay sends for a TCP channel
    are written to the socket of that channel in the order of arrival; no
    other socket is written to, and nothing else changes: in particular
    nothing is sent back. *)
Theorem tcp_payloads_are_written_in_order
    (ds : list DataFields) (s : LocalProvider) (k : nat) (conn : Connection)
    (c : string) (ch : TCPChannel) (x : Socket) :
  connections s !! k = Some conn → readyState conn = OPEN →
  tcpChannels s !! c = Some ch → sockets s !! tcp_socket ch = Some x → phase x = Live →
  Forall (λ d, data_protocol d = "tcp"%string ∧ data_channelId d = c) ds →
  let s' := run s ((λ d, WsMessage k (Some (DataMessage d))) <$> ds) in
  (∃ x', sockets s' !! tcp_socket ch = Some x' ∧ phase x' = Live ∧
         written x' = written x ++ ((λ d, (data_payload d, None)) <$> ds)) ∧
  (∀ j, j ≠ tcp_socket ch → sockets s' !! j = sockets s !! j) ∧
  outsideSockets s' = outsideSockets s.
Proof.
  revert s x. induction ds as [|d ds IH]; intros s x Hk Hopen Hch Hx Hp Hall; simpl.
  - split; [|done]. exists x. by rewrite app_nil_r.
  - apply Forall_cons in Hall as [[Hproto Hid] Hall].
    assert (Hs1 : step s (WsMessage k (Some (DataMessage d))) = handleData d s).
    { simpl. rewrite Hk. unfold connection_event. by rewrite Hopen. }
    destruct (handleData_tcp_write s c ch x d Hch Hx Hp Hproto Hid)
      as (Hx1 & Hw1 & Hp1 & Hother & Hout).
    simpl in Hs1. rewrite Hs1.
    change (foldl step (handleData d s) ?l) with (run (handleData d s) l).
    destruct (outsideSockets_fields _ _ Hout) as (Hws & Htcp & Hudp & Hcn & Hw).
    destruct (IH (handleData d s) (wrote (data_payload d) None x)) as ((x' & Hx' & Hp' & Hw') & Ho' & Hout');
      try done.
    { by rewrite Hcn. }
    { by rewrite Htcp. }
    split; [|split].
    + exists x'. split; [exact Hx'|]. split; [done|].
      rewrite Hw', Hw1. by rewrite <- app_assoc.
    + intros j Hj. etrans; [exact (Ho' j Hj) | by apply Hother].
    + etrans; [exact Hout' | exact Hout].
Qed.

(** ** Errors of a channel socket *)

(** An ['error'] of a connected TCP socket followed by its ['close']: the
    relay is sent [ConnectResponse] with [success = false] and the error
    message, then [Disconnect]; the entry under the socket's identifier is
    removed from the TCP registry whichever socket it refers to; the
    provider makes no [destroy()] call of its own. *)
Theorem tcp_error_is_reported_then_disconnected
    (s : LocalProvider) (sid : nat) (x : Socket) (msg : string) :
  sockets s !! sid = Some x → kind x = NetSocket → phase x = Live →
  destroyError x = None →
  let c := sock_channelId x in
  let s' := run s [TcpError sid msg; TcpClose sid] in
  tcpChannels s' = delete c (tcpChannels s) ∧
  wire s' = wire s ++ outgoing (ConnectResponseMessage false c (Some msg)) s ++
                      outgoing (DisconnectMessage c) s ∧
  (∃ x', sockets s' !! sid = Some x' ∧ phase x' = Ended ∧ closeCalls x' = closeCalls x).
Proof.
  intros Hx Hk Hp He c s'. subst s'. unfold run. cbn [foldl].
  assert (Hs1 : step s (TcpError sid msg) = tcp_on_error x msg (set_phase sid Destroyed s)).
  { simpl. rewrite Hx, Hk. unfold tcp_event. by rewrite Hp. }
  rewrite Hs1. clear Hs1.
  set (s1 := tcp_on_error x msg (set_phase sid Destroyed s)).
  assert (Hx1 : sockets s1 !! sid = Some (with_phase Destroyed x)).
  { subst s1. unfold tcp_on_error, sendConnectResponse, set_phase. rewrite send_eq. simpl.
    by rewrite list_lookup_alter_eq, Hx. }
  assert (Hs2 : step s1 (TcpClose sid) =
                tcp_on_close (with_phase Destroyed x) (set_phase sid Ended s1)).
  { simpl. rewrite Hx1. simpl. rewrite Hk. unfold tcp_event. simpl. by rewrite He. }
  rewrite Hs2. clear Hs2. subst s1.
  unfold tcp_on_close, tcp_on_error, sendDisconnect, sendConnectResponse, set_phase in *.
  rewrite !send_eq in *. simpl in *.
  split; [|split].
  - by rewrite delete_delete_eq.
  - by rewrite <- app_assoc.
  - rewrite list_lookup_alter_eq, list_lookup_alter_eq, Hx. simpl. by eexists.
Qed.

(** ** Sockets that are still connecting when [close()] is called *)

Lemma destroyAll_other sids : ∀ s sid,
  sid ∉ sids → sockets (destroyAll sids s) !! sid = sockets s !! sid.
Proof.
  induction sids as [|i sids IH]; intros s sid Hnot; simpl; [done|].
  apply not_elem_of_cons in Hnot as [Hne Hnot].
  unfold socket_destroy. simpl. rewrite list_lookup_alter_ne by done. by apply IH.
Qed.

Lemma unregistered_not_registered sid s : unregistered sid s → sid ∉ registeredSockets s.
Proof.
  intros [Ht Hu]. unfold registeredSockets. rewrite not_elem_of_app. split.
  - intros Hin. apply list_elem_of_fmap in Hin as (ch & -> & Hin).
    apply list_elem_of_fmap in Hin as ([c ch'] & -> & Hin).
    apply elem_of_map_to_list in Hin. by apply (Ht c ch').
  - intros Hin. apply list_elem_of_fmap in Hin as (ch & -> & Hin).
    apply list_elem_of_fmap in Hin as ([c ch'] & -> & Hin).
    apply elem_of_map_to_list in Hin. by apply (Hu c ch').
Qed.

(** [close()] destroys the sockets of the registered channels only.  A TCP
    socket that is still connecting is in no registry: [close()] makes no
    call on it, and when it connects afterwards its listener registers the
    channel on the closed provider; the [ConnectResponse] goes nowhere. *)
Theorem close_leaves_connecting_sockets
    (s : LocalProvider) (sid : nat) (x : Socket) :
  sockets s !! sid = Some x → kind x = NetSocket → phase x = Opening →
  unregistered sid s →
  let s1 := close s in
  let s2 := step s1 (TcpConnect sid) in
  sockets s1 !! sid = Some x ∧
  isClosing s2 = true ∧
  tcpChannels s2 =
    {[ sock_channelId x := {| tcp_socket := sid; tcp_channelId := sock_channelId x |} ]} ∧
  (∃ x', sockets s2 !! sid = Some x' ∧ phase x' = Live ∧ closeCalls x' = closeCalls x) ∧
  wire s2 = wire s.
Proof.
  intros Hx Hk Hp Hun s1 s2.
  destruct (close_spec s) as (Hcl & Hws & Ht & Hu & Hnc & _ & Hso & Hw & _).
  fold s1 in Hcl, Hws, Ht, Hu, Hnc, Hso, Hw.
  assert (Hx1 : sockets s1 !! sid = Some x).
  { rewrite Hso, destroyAll_other; [done | by apply unregistered_not_registered]. }
  assert (Hs2 : s2 = tcp_on_connect sid x (set_phase sid Live s1)).
  { subst s2. simpl. rewrite Hx1, Hk. unfold tcp_event. by rewrite Hp. }
  assert (Hsend : ∀ m s', ws s' = ws s1 → send m s' = s').
  { intros m s' Hw'. unfold send. by rewrite Hw', Hws. }
  split; [done|]. rewrite Hs2.
  unfold tcp_on_connect, sendConnectResponse, register_tcp, set_phase, socket_write.
  rewrite Hsend by done. simpl.
  destruct (connectCallback x); [destruct (upstreamProxyType (options s1))|]; simpl.
  all: rewrite Ht, insert_empty.
  all: repeat split; try done.
  all: rewrite ?list_lookup_alter_eq, Hx1; simpl.
  all: eexists; split; [reflexivity|]; done.
Qed.

(** ** The upstream proxy *)

Lemma lookup_snoc (l : list Socket) (x : Socket) : (l ++ [x]) !! length l = Some x.
Proof. rewrite lookup_app_r by lia. by rewrite Nat.sub_diag. Qed.

Lemma alter_snoc (f : Socket → Socket) (l : list Socket) (x : Socket) :
  alter f (length l) (l ++ [x]) = l ++ [f x].
Proof. rewrite alter_app_r_alt by lia. by rewrite Nat.sub_diag. Qed.

Lemma outgoing_open m s k conn :
  ws s = Some k → connections s !! k = Some conn → readyState conn = OPEN →
  outgoing m s = [(k, m)].
Proof. intros Hw Hk Ho. unfold outgoing, isConnected. by rewrite Hw, Hk, Ho. Qed.

Lemma send_open m s k conn :
  ws s = Some k → connections s !! k = Some conn → readyState conn = OPEN →
  send m s = set_wire (wire s ++ [(k, m)]) s.
Proof. intros Hw Hk Ho. unfold send. by rewrite Hw, Hk, Ho. Qed.

(** A [Connect] frame for TCP, on a provider with a SOCKS5 upstream proxy. *)
Lemma connect_frame_socks5 s k conn c a p :
  connections s !! k = Some conn → readyState conn = OPEN →
  truthy (upstreamProxy (options s)) = true → upstreamProxyType (options s) = socks5 →
  step s (WsMessage k (Some (ConnectMessage "tcp" c a p))) =
  set_sockets (sockets s ++
    [with_connectCallback (Socks5ProxyHandler 0) (new_socket NetSocket c a p)]) s.
Proof.
  intros Hk Hopen Hproxy Htype. unfold step. rewrite Hk. unfold connection_event.
  rewrite Hopen. unfold ws_on_message, handleMessage, handleConnect.
  change (String.eqb "tcp" "tcp") with true. cbv iota.
  unfold handleTCPConnect. cbv zeta. cbn [options set_sockets]. rewrite Hproxy.
  unfold connectViaProxy. cbn [options set_sockets sockets]. rewrite Htype.
  by rewrite alter_snoc.
Qed.

Lemma connect_frame_http s k conn c a p :
  connections s !! k = Some conn → readyState conn = OPEN →
  truthy (upstreamProxy (options s)) = true → upstreamProxyType (options s) = http →
  step s (WsMessage k (Some (ConnectMessage "tcp" c a p))) =
  set_sockets (sockets s ++
    [with_connectCallback (HttpProxyHandler "") (new_socket NetSocket c a p)]) s.
Proof.
  intros Hk Hopen Hproxy Htype. unfold step. rewrite Hk. unfold connection_event.
  rewrite Hopen. unfold ws_on_message, handleMessage, handleConnect.
  change (String.eqb "tcp" "tcp") with true. cbv iota.
  unfold handleTCPConnect. cbv zeta. cbn [options set_sockets]. rewrite Hproxy.
  unfold connectViaProxy. cbn [options set_sockets sockets]. rewrite Htype.
  by rewrite alter_snoc.
Qed.

Ltac last_socket :=
  rewrite ?alter_snoc, ?lookup_snoc; simpl; rewrite ?alter_snoc, ?lookup_snoc.

(** The SOCKS5 handshake without credentials.  The provider reports the
    channel as connected as soon as the socket reaches the proxy, before
    any byte of the handshake; it writes the greeting [05 01 00] and, on the
    reply [05 00], the connect request; on the reply [05 00 ...] it puts
    the original ['data'] listener back and reports the channel as connected
    a second time.  What the socket receives afterwards goes to the relay
    as [Data] frames of the channel. *)
Theorem socks5_handshake_without_credentials
    (s : LocalProvider) (k : nat) (conn : Connection) (c : string)
    (a : option string) (p : option Z) (r0 r2 payload : string) :
  ws s = Some k → connections s !! k = Some conn → readyState conn = OPEN →
  truthy (upstreamProxy (options s)) = true →
  upstreamProxyType (options s) = socks5 →
  truthy (upstreamUsername (options s)) = false →
  byte_at 0 r0 = Some 5%Z → byte_at 1 r0 = Some 0%Z →
  byte_at 0 r2 = Some 5%Z → byte_at 1 r2 = Some 0%Z →
  let sid := length (sockets s) in
  let request :=
    (bytes [5; 1; 0; 3; Z.of_nat (String.length (default ""%string a))]%Z +:+
     default ""%string a +:+
     bytes [Z.land (Z.shiftr (to_int32 p) 8) 255; Z.land (to_int32 p) 255])%string in
  let s1 := run s [WsMessage k (Some (ConnectMessage "tcp" c a p)); TcpConnect sid] in
  let s2 := run s1 [TcpData sid r0; TcpData sid r2] in
  let s3 := step s2 (TcpData sid payload) in
  wire s1 = wire s ++ [(k, ConnectResponseMessage true c None)] ∧
  (∃ x1, sockets s1 = sockets s ++ [x1] ∧
         written x1 = [(bytes [5; 1; 0]%Z, None)]) ∧
  (∃ x2, sockets s2 = sockets s ++ [x2] ∧ phase x2 = Live ∧
         listener x2 = OriginalDataHandler ∧
         written x2 = [(bytes [5; 1; 0]%Z, None); (request, None)]) ∧
  tcpChannels s2 = <[c := {| tcp_socket := sid; tcp_channelId := c |}]> (tcpChannels s) ∧
  wire s2 = wire s ++ [(k, ConnectResponseMessage true c None);
                       (k, ConnectResponseMessage true c None)] ∧
  wire s3 = wire s2 ++
    [(k, DataMessage {| data_protocol := "tcp"; data_channelId := c;
                        data_payload := payload; data_compression := false;
                        data_address := None; data_port := None;
                        data_targetAddr := None; data_targetPort := None |})].
Proof.
  intros Hws Hk Hopen Hproxy Htype Huser H00 H01 H20 H21 sid request s1 s2 s3.
  assert (Hsend : ∀ m s', ws s' = ws s → connections s' = connections s →
                          send m s' = set_wire (wire s' ++ [(k, m)]) s').
  { intros m s' Hw' Hc'. apply (send_open m s' k conn); [by rewrite Hw' | by rewrite Hc' | done]. }
  set (ch := {| tcp_socket := sid; tcp_channelId := c |}).
  set (ok := (k, ConnectResponseMessage true c None)).
  set (x0 := with_connectCallback (Socks5ProxyHandler 0) (new_socket NetSocket c a p)).
  set (sA := step s (WsMessage k (Some (ConnectMessage "tcp" c a p)))).
  assert (HA : sA = set_sockets (sockets s ++ [x0]) s)
    by apply (connect_frame_socks5 s k conn c a p Hk Hopen Hproxy Htype).
  (* 'connect' *)
  set (xB := wrote (bytes [5; 1; 0]%Z) None (with_phase Live x0)).
  assert (HB : s1 = set_sockets (sockets s ++ [xB])
                      (set_wire (wire s ++ [ok])
                         (set_tcpChannels (<[c := ch]> (tcpChannels s)) s))).
  { subst s1. unfold run. cbn [foldl]. fold sA. rewrite HA. subst sid.
    unfold step. last_socket. unfold tcp_event. simpl.
    unfold tcp_on_connect, sendConnectResponse, register_tcp, set_phase, socket_write.
    last_socket. rewrite Hsend by done. simpl. rewrite Htype, Huser. by last_socket. }
  (* the method selection *)
  set (xC := with_listener (Socks5ProxyHandler 2) (wrote request None xB)).
  assert (HC : step s1 (TcpData sid r0) =
               set_sockets (sockets s ++ [xC])
                 (set_wire (wire s ++ [ok])
                    (set_tcpChannels (<[c := ch]> (tcpChannels s)) s))).
  { rewrite HB. subst sid. unfold step. last_socket. unfold tcp_event. simpl.
    unfold tcp_on_data. simpl. unfold socks5ProxyHandler. simpl.
    rewrite H00, H01, Huser. simpl.
    unfold set_listener, sendSocks5ConnectRequest, socket_write. by last_socket. }
  (* the reply to the connect request *)
  set (xD := with_listener OriginalDataHandler xC).
  assert (HD : s2 = set_sockets (sockets s ++ [xD])
                      (set_wire (wire s ++ [ok; ok])
                         (set_tcpChannels (<[c := ch]> (tcpChannels s)) s))).
  { subst s2. unfold run. cbn [foldl]. rewrite HC. subst sid.
    unfold step. last_socket. unfold tcp_event. simpl.
    unfold tcp_on_data. simpl. unfold socks5ProxyHandler. simpl.
    rewrite H20, H21. simpl.
    unfold set_listener, sendConnectResponse, register_tcp. last_socket.
    rewrite Hsend by done. simpl. rewrite insert_insert_eq, <- app_assoc. done. }
  (* a payload *)
  assert (HE : wire s3 = wire s2 ++
    [(k, DataMessage {| data_protocol := "tcp"; data_channelId := c;
                        data_payload := payload; data_compression := false;
                        data_address := None; data_port := None;
                        data_targetAddr := None; data_targetPort := None |})]).
  { subst s3. rewrite HD. subst sid. unfold step. last_socket. unfold tcp_event. simpl.
    unfold tcp_on_data. simpl. unfold sendData.
    rewrite Hsend; [|reflexivity|reflexivity]. reflexivity. }
  split; [by rewrite HB|]. split; [exists xB; by rewrite HB|].
  split; [exists xD; by rewrite HD|]. split; [by rewrite HD|].
  split; [by rewrite HD | exact HE].
Qed.

(** *** Bytes of a packet *)

Lemma str_length_app (a b : string) :
  String.length (a +:+ b) = (String.length a + String.length b)%nat.
Proof.
  induction a as [|x a IH]; [done|].
  change (String x a +:+ b)%string with (String x (a +:+ b)). simpl. by rewrite IH.
Qed.

Lemma u8_value (n : Z) : Z.of_N (N_of_ascii (u8 n)) = (n mod 256)%Z.
Proof.
  unfold u8. pose proof (Z.mod_pos_bound n 256 eq_refl) as Hb.
  rewrite N_ascii_embedding by lia. lia.
Qed.

Lemma byte_at_app_l (i : nat) (a b : string) :
  (i < String.length a)%nat → byte_at i (a +:+ b) = byte_at i a.
Proof. intros Hi. unfold byte_at. by rewrite <- append_correct1. Qed.

Lemma byte_at_app_r (i : nat) (a b : string) :
  byte_at (String.length a + i) (a +:+ b) = byte_at i b.
Proof. unfold byte_at. rewrite (Nat.add_comm _ i). by rewrite <- append_correct2. Qed.

Lemma substring_app_l (a b : string) : String.substring 0 (String.length a) (a +:+ b) = a.
Proof.
  induction a as [|x a IH]; [by destruct b|].
  change (String x a +:+ b)%string with (String x (a +:+ b)). simpl. by rewrite IH.
Qed.

Lemma int32_low_bytes (p : Z) :
  (256 * Z.land (Z.shiftr (to_int32 (Some p)) 8) 255 + Z.land (to_int32 (Some p)) 255
   = p mod 65536)%Z.
Proof.
  change 255%Z with (Z.ones 8). rewrite !Z.land_ones by lia.
  rewrite Z.shiftr_div_pow2 by lia.
  set (v := to_int32 (Some p)).
  assert (Hv : (v mod 65536 = p mod 65536)%Z).
  { subst v. unfold to_int32.
    pose proof (Z.div_mod (p + 2 ^ 31) (2 ^ 32) ltac:(lia)) as Hd.
    replace ((p + 2 ^ 31) mod 2 ^ 32 - 2 ^ 31)%Z
      with (p + (- (65536 * ((p + 2 ^ 31) / 2 ^ 32))) * 65536)%Z by lia.
    by rewrite Z.mod_add. }
  rewrite <- Hv. change 65536%Z with (256 * 256)%Z.
  rewrite (Z.rem_mul_r v 256 256) by lia. change (2 ^ 8)%Z with 256%Z. lia.
Qed.

(** The connect request [sendSocks5ConnectRequest] writes: version 5,
    command 1, a reserved zero, address type 3 (a domain name, also for an
    IP literal), the length of the address in one byte, the address, and
    the port in two bytes, high byte first.  The length byte and the port
    are kept modulo 256 and 65536: an address of 256 bytes or more is
    announced with a shorter length than it has. *)
Theorem socks5_connect_request_layout
    (s : LocalProvider) (sid : nat) (x : Socket) (a : string) (p : Z) :
  sockets s !! sid = Some x → phase x = Live →
  ∃ packet x' hi lo,
    sockets (sendSocks5ConnectRequest sid (Some a) (Some p) s) !! sid = Some x' ∧
    written x' = written x ++ [(packet, None)] ∧
    String.length packet = (7 + String.length a)%nat ∧
    byte_at 0 packet = Some 5%Z ∧ byte_at 1 packet = Some 1%Z ∧
    byte_at 2 packet = Some 0%Z ∧ byte_at 3 packet = Some 3%Z ∧
    byte_at 4 packet = Some (Z.of_nat (String.length a) mod 256)%Z ∧
    String.substring 5 (String.length a) packet = a ∧
    byte_at (5 + String.length a) packet = Some hi ∧
    byte_at (6 + String.length a) packet = Some lo ∧
    (256 * hi + lo = p mod 65536)%Z.
Proof.
  intros Hx Hp.
  set (hi := Z.land (Z.shiftr (to_int32 (Some p)) 8) 255).
  set (lo := Z.land (to_int32 (Some p)) 255).
  set (tail := String (u8 hi) (String (u8 lo) EmptyString)).
  set (len := u8 (Z.of_nat (String.length a))).
  set (packet := String (u8 5) (String (u8 1) (String (u8 0) (String (u8 3)
                   (String len (a +:+ tail)))))).
  exists packet, (wrote packet None x), hi, lo.
  split.
  { unfold sendSocks5ConnectRequest, socket_write. simpl.
    by rewrite list_lookup_alter_eq, Hx. }
  split; [unfold wrote; by rewrite Hp|].
  assert (Hlo : ∀ v, (Z.land v 255 mod 256 = Z.land v 255)%Z).
  { intros v. change 255%Z with (Z.ones 8). rewrite Z.land_ones by lia.
    apply Z.mod_mod. lia. }
  repeat split.
  - subst packet. simpl. rewrite str_length_app. subst tail. simpl. lia.
  - unfold byte_at. simpl. subst len. by rewrite u8_value.
  - simpl. apply substring_app_l.
  - change (5 + String.length a)%nat with (S (S (S (S (S (String.length a)))))).
    unfold byte_at. simpl. fold (byte_at (String.length a) (a +:+ tail)).
    rewrite <- (Nat.add_0_r (String.length a)) at 1. rewrite byte_at_app_r.
    subst tail. unfold byte_at. simpl. subst hi. by rewrite u8_value, Hlo.
  - change (6 + String.length a)%nat with (S (S (S (S (S (S (String.length a))))))).
    unfold byte_at. simpl. fold (byte_at (S (String.length a)) (a +:+ tail)).
    rewrite <- (Nat.add_1_r (String.length a)). rewrite byte_at_app_r.
    subst tail. unfold byte_at. simpl. subst lo. by rewrite u8_value, Hlo.
  - apply int32_low_bytes.
Qed.

(** The SOCKS5 handshake with credentials.  With [upstreamUsername] set the
    greeting offers methods 0 and 2; when the proxy selects method 2 the
    provider writes the username/password request (version 1, the two
    fields each behind its length byte), and on a reply whose status byte is
    0 the connect request; the reply [05 00 ...] to that completes the
    handshake. *)
Theorem socks5_handshake_with_credentials
    (s : LocalProvider) (k : nat) (conn : Connection) (c : string)
    (a : option string) (p : option Z) (r0 r1 r2 : string) :
  ws s = Some k → connections s !! k = Some conn → readyState conn = OPEN →
  truthy (upstreamProxy (options s)) = true →
  upstreamProxyType (options s) = socks5 →
  truthy (upstreamUsername (options s)) = true →
  byte_at 0 r0 = Some 5%Z → byte_at 1 r0 = Some 2%Z →
  byte_at 1 r1 = Some 0%Z →
  byte_at 0 r2 = Some 5%Z → byte_at 1 r2 = Some 0%Z →
  let sid := length (sockets s) in
  let user := upstreamUsername (options s) in
  let pass := upstreamPassword (options s) in
  let greeting := bytes [5; 2; 0; 2]%Z in
  let auth :=
    (bytes [1; Z.of_nat (String.length user)]%Z +:+ user +:+
     bytes [Z.of_nat (String.length pass)] +:+ pass)%string in
  let request :=
    (bytes [5; 1; 0; 3; Z.of_nat (String.length (default ""%string a))]%Z +:+
     default ""%string a +:+
     bytes [Z.land (Z.shiftr (to_int32 p) 8) 255; Z.land (to_int32 p) 255])%string in
  let s' := run s [WsMessage k (Some (ConnectMessage "tcp" c a p)); TcpConnect sid;
                   TcpData sid r0; TcpData sid r1; TcpData sid r2] in
  (∃ x', sockets s' = sockets s ++ [x'] ∧ phase x' = Live ∧
         listener x' = OriginalDataHandler ∧
         written x' = [(greeting, None); (auth, None); (request, None)]) ∧
  tcpChannels s' = <[c := {| tcp_socket := sid; tcp_channelId := c |}]> (tcpChannels s) ∧
  wire s' = wire s ++ [(k, ConnectResponseMessage true c None);
                       (k, ConnectResponseMessage true c None)].
Proof.
  intros Hws Hk Hopen Hproxy Htype Huser H00 H01 H11 H20 H21
    sid user pass greeting auth request s'.
  assert (Hsend : ∀ m s', ws s' = ws s → connections s' = connections s →
                          send m s' = set_wire (wire s' ++ [(k, m)]) s').
  { intros m s0 Hw' Hc'. apply (send_open m s0 k conn); [by rewrite Hw' | by rewrite Hc' | done]. }
  set (ch := {| tcp_socket := sid; tcp_channelId := c |}).
  set (ok := (k, ConnectResponseMessage true c None)).
  set (x0 := with_connectCallback (Socks5ProxyHandler 0) (new_socket NetSocket c a p)).
  set (sA := step s (WsMessage k (Some (ConnectMessage "tcp" c a p)))).
  assert (HA : sA = set_sockets (sockets s ++ [x0]) s)
    by apply (connect_frame_socks5 s k conn c a p Hk Hopen Hproxy Htype).
  set (registered := set_wire (wire s ++ [ok])
                       (set_tcpChannels (<[c := ch]> (tcpChannels s)) s)).
  (* 'connect' *)
  set (xB := wrote greeting None (with_phase Live x0)).
  set (sB := step sA (TcpConnect sid)).
  assert (HB : sB = set_sockets (sockets s ++ [xB]) registered).
  { subst sB. rewrite HA. subst sid.
    unfold step. last_socket. unfold tcp_event. simpl.
    unfold tcp_on_connect, sendConnectResponse, register_tcp, set_phase, socket_write.
    last_socket. rewrite Hsend by done. simpl. rewrite Htype, Huser. by last_socket. }
  (* the method selection *)
  set (xC := with_listener (Socks5ProxyHandler 1) (wrote auth None xB)).
  set (sC := step sB (TcpData sid r0)).
  assert (HC : sC = set_sockets (sockets s ++ [xC]) registered).
  { subst sC. rewrite HB. subst sid. unfold step. last_socket. unfold tcp_event. simpl.
    unfold tcp_on_data. simpl. unfold socks5ProxyHandler. simpl.
    rewrite H00, H01, Huser. simpl.
    unfold set_listener, socket_write. by last_socket. }
  (* the reply to the credentials *)
  set (xD := with_listener (Socks5ProxyHandler 2) (wrote request None xC)).
  set (sD := step sC (TcpData sid r1)).
  assert (HD : sD = set_sockets (sockets s ++ [xD]) registered).
  { subst sD. rewrite HC. subst sid. unfold step. last_socket. unfold tcp_event. simpl.
    unfold tcp_on_data. simpl. unfold socks5ProxyHandler. simpl.
    rewrite H11. simpl.
    unfold set_listener, sendSocks5ConnectRequest, socket_write. by last_socket. }
  (* the reply to the connect request *)
  set (xE := with_listener OriginalDataHandler xD).
  assert (HE : s' = set_sockets (sockets s ++ [xE])
                      (set_wire (wire s ++ [ok; ok])
                         (set_tcpChannels (<[c := ch]> (tcpChannels s)) s))).
  { subst s'. unfold run. cbn [foldl]. fold sA. fold sB. fold sC. fold sD. rewrite HD.
    subst sid. unfold step. last_socket. unfold tcp_event. simpl.
    unfold tcp_on_data. simpl. unfold socks5ProxyHandler. simpl.
    rewrite H20, H21. simpl.
    unfold set_listener, sendConnectResponse, register_tcp. last_socket.
    rewrite Hsend by done. simpl. rewrite insert_insert_eq, <- app_assoc. done. }
  rewrite HE. split; [by exists xE|]. done.
Qed.

(** The ways the SOCKS5 handshake fails.  In each the handler calls
    [destroy(err)] and writes nothing; the ['error'] the socket then emits
    carries that error to the ['error'] listener, which unregisters the
    channel and sends [ConnectResponse] with [success = false] and the
    message, and the ['close'] that follows sends [Disconnect]. *)
Theorem socks5_handshake_failure_is_reported
    (s : LocalProvider) (sid : nat) (x : Socket) (hs : nat) (r e : string) (m : string) :
  sockets s !! sid = Some x → kind x = NetSocket → phase x = Live →
  listener x = Socks5ProxyHandler hs →
  (hs = 0%nat ∧ byte_at 0 r ≠ Some 5%Z ∧ m = "Invalid SOCKS5 response"%string) ∨
  (hs = 0%nat ∧ byte_at 0 r = Some 5%Z ∧ byte_at 1 r ≠ Some 0%Z ∧
   (byte_at 1 r ≠ Some 2%Z ∨ truthy (upstreamUsername (options s)) = false) ∧
   m = "SOCKS5 auth method not supported"%string) ∨
  (hs = 1%nat ∧ byte_at 1 r ≠ Some 0%Z ∧ m = "SOCKS5 authentication failed"%string) ∨
  (hs = 2%nat ∧ (byte_at 0 r ≠ Some 5%Z ∨ byte_at 1 r ≠ Some 0%Z) ∧
   m = ("SOCKS5 connect failed: " +:+ show_number (byte_at 1 r))%string) →
  let c := sock_channelId x in
  let s' := run s [TcpData sid r; TcpError sid e; TcpClose sid] in
  tcpChannels s' = delete c (tcpChannels s) ∧
  wire s' = wire s ++ outgoing (ConnectResponseMessage false c (Some m)) s ++
                      outgoing (DisconnectMessage c) s ∧
  (∃ x', sockets s' !! sid = Some x' ∧ phase x' = Ended ∧ written x' = written x ∧
         closeCalls x' = S (closeCalls x)).
Proof.
  intros Hx Hk Hp Hl Hfail c s'.
  assert (H1 : step s (TcpData sid r) = socket_destroy sid (Some m) s).
  { unfold step. rewrite Hx, Hk. unfold tcp_event. rewrite Hp.
    unfold tcp_on_data. rewrite Hl. unfold socks5ProxyHandler.
    destruct Hfail as [(-> & H0 & ->) | [(-> & H0 & H1 & H2 & ->) |
                      [(-> & H1 & ->) | (-> & H01 & ->)]]].
    - by rewrite bool_decide_false.
    - rewrite bool_decide_true by done. simpl.
      rewrite (bool_decide_false (byte_at 1 r = Some 0%Z)) by done.
      destruct H2 as [H2|H2].
      + by rewrite (bool_decide_false (byte_at 1 r = Some 2%Z)).
      + rewrite H2. by rewrite andb_false_r.
    - by rewrite bool_decide_false.
    - destruct H01 as [H0|H1].
      + by rewrite (bool_decide_false (byte_at 0 r = Some 5%Z)).
      + rewrite (bool_decide_false (byte_at 1 r = Some 0%Z)) by done.
        by rewrite orb_true_r. }
  subst s'. unfold run. cbn [foldl]. rewrite H1. clear H1 Hfail.
  set (xd := destroyed (Some m) x).
  assert (Hxd : sockets (socket_destroy sid (Some m) s) !! sid = Some xd).
  { unfold socket_destroy. simpl. by rewrite list_lookup_alter_eq, Hx. }
  assert (Hd : xd = {| kind := kind x; sock_channelId := sock_channelId x;
                       sock_address := sock_address x; sock_port := sock_port x;
                       connectCallback := connectCallback x; phase := Destroyed;
                       listener := listener x; written := written x;
                       closeCalls := S (closeCalls x); destroyError := Some m |}).
  { subst xd. unfold destroyed. by rewrite Hp. }
  assert (H2 : step (socket_destroy sid (Some m) s) (TcpError sid e) =
               tcp_on_error xd m
                 (set_sockets (alter (with_destroyError None) sid
                                 (sockets (socket_destroy sid (Some m) s)))
                    (socket_destroy sid (Some m) s))).
  { assert (Hkd : kind xd = NetSocket) by (rewrite Hd; exact Hk).
    assert (Hpd : phase xd = Destroyed) by (by rewrite Hd).
    assert (Hed : destroyError xd = Some m) by (by rewrite Hd).
    unfold step. rewrite Hxd, Hkd. unfold tcp_event. by rewrite Hpd, Hed. }
  rewrite H2. clear H2.
  set (s2 := tcp_on_error xd m _).
  assert (Hx2 : sockets s2 !! sid = Some (with_destroyError None xd)).
  { subst s2. unfold tcp_on_error, sendConnectResponse, socket_destroy. rewrite send_eq.
    simpl. by rewrite !list_lookup_alter_eq, Hx. }
  assert (H3 : step s2 (TcpClose sid) =
               tcp_on_close (with_destroyError None xd) (set_phase sid Ended s2)).
  { unfold step. rewrite Hx2. rewrite Hd. simpl. rewrite Hk. unfold tcp_event. by simpl. }
  rewrite H3. clear H3. subst s2.
  unfold tcp_on_close, tcp_on_error, sendDisconnect, sendConnectResponse, set_phase,
    socket_destroy in *.
  rewrite !send_eq in *. simpl in *.
  split; [|split].
  - rewrite Hd. simpl. by rewrite delete_delete_eq.
  - rewrite Hd. simpl. by rewrite <- app_assoc.
  - rewrite !list_lookup_alter_eq, Hx. simpl. fold xd. rewrite Hd. simpl. by eexists.
Qed.

(** *** HTTP CONNECT *)

(** The reply of an HTTP proxy may arrive in pieces: the handler appends
    each piece to its buffer and looks at the whole.  Two pieces, the first
    of which does not complete the header, leave the provider exactly as
    their concatenation in one piece does.  (The pieces are ASCII, so
    [toString()] gives back their bytes.) *)
Theorem http_proxy_reply_may_arrive_in_pieces
    (s : LocalProvider) (sid : nat) (x : Socket) (buf d1 d2 : string) :
  sockets s !! sid = Some x → kind x = NetSocket → phase x = Live →
  listener x = HttpProxyHandler buf →
  ascii_only d1 = true → ascii_only d2 = true →
  includes (CRLF +:+ CRLF) (buf +:+ d1) = false →
  run s [TcpData sid d1; TcpData sid d2] = step s (TcpData sid (d1 +:+ d2)).
Proof.
  intros Hx Hk Hp Hl _ _ Hpart.
  assert (Hone : ∀ d, step s (TcpData sid d) = httpProxyHandler sid x buf d s).
  { intros d. unfold step. rewrite Hx, Hk. unfold tcp_event. rewrite Hp.
    unfold tcp_on_data. by rewrite Hl. }
  unfold run. cbn [foldl]. rewrite !Hone.
  set (x1 := with_listener (HttpProxyHandler (buf +:+ d1)) x).
  set (s1 := httpProxyHandler sid x buf d1 s).
  assert (Hs1 : s1 = set_listener sid (HttpProxyHandler (buf +:+ d1)) s).
  { subst s1. unfold httpProxyHandler. cbv zeta. by rewrite Hpart. }
  assert (Hx1 : sockets s1 !! sid = Some x1).
  { rewrite Hs1. unfold set_listener. simpl. by rewrite list_lookup_alter_eq, Hx. }
  assert (Htwo : step s1 (TcpData sid d2) = httpProxyHandler sid x1 (buf +:+ d1) d2 s1).
  { unfold step. rewrite Hx1. subst x1. simpl. rewrite Hk. unfold tcp_event. simpl.
    by rewrite Hp. }
  rewrite Htwo, Hs1. unfold httpProxyHandler. cbv zeta.
  rewrite str_app_assoc. subst x1.
  set (rb := (buf +:+ d1 +:+ d2)%string).
  change (sock_channelId (with_listener (HttpProxyHandler (buf +:+ d1)) x))
    with (sock_channelId x).
  assert (Habs : ∀ (f : Socket → Socket) L,
             (∀ y, f (with_listener L y) = f y) →
             alter f sid (alter (with_listener L) sid (sockets s)) = alter f sid (sockets s)).
  { intros f L Hf. rewrite list_alter_alter_eq. apply list_alter_ext; [|done].
    intros y _. apply Hf. }
  destruct (includes (CRLF +:+ CRLF) rb).
  - destruct (includes "200" (before_first CRLF rb)).
    + unfold sendConnectResponse, register_tcp, set_listener. rewrite !send_eq. simpl.
      apply provider_eq; simpl; try done.
      by rewrite (Habs (with_listener (HttpProxyHandler rb))).
    + unfold socket_destroy, set_listener. simpl.
      apply provider_eq; simpl; try done.
      by rewrite (Habs (with_listener (HttpProxyHandler rb))).
  - unfold set_listener. simpl. apply provider_eq; simpl; try done.
    by rewrite (Habs (with_listener (HttpProxyHandler rb))).
Qed.

(** The HTTP CONNECT handshake.  As with SOCKS5 the channel is reported as
    connected when the socket reaches the proxy.  The provider writes the
    [CONNECT] request, with a [Proxy-Authorization] header when
    [upstreamUsername] is set; once the reply holds a blank line and a first
    line that contains [200], the original ['data'] listener is put back and
    the channel is reported a second time.  Nothing of the reply is forwarded
    to the relay, whatever follows the blank line. *)
Theorem http_proxy_handshake
    (s : LocalProvider) (k : nat) (conn : Connection) (c : string)
    (a : option string) (p : option Z) (r : string) :
  ws s = Some k → connections s !! k = Some conn → readyState conn = OPEN →
  truthy (upstreamProxy (options s)) = true →
  upstreamProxyType (options s) = http →
  ascii_only r = true →
  includes (CRLF +:+ CRLF) r = true →
  includes "200" (before_first CRLF r) = true →
  let sid := length (sockets s) in
  let user := upstreamUsername (options s) in
  let pass := upstreamPassword (options s) in
  let target := (show_string a +:+ ":" +:+ show_number p)%string in
  let head :=
    ("CONNECT " +:+ target +:+ " HTTP/1.1" +:+ CRLF +:+ "Host: " +:+ target +:+ CRLF)%string in
  let request :=
    (if truthy user
     then (head +:+ "Proxy-Authorization: Basic " +:+ base64 (user +:+ ":" +:+ pass) +:+ CRLF)
          +:+ CRLF
     else head +:+ CRLF)%string in
  let s' := run s [WsMessage k (Some (ConnectMessage "tcp" c a p)); TcpConnect sid;
                   TcpData sid r] in
  (∃ x', sockets s' = sockets s ++ [x'] ∧ phase x' = Live ∧
         listener x' = OriginalDataHandler ∧ written x' = [(request, None)]) ∧
  tcpChannels s' = <[c := {| tcp_socket := sid; tcp_channelId := c |}]> (tcpChannels s) ∧
  wire s' = wire s ++ [(k, ConnectResponseMessage true c None);
                       (k, ConnectResponseMessage true c None)].
Proof.
  intros Hws Hk Hopen Hproxy Htype _ Hend H200 sid user pass target head request s'.
  assert (Hsend : ∀ m s', ws s' = ws s → connections s' = connections s →
                          send m s' = set_wire (wire s' ++ [(k, m)]) s').
  { intros m s0 Hw' Hc'. apply (send_open m s0 k conn); [by rewrite Hw' | by rewrite Hc' | done]. }
  set (ch := {| tcp_socket := sid; tcp_channelId := c |}).
  set (ok := (k, ConnectResponseMessage true c None)).
  set (x0 := with_connectCallback (HttpProxyHandler "") (new_socket NetSocket c a p)).
  set (sA := step s (WsMessage k (Some (ConnectMessage "tcp" c a p)))).
  assert (HA : sA = set_sockets (sockets s ++ [x0]) s)
    by apply (connect_frame_http s k conn c a p Hk Hopen Hproxy Htype).
  set (registered := set_wire (wire s ++ [ok])
                       (set_tcpChannels (<[c := ch]> (tcpChannels s)) s)).
  set (xB := wrote request None (with_phase Live x0)).
  set (sB := step sA (TcpConnect sid)).
  assert (HB : sB = set_sockets (sockets s ++ [xB]) registered).
  { subst sB. rewrite HA. subst sid.
    unfold step. last_socket. unfold tcp_event. simpl.
    unfold tcp_on_connect, sendConnectResponse, register_tcp, set_phase, socket_write.
    last_socket. rewrite Hsend by done. simpl. rewrite Htype.
    subst xB request head target user pass.
    destruct (truthy (upstreamUsername (options s))); by last_socket. }
  set (xC := with_listener OriginalDataHandler (with_listener (HttpProxyHandler r) xB)).
  assert (HC : s' = set_sockets (sockets s ++ [xC])
                      (set_wire (wire s ++ [ok; ok])
                         (set_tcpChannels (<[c := ch]> (tcpChannels s)) s))).
  { subst s'. unfold run. cbn [foldl]. fold sA. fold sB. rewrite HB.
    subst sid. unfold step. last_socket. unfold tcp_event. simpl.
    unfold tcp_on_data. simpl. unfold httpProxyHandler. cbv zeta.
    change ("" +:+ r)%string with r. rewrite Hend, H200.
    unfold set_listener, sendConnectResponse, register_tcp. last_socket.
    rewrite Hsend by done. simpl. last_socket.
    rewrite insert_insert_eq, <- app_assoc. done. }
  rewrite HC. split; [|done]. by exists xC.
Qed.

(** ** Datagrams *)

(** A [Data] frame for a UDP channel that names a target is sent from the
    socket of the channel to that target; the client address of the frame is
    kept in the channel when the frame has both an address and a port, and
    nothing is sent back.  A datagram the socket then receives goes to the
    relay as a [Data] frame of the channel that carries the address and the
    port of its sender: the client address kept in the channel is not
    read. *)
Theorem udp_datagrams_go_to_their_target_and_back
    (s : LocalProvider) (k : nat) (conn : Connection) (c : string) (ch : UDPChannel)
    (x : Socket) (d : DataFields) (ta : string) (tp : Z)
    (answer from : string) (port : Z) :
  ws s = Some k → connections s !! k = Some conn → readyState conn = OPEN →
  udpChannels s !! c = Some ch → sockets s !! udp_socket ch = Some x →
  kind x = DgramSocket → phase x = Live → sock_channelId x = c →
  data_protocol d = "udp"%string → data_channelId d = c →
  data_targetAddr d = Some ta → truthy ta = true →
  data_targetPort d = Some tp → tp ≠ 0%Z →
  let s1 := step s (WsMessage k (Some (DataMessage d))) in
  let s2 := step s1 (UdpMessage (udp_socket ch) answer from port) in
  (∃ x1, sockets s1 !! udp_socket ch = Some x1 ∧ phase x1 = Live ∧
         written x1 = written x ++ [(data_payload d, Some (ta, tp))]) ∧
  wire s1 = wire s ∧
  (∃ ch1, udpChannels s1 !! c = Some ch1 ∧ udp_socket ch1 = udp_socket ch ∧
          (clientAddr ch1, clientPort ch1) =
          if truthy_opt (data_address d) && truthy_num (data_port d)
          then (data_address d, data_port d) else (clientAddr ch, clientPort ch)) ∧
  wire s2 = wire s ++
    [(k, DataMessage {| data_protocol := "udp"; data_channelId := c;
                        data_payload := answer; data_compression := false;
                        data_address := Some from; data_port := Some port;
                        data_targetAddr := None; data_targetPort := None |})].
Proof.
  intros Hws Hk Hopen Hch Hx Hkind Hp Hid Hproto Hdc Hta Htruthy Htp Hnz s1 s2.
  set (x1 := wrote (data_payload d) (Some (ta, tp)) x).
  assert (Hs1 : s1 = handleData d s).
  { subst s1. simpl. rewrite Hk. unfold connection_event. by rewrite Hopen. }
  assert (Hnz' : (tp =? 0)%Z = false) by (by apply Z.eqb_neq).
  assert (Hfields : sockets s1 !! udp_socket ch = Some x1 ∧ wire s1 = wire s ∧
                    ws s1 = ws s ∧ connections s1 = connections s ∧
                    ∃ ch1, udpChannels s1 !! c = Some ch1 ∧ udp_socket ch1 = udp_socket ch ∧
                      (clientAddr ch1, clientPort ch1) =
                      if truthy_opt (data_address d) && truthy_num (data_port d)
                      then (data_address d, data_port d)
                      else (clientAddr ch, clientPort ch)).
  { rewrite Hs1. unfold handleData. rewrite Hproto, Hdc. simpl.
    rewrite Hch, Hta, Htp, Htruthy, Hnz'. simpl.
    destruct (truthy_opt (data_address d) && truthy_num (data_port d)); simpl.
    - rewrite list_lookup_alter_eq, Hx. repeat split; try done.
      eexists. rewrite lookup_insert_eq. by repeat split.
    - rewrite list_lookup_alter_eq, Hx. repeat split; try done.
      exists ch. by repeat split. }
  destruct Hfields as (Hx1 & Hw1 & Hws1 & Hcn1 & Hch1).
  assert (Hlive : phase x1 = Live ∧
                  written x1 = written x ++ [(data_payload d, Some (ta, tp))] ∧
                  kind x1 = DgramSocket ∧ sock_channelId x1 = c).
  { subst x1. unfold wrote. rewrite Hp. by simpl. }
  destruct Hlive as (Hp1 & Hwr1 & Hk1 & Hid1).
  split; [by exists x1|]. split; [done|]. split; [done|].
  subst s2. unfold step. rewrite Hx1, Hk1. unfold udp_event. rewrite Hp1.
  unfold udp_on_message, sendData. rewrite Hid1.
  rewrite (send_open _ s1 k conn) by (by rewrite ?Hws1, ?Hcn1).
  simpl. by rewrite Hw1.
Qed.


Transparent cleanupChannels replayTokens.

End ProviderFacts.

Lemma send_discards_when_not_open_witness :
  isConnected sample_provider = false ∧
  wire (@addConnectorToken sample_runtime (Some "t1"%string) sample_provider) = [].
Proof.
  split; [reflexivity|].
  destruct (@send_discards_when_not_open sample_runtime sample_provider eq_refl)
    as (_ & _ & _ & _ & Ha & _).
  rewrite Ha. reflexivity.
Defined.

Lemma addConnectorToken_membership_on_confirmation_witness :
  "t1"%string ∈ getConnectorTokens
    (handleConnectorResponse true (Some "t1"%string)
       (@addConnectorToken sample_runtime (Some "t1"%string) sample_ready)) ∧
  wire (@addConnectorToken sample_runtime (Some "t1"%string) sample_ready) =
  [(0%nat, ConnectorMessage "uuid-1" "t1" "add")].
Proof.
  destruct (@addConnectorToken_membership_on_confirmation sample_runtime
              (@addConnectorToken sample_runtime (Some "t1"%string) sample_ready) "t1")
    as (_ & _ & Hm & _).
  split; [apply Hm; reflexivity | reflexivity].
Defined.

(** C5 as stated fails: a token passed to [addConnectorToken] is not in the
    token set while no [ConnectorResponse] has arrived. *)
Lemma addConnectorToken_not_member_before_confirmation :
  "t1"%string ∉ getConnectorTokens
    (@addConnectorToken sample_runtime (Some "t1"%string) sample_ready).
Proof. vm_compute. intros Hin. inversion Hin. Qed.

Lemma reconnect_resets_counter_and_replays_tokens_witness :
  let k := length (connections sample_dropped) in
  let before := @run sample_runtime sample_dropped ([ReconnectTimer; WsOpen k] ++ []) in
  let after :=
    @step sample_runtime before (WsMessage k (Some (AuthResponseMessage true None))) in
  getConnectorTokens sample_dropped = ["t1"; "t2"]%string ∧
  reconnectAttempts after = 0%Z ∧
  (∀ t, t ∈ connectorTokens before →
        occurrences t (addedTokens (drop (length (wire before)) (wire after))) = 1%nat).
Proof.
  assert (H1 : (0 < reconnectTimers sample_dropped)%nat) by (vm_compute; lia).
  assert (H2 : @buildWebSocketUrl sample_runtime (options sample_dropped) =
               Some "wss://relay.example.com/socket?token=sha256:secret&reverse=true"%string)
    by (vm_compute; reflexivity).
  assert (H3 : NoDup (connectorTokens sample_dropped)) by (clear; compute_done).
  assert (H4 : @websocket_error sample_runtime
                 "wss://relay.example.com/socket?token=sha256:secret&reverse=true" = None)
    by (vm_compute; reflexivity).
  pose proof (@reconnect_resets_counter_and_replays_tokens sample_runtime sample_dropped
                _ [] None H1 H2 H4 H3 eq_refl) as HH.
  intros k before after.
  split; [vm_compute; reflexivity|].
  destruct HH as (H0 & _ & _ & _ & _ & _ & Hocc & _).
  split; [exact H0 | exact Hocc].
Defined.

(** C6 as stated fails: two tokens added before the connection dropped are
    not re-sent after the reconnection when no [ConnectorResponse] had
    confirmed them, and after a reconnection by [connect()] the two tokens
    the registry holds are not re-sent either. *)
Lemma added_tokens_are_not_replayed :
  let s := sample_unconfirmed_dropped in
  let s' := @run sample_runtime s [ReconnectTimer; WsOpen 1; WsMessage 1 (Some authOk)] in
  let r := sample_dropped in
  let r' := @run sample_runtime r [CallConnect; WsOpen 1; WsMessage 1 (Some authOk)] in
  addedTokens (wire s) = ["t1"; "t2"]%string ∧
  isConnected s' = true ∧ reconnectAttempts s' = 0%Z ∧ wire s' = wire s ∧
  getConnectorTokens r = ["t1"; "t2"]%string ∧
  isConnected r' = true ∧ reconnectAttempts r' = 0%Z ∧ wire r' = wire r.
Proof. vm_compute. repeat split; reflexivity. Qed.

(** * The claims on concrete runs *)

Lemma connect_authenticates_by_url_witness :
  let s1 := @connect sample_runtime ByCaller (@new_LocalProvider sample_runtime sample_options) in
  let s2 := @step sample_runtime s1 (WsOpen 0) in
  wire s1 = [] ∧ wire s2 = [].
Proof.
  destruct (@connect_authenticates_by_url sample_runtime sample_options
              "wss://relay.example.com/socket?token=sha256:secret&reverse=true")
    as (_ & _ & Hopen & _).
  - vm_compute. reflexivity.
  - destruct Hopen as (_ & _ & H1 & H2 & _); [vm_compute; reflexivity|].
    split; [exact H1 | exact H2].
Defined.

(** The other branch: [ws] refuses the address, [connect()] rejects at once
    and no event opens a socket. *)
Lemma connect_rejects_refused_url :
  let s1 := @connect sample_runtime ByCaller
              (@new_LocalProvider sample_runtime sample_fragment_options) in
  @buildWebSocketUrl sample_runtime sample_fragment_options =
    Some "wss://relay.example.com/tunnel#a?token=sha256:secret&reverse=true"%string ∧
  ws s1 = None ∧
  promise <$> connections s1 = [Rejected "The URL contains a fragment identifier"] ∧
  isConnected (@run sample_runtime s1 [WsOpen 0; WsMessage 0 (Some authOk)]) = false.
Proof. vm_compute. repeat split; reflexivity. Qed.

(** C3 as stated fails: [connect()] resolved, and the provider has sent no
    frame at all, so no [Auth] frame. *)
Lemma connect_sends_no_frame :
  wire sample_ready = [] ∧
  promise <$> connections sample_ready !! 0%nat = Some Resolved.
Proof. vm_compute. split; reflexivity. Qed.

Lemma duplicate_connect_replaces_channel_witness :
  let s1 := @step sample_runtime sample_one_channel
              (WsMessage 0 (Some (ConnectMessage "tcp" "c1" (Some "other.example"%string)
                                    (Some 80%Z)))) in
  let s2 := @step sample_runtime s1 (TcpConnect (length (sockets sample_one_channel))) in
  tcpChannels s2 =
    <["c1"%string := {| tcp_socket := length (sockets sample_one_channel);
                        tcp_channelId := "c1" |}]> (tcpChannels sample_one_channel) ∧
  sockets s2 !! tcp_socket sample_channel =
    sockets sample_one_channel !! tcp_socket sample_channel.
Proof.
  assert (H1 : connections sample_one_channel !! 0%nat = Some sample_connection)
    by (vm_compute; reflexivity).
  assert (H2 : tcpChannels sample_one_channel !! "c1"%string = Some sample_channel)
    by (vm_compute; reflexivity).
  assert (H3 : (tcp_socket sample_channel < length (sockets sample_one_channel))%nat)
    by (vm_compute; lia).
  destruct (@duplicate_connect_replaces_channel sample_runtime sample_one_channel 0
              sample_connection "c1" (Some "other.example"%string) (Some 80%Z) H1 eq_refl)
    as [Htcp _].
  destruct (Htcp sample_channel H2 H3) as (_ & _ & _ & Hreg & _ & Hold).
  split; [exact Hreg | exact Hold].
Defined.

(** C1 as stated fails: after a second [Connect] for ["c1"] the first socket
    is connected, never destroyed and in no registry, the second [Connect]
    was answered with success like the first, and socket 1 is registered. *)
Lemma duplicate_connect_leaks_first_socket :
  let s := sample_run sample_one_channel [connectTcp "c1"; TcpConnect 1] in
  leaked 0 s ∧
  tcpChannels s !! "c1"%string = Some {| tcp_socket := 1; tcp_channelId := "c1" |} ∧
  wire s = [(0%nat, ConnectResponseMessage true "c1" None);
            (0%nat, ConnectResponseMessage true "c1" None)].
Proof.
  intros s. split; [|split; vm_compute; reflexivity].
  exists sample_socket. split; [vm_compute; reflexivity|].
  split; [reflexivity|]. split; [reflexivity|].
  split; compute_done.
Qed.

Lemma relay_disconnect_teardown_witness :
  let s1 := handleDisconnectMessage "c1" sample_one_channel in
  tcpChannels s1 !! "c1"%string = None ∧
  wire (@step sample_runtime s1 (TcpClose (tcp_socket sample_channel))) =
  wire sample_one_channel ++ outgoing (DisconnectMessage "c1") sample_one_channel.
Proof.
  assert (H1 : tcpChannels sample_one_channel !! "c1"%string = Some sample_channel)
    by (vm_compute; reflexivity).
  assert (H2 : sockets sample_one_channel !! tcp_socket sample_channel = Some sample_socket)
    by (vm_compute; reflexivity).
  assert (H3 : ∀ uch, udpChannels sample_one_channel !! "c1"%string = Some uch →
                      udp_socket uch ≠ tcp_socket sample_channel).
  { intros uch Hu. vm_compute in Hu. discriminate Hu. }
  destruct (@relay_disconnect_teardown sample_runtime sample_one_channel "c1")
    as (_ & Hgone & _ & Htcp & _).
  destruct (Htcp sample_channel sample_socket H1 H2 H3) as (_ & Hclose).
  destruct (Hclose eq_refl eq_refl eq_refl eq_refl) as (_ & _ & Hwire).
  split; [exact Hgone | exact Hwire].
Defined.

(** C4 as stated fails: the relay sends [Disconnect] for channel ["c1"]; the
    provider destroys socket 0, and the ['close'] event of that socket makes
    it send [Disconnect] for ["c1"] back to the relay. *)
Lemma relay_disconnect_is_echoed :
  let s1 := sample_run sample_one_channel [WsMessage 0 (Some (DisconnectMessage "c1"))] in
  let s2 := sample_run s1 [TcpClose 0] in
  phase <$> sockets s1 !! 0%nat = Some Destroyed ∧
  closeCalls <$> sockets s1 !! 0%nat = Some 1%nat ∧
  wire s1 = wire sample_one_channel ∧
  wire s2 = wire s1 ++ [(0%nat, DisconnectMessage "c1")].
Proof. vm_compute. repeat split; reflexivity. Qed.

Lemma reconnect_attempts_are_bounded_witness :
  reconnectAttempts sample_exhausted = 3%Z ∧
  isConnected
    (@run sample_runtime sample_exhausted
       [WsOpen 3; ReconnectTimer; ConnectTimeout 3; CallAddConnectorToken None;
        CallClose; ReconnectTimer]) = false.
Proof.
  split; [vm_compute; reflexivity|].
  unfold sample_exhausted, sample_run, sample_provider.
  set (es0 := [CallConnect; WsError 0 "connect ECONNREFUSED"; WsClose 0;
               ReconnectTimer; WsError 1 "connect ECONNREFUSED"; WsClose 1;
               ReconnectTimer; WsError 2 "connect ECONNREFUSED"; WsClose 2;
               ReconnectTimer; WsError 3 "connect ECONNREFUSED"; WsClose 3]).
  set (es := [WsOpen 3; ReconnectTimer; ConnectTimeout 3; CallAddConnectorToken None;
              CallClose; ReconnectTimer]).
  set (s := @run sample_runtime (@new_LocalProvider sample_runtime sample_options) es0).
  assert (H1 : exhausted s) by (vm_compute; split; [reflexivity | discriminate]).
  assert (H2 : idle s).
  { split; [vm_compute; reflexivity|].
    vm_compute. repeat constructor; intros [?|?]; discriminate. }
  assert (H3 : CallConnect ∉ es).
  { clear. intros Hin.
    repeat (apply elem_of_cons in Hin as [Hin|Hin]; [discriminate Hin|]).
    by apply elem_of_nil in Hin. }
  pose proof (@reconnect_attempts_are_bounded sample_runtime sample_options es0 es H3) as HH.
  cbv zeta in HH. fold s in HH. destruct HH as (_ & _ & Hterm & _).
  destruct (Hterm H1 H2) as (_ & _ & _ & Hc). exact Hc.
Defined.

(** C7 as stated fails: the counter has reached the maximum and the provider
    starts another attempt, which connects it, with no call of
    [connect()]. *)
Lemma reconnect_at_maximum_still_connects :
  let s := sample_last_attempt_pending in
  let s' := @run sample_runtime s [ReconnectTimer; WsOpen 3; WsMessage 3 (Some authOk)] in
  reconnectAttempts s = 3%Z ∧ maxReconnectAttempts (options s) = 3%Z ∧
  isConnected s = false ∧
  length (connections s') = S (length (connections s)) ∧
  isConnected s' = true.
Proof. vm_compute. repeat split; reflexivity. Qed.

Lemma relay_url_derivation_witness :
  let base := strip_trailing_slash (normalizeWsUrl sample_tunnel_url) in
  let query :=
    ("token=" +:+ @sha256Sync sample_runtime (token sample_tunnel_options) +:+
     "&reverse=true")%string in
  @buildWebSocketUrl sample_runtime sample_tunnel_options = Some (base +:+ "?" +:+ query)%string ∧
  normalizeWsUrl sample_tunnel_url = "wss://relay.example.com/linksocks/abc/"%string.
Proof.
  destruct (@relay_url_derivation sample_runtime sample_tunnel_options sample_tunnel_url
              "/linksocks/abc" eq_refl)
    as (Htunnel & _ & _ & Hhttps & _).
  - vm_compute. reflexivity.
  - split.
    + apply Htunnel; [vm_compute; lia | vm_compute; reflexivity].
    + apply (Hhttps "relay.example.com/linksocks/abc/"%string). reflexivity.
Defined.

(** C9 as stated fails: the path of the configured address is not trivial,
    and the derived URL does not keep it: its trailing slash is gone. *)
Lemma relay_url_drops_trailing_slash :
  @buildWebSocketUrl sample_runtime sample_tunnel_options =
    Some "wss://relay.example.com/linksocks/abc?token=sha256:secret&reverse=true"%string ∧
  sample_pathname (normalizeWsUrl sample_tunnel_url) = Some "/linksocks/abc/"%string ∧
  sample_pathname "wss://relay.example.com/linksocks/abc?token=sha256:secret&reverse=true" =
    Some "/linksocks/abc"%string.
Proof. vm_compute. repeat split; reflexivity. Qed.

(** C2, the code at the failing input.  The relay socket opens and then
    closes without error before any [AuthResponse]: the ['close'] listener
    clears the connect timer and starts the reconnect cycle, and the promise
    of [connect()] is left pending; whatever happens afterwards, it is never
    settled. *)
Theorem connect_never_settles_after_close_before_auth :
  let s := @run sample_runtime sample_provider [CallConnect; WsOpen 0; WsClose 0] in
  promise <$> connections s !! 0%nat = Some Pending ∧
  timeout <$> connections s !! 0%nat = Some Cleared ∧
  readyState <$> connections s !! 0%nat = Some CLOSED ∧
  ∀ es, promise <$> connections (@run sample_runtime s es) !! 0%nat = Some Pending.
Proof.
  intros s.
  assert (Hc : connections s !! 0%nat =
               Some {| url := Some "wss://relay.example.com/socket?token=sha256:secret&reverse=true"%string;
                       readyState := CLOSED; promise := Pending;
                       awaiter := ByCaller; timeout := Cleared |})
    by (vm_compute; reflexivity).
  rewrite Hc. repeat split.
  intros es.
  by rewrite (@closed_connection_frozen_run sample_runtime es s 0 _ Hc eq_refl).
Qed.

(** C8, the code at the failing input.  The relay connection dropped and a
    reconnect timer is pending when [close()] is called.  The timer still
    fires and calls [connect()]: a second relay socket is constructed, it
    opens and authenticates, and the provider that was closed is connected
    again and has replayed its tokens. *)
Theorem pending_reconnect_survives_close :
  let closed := sample_run sample_dropped [CallClose] in
  let s := sample_run closed [ReconnectTimer; WsOpen 1; WsMessage 1 (Some authOk)] in
  reconnectTimers sample_dropped = 1%nat ∧
  isClosing closed = true ∧ isConnected closed = false ∧
  length (connections closed) = 1%nat ∧
  isClosing s = true ∧ isConnected s = true ∧
  length (connections s) = 2%nat ∧
  addedTokens (drop (length (wire closed)) (wire s)) = ["t1"; "t2"]%string.
Proof. vm_compute. repeat split; reflexivity. Qed.

(** * Properties of the solver client *)

Section SolverFacts.
Context {runtime : Runtime} {platform : Solver.Platform}.

(** ** Addresses *)

(** Whatever address [normalizeWsUrl] is given, what it returns starts with
    neither [http://] nor [https://], and a second pass changes nothing.
    The test is case sensitive: [HTTP://] stays. *)
Theorem normalizeWsUrl_leaves_no_http_scheme (u : string) :
  String.prefix "http://" (normalizeWsUrl u) = false ∧
  String.prefix "https://" (normalizeWsUrl u) = false ∧
  normalizeWsUrl (normalizeWsUrl u) = normalizeWsUrl u ∧
  normalizeWsUrl ("HTTP://" +:+ u) = ("HTTP://" +:+ u)%string.
Proof.
  assert (Hfix : ∀ v, String.prefix "http://" v = false → String.prefix "https://" v = false →
                      normalizeWsUrl v = v).
  { intros v H1 H2. unfold normalizeWsUrl. by rewrite H1, H2. }
  assert (Hout : String.prefix "http://" (normalizeWsUrl u) = false ∧
                 String.prefix "https://" (normalizeWsUrl u) = false).
  { unfold normalizeWsUrl.
    destruct (String.prefix "https://" u) eqn:E1; [split; reflexivity|].
    destruct (String.prefix "http://" u) eqn:E2; [split; reflexivity|done]. }
  destruct Hout as [H1 H2].
  repeat split; try done.
  by apply Hfix.
Qed.

(** ** Proxies *)

Lemma parseInt_empty : Solver.parseInt "" = None.
Proof. done. Qed.

(** A proxy given as an address without a port (or with the default port of
    its scheme, which the URL parser drops).  For the HTTP client
    [parseProxy] fills in port 443 or 80.  For the tunnel
    [parseUpstreamProxy] yields no host, so the provider [connectLinkSocks]
    creates has an empty [upstreamProxy]: every TCP channel it opens
    connects directly, with no proxy handshake. *)
Theorem proxy_address_without_port_is_not_used_by_the_tunnel
    (s : Solver.CloudflareSolver) (cfg : Solver.LinkSocksConfig)
    (address : string) (u : Solver.URL) :
  Solver.proxy s = Some (Solver.ProxyUrl address) →
  Solver.new_URL address = Some u → Solver.port u = ""%string →
  let o := Solver.connectLinkSocks_options s cfg in
  (∀ c, Solver.parseProxy (Solver.ProxyUrl address) = Some c →
        Solver.proxy_host c = Solver.hostname u ∧
        Solver.proxy_port c =
          (if String.eqb (Solver.protocol u) "https:" then 443 else 80)%Z) ∧
  upstreamProxy (withDefaults o) = ""%string ∧
  (∀ es c a p,
     handleTCPConnect c a p (run (LocalProvider_constructor o) es) =
     set_sockets (sockets (run (LocalProvider_constructor o) es) ++
                  [new_socket NetSocket c a p])
       (run (LocalProvider_constructor o) es)).
Proof.
  intros Hproxy Hurl Hport o.
  assert (Hup : upstreamProxy (withDefaults o) = ""%string).
  { subst o. unfold Solver.connectLinkSocks_options, withDefaults. simpl.
    rewrite Hproxy. unfold Solver.parseUpstreamProxy.
    destruct (truthy address); simpl; [|done].
    rewrite Hurl.
    destruct (Solver.decoded (Solver.username u)); [|done].
    destruct (Solver.decoded (Solver.password u)); [|done].
    simpl. rewrite Hport. by rewrite andb_false_r. }
  split; [|split; [exact Hup|]].
  - intros c. unfold Solver.parseProxy. rewrite Hurl, Hport. simpl.
    destruct (truthy (Solver.username u)).
    + destruct (Solver.decodeURIComponent (Solver.username u)); [|done].
      destruct (Solver.decodeURIComponent (Solver.password u)); [|done].
      by intros [= <-].
    + by intros [= <-].
  - intros es c a p. unfold handleTCPConnect. simpl.
    rewrite run_options. unfold LocalProvider_constructor. simpl options.
    by rewrite Hup.
Qed.

(** The provider [connectLinkSocks] creates is given
    [maxReconnectAttempts = 3]: whatever happens to it, its reconnect counter
    never exceeds 3, and once the counter is 3 a lost connection arms no
    further timer. *)
Theorem solver_provider_reconnects_at_most_three_times
    (s : Solver.CloudflareSolver) (cfg : Solver.LinkSocksConfig) (es : list Event) :
  let p := run (LocalProvider_constructor (Solver.connectLinkSocks_options s cfg)) es in
  (0 ≤ reconnectAttempts p ≤ 3)%Z ∧
  (reconnectAttempts p = 3%Z → attemptReconnect p = p).
Proof.
  intros p.
  assert (Ho : maxReconnectAttempts (options p) = 3%Z).
  { subst p. by rewrite run_options. }
  assert (Hb : attemptsBounded p).
  { subst p. apply attemptsBounded_run. split; simpl; lia. }
  destruct Hb as [H0 Hmax]. rewrite Ho in Hmax.
  split; [lia|]. intros H3. apply attemptReconnect_exhausted.
  unfold exhausted. rewrite Ho, H3. lia.
Qed.

(** ** Waiting for a task *)

Lemma waitForResult_skip (seconds : Z) (pre rest : list Solver.Turn) :
  Forall (λ t, Solver.inconclusive seconds t = true) pre →
  Solver.waitForResult seconds (pre ++ rest) = Solver.waitForResult seconds rest.
Proof.
  induction 1 as [|t pre Ht _ IH]; [done|]. simpl.
  unfold Solver.inconclusive in Ht. apply andb_true_iff in Ht as [Hnow Hrep].
  rewrite Hnow. simpl.
  destruct (Solver.reply t) as [|code body]; [exact IH|].
  destruct (code =? 200)%Z; simpl in *; [|exact IH].
  destruct body as [result|]; [|exact IH].
  apply orb_true_iff in Hrep as [-> | Hrep]; [exact IH|].
  rewrite Hrep. repeat case_match; exact IH.
Qed.

(** The outcome of [waitForResult] is that of the first turn which decides
    something.  Turns whose request fails, is answered with a code other than
    200 or an empty body, or reports [processing] or [timeout], are passed
    over while the time limit holds.  The first other answer is returned
    when its [success] is [true] or, [success] not being a boolean, its
    status is [completed] or [ready] and it has no [error]; otherwise the
    call throws [Task failed].  A turn that starts at or after the limit
    ends the call with [Task timed out]. *)
Theorem waitForResult_first_decisive_turn
    (seconds : Z) (pre post : list Solver.Turn) (t : Solver.Turn) (r : Solver.TaskResult) :
  Forall (λ t, Solver.inconclusive seconds t = true) pre →
  Solver.waitForResult seconds pre = Solver.StillWaiting ∧
  ((seconds * 1000 ≤ Solver.now t)%Z →
   Solver.waitForResult seconds (pre ++ t :: post) = Solver.TimedOut) ∧
  ((Solver.now t < seconds * 1000)%Z →
   Solver.reply t = Solver.Answered 200 (Some r) →
   Solver.tr_status r ≠ Some "processing"%string →
   Solver.tr_status r ≠ Some "timeout"%string →
   Solver.waitForResult seconds (pre ++ t :: post) =
   if Solver.succeeded r then Solver.Returned r
   else Solver.TaskFailed ("Task failed: " +:+ Solver.failureText r)).
Proof.
  intros Hpre. split; [|split].
  - rewrite <- (app_nil_r pre). by rewrite waitForResult_skip.
  - intros Hlate. rewrite waitForResult_skip by done. simpl.
    by rewrite (proj2 (Z.ltb_ge _ _) Hlate).
  - intros Hnow Hrep Hproc Htime. rewrite waitForResult_skip by done. simpl.
    rewrite (proj2 (Z.ltb_lt _ _) Hnow), Hrep. simpl.
    rewrite !bool_decide_false by done. by destruct (Solver.succeeded r).
Qed.

(** ** Requests *)

(** One call of [request] makes at most two HTTP requests and starts at most
    one challenge solve.  With [solve] off it makes one request at most,
    solves nothing and changes nothing.  With [onChallenge] off it solves
    first, goes on when the solve fails, and returns what the single
    request gives, challenge or not.  A second request is made only when the
    first response is detected as a challenge and the solve succeeds, and
    then the call returns what the second request gives. *)
Theorem request_solves_once_and_retries_once
    (net : Solver.Network) (config : Solver.AxiosRequestConfig) (s : Solver.CloudflareSolver) :
  let result := Solver.request net config s in
  let actions := result.1.2 in
  (length (Solver.requests actions) ≤ 2)%nat ∧
  (length (Solver.solves actions) ≤ 1)%nat ∧
  (Solver.solve s = false →
   result.1.1 = s ∧ Solver.solves actions = [] ∧ (length (Solver.requests actions) ≤ 1)%nat) ∧
  (Solver.solve s = true → Solver.onChallenge s = false →
   ∃ s', result.1.1 = s' ∧
         (s' = s ∨ Solver.solveChallenge net (Solver.url config) s = Some s') ∧
         ((actions = [Solver.Solve (Solver.url config)] ∧ result.2 = None) ∨
          ∃ c, Solver.buildRequestConfig s' (Solver.url config) config = Some c ∧
               actions = [Solver.Solve (Solver.url config); Solver.Request c] ∧
               result.2 = Solver.respond net 0 c)) ∧
  (∀ c c', Solver.requests actions = [c; c'] →
     ∃ first s',
       Solver.respond net 0 c = Some first ∧ Solver.detectChallenge first = true ∧
       Solver.solveChallenge net (Solver.url config) s = Some s' ∧
       Solver.buildRequestConfig s' (Solver.url config) config = Some c' ∧
       result.1.1 = s' ∧ result.2 = Solver.respond net 1 c').
Proof.
  intros result actions. subst actions result. unfold Solver.request.
  destruct (Solver.solve s) eqn:Hsolve; simpl.
  2: { destruct (Solver.buildRequestConfig s (Solver.url config) config); simpl.
       all: split; [lia|]; split; [lia|]; split; [by intros _; repeat split; try lia|].
       all: split; [by intros ?|]; by intros c1 c2 [=]. }
  destruct (Solver.onChallenge s) eqn:Hon; simpl.
  - destruct (Solver.buildRequestConfig s (Solver.url config) config) as [c|] eqn:Hc; simpl.
    2: { split; [lia|]; split; [lia|]; split; [by intros ?|].
         split; [by intros _ ?|]; by intros c1 c2 [=]. }
    destruct (Solver.respond net 0 c) as [first|] eqn:Hfirst; simpl.
    2: { split; [lia|]; split; [lia|]; split; [by intros ?|].
         split; [by intros _ ?|]; by intros c1 c2 [=]. }
    rewrite Hon. simpl.
    destruct (Solver.detectChallenge first) eqn:Hdet; simpl.
    2: { split; [lia|]; split; [lia|]; split; [by intros ?|].
         split; [by intros _ ?|]; by intros c1 c2 [=]. }
    destruct (Solver.solveChallenge net (Solver.url config) s) as [s'|] eqn:Hs'; simpl.
    2: { split; [lia|]; split; [lia|]; split; [by intros ?|].
         split; [by intros _ ?|]; by intros c1 c2 [=]. }
    destruct (Solver.buildRequestConfig s' (Solver.url config) config) as [c'|] eqn:Hc'; simpl.
    2: { split; [lia|]; split; [lia|]; split; [by intros ?|].
         split; [by intros _ ?|]; by intros c1 c2 [=]. }
    split; [lia|]; split; [lia|]; split; [by intros ?|].
    split; [by intros _ ?|].
    intros c1 c2 [= <- <-]. by exists first, s'.
  - destruct (Solver.solveChallenge net (Solver.url config) s) as [s'|] eqn:Hs'; simpl.
    + assert (Hon' : Solver.onChallenge s' = false).
      { unfold Solver.solveChallenge in Hs'.
        destruct (Solver.solved net (Solver.url config)); [|done].
        unfold Solver.storeSolution in Hs'.
        destruct (Solver.new_URL _); [|done]. by injection Hs' as <-. }
      destruct (Solver.buildRequestConfig s' (Solver.url config) config) as [c|] eqn:Hc; simpl.
      2: { split; [lia|]; split; [lia|]; split; [by intros ?|].
           split; [|by intros c1 c2 [=]].
           intros _ _. exists s'. split; [done|]. split; [by right|]. by left. }
      destruct (Solver.respond net 0 c) as [first|] eqn:Hfirst; simpl.
      * rewrite Hon'. simpl.
        split; [lia|]; split; [lia|]; split; [by intros ?|].
        split; [|by intros c1 c2 [=]].
        intros _ _. exists s'. split; [done|]. split; [by right|]. right. by exists c.
      * split; [lia|]; split; [lia|]; split; [by intros ?|].
        split; [|by intros c1 c2 [=]].
        intros _ _. exists s'. split; [done|]. split; [by right|]. right. by exists c.
    + destruct (Solver.buildRequestConfig s (Solver.url config) config) as [c|] eqn:Hc; simpl.
      2: { split; [lia|]; split; [lia|]; split; [by intros ?|].
           split; [|by intros c1 c2 [=]].
           intros _ _. exists s. split; [done|]. split; [by left|]. by left. }
      destruct (Solver.respond net 0 c) as [first|] eqn:Hfirst; simpl.
      * rewrite Hon. simpl.
        split; [lia|]; split; [lia|]; split; [by intros ?|].
        split; [|by intros c1 c2 [=]].
        intros _ _. exists s. split; [done|]. split; [by left|]. right. by exists c.
      * split; [lia|]; split; [lia|]; split; [by intros ?|].
        split; [|by intros c1 c2 [=]].
        intros _ _. exists s. split; [done|]. split; [by left|]. right. by exists c.
Qed.

(** ** Cookies *)

Lemma Map_get_set_eq {V : Type} (k : string) (v : V) (m : list (string * V)) :
  Solver.Map_get k (Solver.Map_set k v m) = Some v.
Proof.
  induction m as [|[k' v'] m IH]; simpl.
  - by rewrite bool_decide_true.
  - case_bool_decide as Hk; simpl.
    + by rewrite bool_decide_true.
    + by rewrite bool_decide_false.
Qed.

Lemma Map_get_set_ne {V : Type} (k k' : string) (v : V) (m : list (string * V)) :
  k' ≠ k → Solver.Map_get k' (Solver.Map_set k v m) = Solver.Map_get k' m.
Proof.
  intros Hne. induction m as [|[k0 v0] m IH]; simpl.
  - by rewrite bool_decide_false.
  - case_bool_decide as Hk; simpl.
    + subst k0. by rewrite !bool_decide_false.
    + case_bool_decide; [done | exact IH].
Qed.

Lemma Map_set_not_nil {V : Type} (k : string) (v : V) (m : list (string * V)) :
  Solver.Map_set k v m ≠ [].
Proof. destruct m as [|[k' v'] m]; simpl; [done|]. by case_bool_decide. Qed.

Lemma Map_fold_other (found : list (string * string)) : ∀ (m : list (string * string)) k,
  k ∉ found.*1 →
  Solver.Map_get k (foldl (λ m kv, Solver.Map_set kv.1 kv.2 m) m found) = Solver.Map_get k m.
Proof.
  induction found as [|[k1 v1] found IH]; intros m k Hk; simpl; [done|].
  simpl in Hk. apply not_elem_of_cons in Hk as [Hne Hk].
  rewrite IH by done. by apply Map_get_set_ne.
Qed.

Lemma Map_fold_found (found : list (string * string)) : ∀ (m : list (string * string)) k v,
  NoDup found.*1 → (k, v) ∈ found →
  Solver.Map_get k (foldl (λ m kv, Solver.Map_set kv.1 kv.2 m) m found) = Some v.
Proof.
  induction found as [|[k1 v1] found IH]; intros m k v Hnd Hin; simpl.
  - by apply elem_of_nil in Hin.
  - simpl in Hnd. apply NoDup_cons in Hnd as [Hk1 Hnd].
    apply elem_of_cons in Hin as [[= -> ->]|Hin].
    + rewrite Map_fold_other by done. apply Map_get_set_eq.
    + by apply IH.
Qed.

Lemma Map_fold_not_nil (found : list (string * string)) : ∀ m : list (string * string),
  m ≠ [] ∨ found ≠ [] →
  foldl (λ m kv, Solver.Map_set kv.1 kv.2 m) m found ≠ [].
Proof.
  induction found as [|[k1 v1] found IH]; intros m Hne; simpl.
  - by destruct Hne.
  - apply IH. left. apply Map_set_not_nil.
Qed.

(** The cookies of a solved challenge.  [solveCloudflare] stores them under
    the host name of the address it was given, each name with its value, and
    leaves the cookies of every other host as they were; a later request
    to that host carries all cookies of the host in one [Cookie] header,
    which replaces the [Cookie] header of the caller.  A request to another
    host name, a subdomain included, gets none of them; the user agent
    of the solution goes out with every request, whatever its host. *)
Theorem solved_cookies_are_sent_to_their_host_only
    (s s' : Solver.CloudflareSolver) (url : option string) (u : Solver.URL)
    (result : Solver.TaskResult) (found : list (string * string)) :
  Solver.new_URL (default "undefined"%string url) = Some u →
  Solver.sol_cookies (Solver.solutionOf result) = Some found →
  NoDup found.*1 →
  Solver.storeSolution url result s = Some s' →
  let before := default [] (Solver.Map_get (Solver.hostname u) (Solver.cookies s)) in
  (∃ jar,
     Solver.Map_get (Solver.hostname u) (Solver.cookies s') = Some jar ∧
     (∀ k v, (k, v) ∈ found → Solver.Map_get k jar = Some v) ∧
     (∀ k, k ∉ found.*1 → Solver.Map_get k jar = Solver.Map_get k before) ∧
     (∀ config, jar ≠ [] →
        ∃ c, Solver.buildRequestConfig s' url config = Some c ∧
             Solver.headers c !! "Cookie"%string =
             Some (Solver.join "; " ((λ kv, (kv.1 +:+ "=" +:+ kv.2)%string) <$> jar)))) ∧
  (∀ host, host ≠ Solver.hostname u →
     Solver.Map_get host (Solver.cookies s') = Solver.Map_get host (Solver.cookies s)) ∧
  (∀ url' u' config,
     Solver.new_URL (default "undefined"%string url') = Some u' →
     Solver.hostname u' ≠ Solver.hostname u →
     ∃ c c', Solver.buildRequestConfig s url' config = Some c ∧
             Solver.buildRequestConfig s' url' config = Some c' ∧
             Solver.headers c' !! "Cookie"%string = Solver.headers c !! "Cookie"%string) ∧
  (∀ agent url' u' config,
     Solver.sol_userAgent (Solver.solutionOf result) = Some agent → truthy agent = true →
     Solver.new_URL (default "undefined"%string url') = Some u' →
     ∃ c', Solver.buildRequestConfig s' url' config = Some c' ∧
           Solver.headers c' !! "User-Agent"%string = Some agent).
Proof.
  intros Hu Hfound Hnd Hstore before.
  unfold Solver.storeSolution in Hstore. rewrite Hu, Hfound in Hstore. simpl in Hstore.
  fold before in Hstore.
  set (jar := foldl (λ m kv, Solver.Map_set kv.1 kv.2 m) before found) in Hstore.
  set (agent0 := or_else _ _) in Hstore.
  injection Hstore as <-.
  assert (Hcookie : ∀ (h : gmap string string) (a : option string),
            (if truthy_opt a then <["User-Agent"%string := default ""%string a]> h else h)
              !! "Cookie"%string = h !! "Cookie"%string).
  { intros h a. destruct (truthy_opt a); [|done]. by rewrite lookup_insert_ne. }
  split; [|split; [|split]].
  - exists jar. split; [simpl; apply Map_get_set_eq|].
    split; [intros k v Hin; by apply Map_fold_found|].
    split; [intros k Hk; by apply Map_fold_other|].
    intros config Hjar. unfold Solver.buildRequestConfig. rewrite Hu. simpl.
    rewrite Map_get_set_eq. destruct jar as [|entry entries] eqn:Ejar; [done|].
    eexists. split; [reflexivity|]. simpl. rewrite Hcookie. by rewrite lookup_insert_eq.
  - intros host Hne. simpl. by apply Map_get_set_ne.
  - intros url' u' config Hu' Hne. unfold Solver.buildRequestConfig. rewrite Hu'. simpl.
    rewrite (Map_get_set_ne (Solver.hostname u)) by done.
    eexists _, _. split; [reflexivity|]. split; [reflexivity|]. simpl.
    rewrite !Hcookie. done.
  - intros agent url' u' config Hagent Htruthy Hu'.
    unfold Solver.buildRequestConfig. rewrite Hu'. simpl.
    assert (Ha0 : agent0 = agent).
    { subst agent0. rewrite Hagent. unfold or_else at 1. by rewrite Htruthy. }
    rewrite Ha0, Htruthy. simpl. rewrite Htruthy.
    eexists. split; [reflexivity|]. simpl. by rewrite lookup_insert_eq.
Qed.

End SolverFacts.

(** * The further properties on concrete runs *)

Lemma relay_socket_is_unique_witness :
  ws (@run sample_runtime (@new_LocalProvider sample_runtime sample_options)
        [CallConnect; WsOpen 0; WsMessage 0 (Some authOk)]) = Some 0%nat.
Proof.
  apply (@relay_socket_is_unique sample_runtime sample_options
           [CallConnect; WsOpen 0; WsMessage 0 (Some authOk)] 0 sample_connection).
  - vm_compute. reflexivity.
  - right. reflexivity.
Defined.

Lemma close_event_of_replaced_socket_drops_the_current_one_witness :
  isConnected sample_reconnected_by_hand = true ∧
  isConnected
    (@step sample_runtime (@step sample_runtime sample_reconnected_by_hand (WsClose 0))
       ReconnectTimer) = false.
Proof.
  assert (H1 : connections sample_reconnected_by_hand !! 0%nat = Some sample_replaced_connection)
    by (vm_compute; reflexivity).
  assert (H2 : ws sample_reconnected_by_hand = Some 1%nat) by (vm_compute; reflexivity).
  assert (H3 : connections sample_reconnected_by_hand !! 1%nat = Some sample_connection)
    by (vm_compute; reflexivity).
  assert (H4 : isClosing sample_reconnected_by_hand = false) by (vm_compute; reflexivity).
  assert (H5 : ¬ exhausted sample_reconnected_by_hand).
  { unfold exhausted. vm_compute. intros [_ Hle]. by apply Hle. }
  assert (H6 : 1%nat ≠ 0%nat) by discriminate.
  pose proof (@close_event_of_replaced_socket_drops_the_current_one sample_runtime
                sample_reconnected_by_hand 0 1 sample_replaced_connection sample_connection
                H1 eq_refl H6 H2 H3 eq_refl H4 H5) as HH.
  cbv zeta in HH. destruct HH as (Hc & _ & _ & _ & _ & _ & _ & Hd).
  split; [exact Hc | exact Hd].
Defined.

Lemma explicit_connect_replays_no_tokens_witness :
  getConnectorTokens sample_dropped = ["t1"; "t2"]%string ∧
  wire (@run sample_runtime sample_dropped
          [CallConnect; WsOpen (length (connections sample_dropped));
           WsMessage (length (connections sample_dropped))
             (Some (AuthResponseMessage true None))]) = wire sample_dropped.
Proof.
  assert (H1 : @buildWebSocketUrl sample_runtime (options sample_dropped) =
               Some "wss://relay.example.com/socket?token=sha256:secret&reverse=true"%string)
    by (vm_compute; reflexivity).
  assert (H2 : @websocket_error sample_runtime
                 "wss://relay.example.com/socket?token=sha256:secret&reverse=true" = None)
    by (vm_compute; reflexivity).
  pose proof (@explicit_connect_replays_no_tokens sample_runtime sample_dropped _ None H1 H2)
    as HH.
  cbv zeta in HH. destruct HH as (_ & _ & _ & Hw).
  split; [vm_compute; reflexivity | exact Hw].
Defined.

Lemma tcp_payloads_are_written_in_order_witness :
  ∃ x', sockets (@run sample_runtime sample_one_channel
                   ((λ d, WsMessage 0 (Some (DataMessage d))) <$>
                    [sample_tcp_data "GET "; sample_tcp_data "/ HTTP/1.1"]))
          !! tcp_socket sample_channel = Some x' ∧
        phase x' = Live ∧
        written x' = written sample_socket ++
          ((λ d, (data_payload d, None)) <$>
           [sample_tcp_data "GET "; sample_tcp_data "/ HTTP/1.1"]).
Proof.
  assert (H1 : connections sample_one_channel !! 0%nat = Some sample_connection)
    by (vm_compute; reflexivity).
  assert (H2 : tcpChannels sample_one_channel !! "c1"%string = Some sample_channel)
    by (vm_compute; reflexivity).
  assert (H3 : sockets sample_one_channel !! tcp_socket sample_channel = Some sample_socket)
    by (vm_compute; reflexivity).
  assert (H4 : Forall (λ d, data_protocol d = "tcp"%string ∧ data_channelId d = "c1"%string)
                 [sample_tcp_data "GET "; sample_tcp_data "/ HTTP/1.1"])
    by (repeat constructor).
  pose proof (@tcp_payloads_are_written_in_order sample_runtime
                [sample_tcp_data "GET "; sample_tcp_data "/ HTTP/1.1"]
                sample_one_channel 0 sample_connection "c1" sample_channel sample_socket
                H1 eq_refl H2 H3 eq_refl H4) as HH.
  cbv zeta in HH. destruct HH as (Hx & _). exact Hx.
Defined.

Lemma tcp_error_is_reported_then_disconnected_witness :
  wire (@run sample_runtime sample_one_channel [TcpError 0 "ECONNRESET"; TcpClose 0]) =
  wire sample_one_channel ++
    outgoing (ConnectResponseMessage false (sock_channelId sample_socket)
                (Some "ECONNRESET"%string)) sample_one_channel ++
    outgoing (DisconnectMessage (sock_channelId sample_socket)) sample_one_channel.
Proof.
  assert (H1 : sockets sample_one_channel !! 0%nat = Some sample_socket)
    by (vm_compute; reflexivity).
  pose proof (@tcp_error_is_reported_then_disconnected sample_runtime sample_one_channel 0
                sample_socket "ECONNRESET" H1 eq_refl eq_refl eq_refl) as HH.
  cbv zeta in HH. destruct HH as (_ & Hw & _). exact Hw.
Defined.

Lemma close_leaves_connecting_sockets_witness :
  sockets (@close sample_connecting) !! 1%nat = Some sample_connecting_socket ∧
  isClosing (@step sample_runtime (close sample_connecting) (TcpConnect 1)) = true ∧
  tcpChannels (@step sample_runtime (close sample_connecting) (TcpConnect 1)) =
    {[ sock_channelId sample_connecting_socket :=
         {| tcp_socket := 1; tcp_channelId := sock_channelId sample_connecting_socket |} ]}.
Proof.
  assert (H1 : sockets sample_connecting !! 1%nat = Some sample_connecting_socket)
    by (vm_compute; reflexivity).
  assert (H2 : unregistered 1 sample_connecting) by (split; compute_done).
  pose proof (@close_leaves_connecting_sockets sample_runtime sample_connecting 1
                sample_connecting_socket H1 eq_refl eq_refl H2) as HH.
  cbv zeta in HH. destruct HH as (Ha & Hb & Hc & _).
  split; [exact Ha | split; [exact Hb | exact Hc]].
Defined.

Lemma socks5_handshake_without_credentials_witness :
  wire (@run sample_runtime
          (@run sample_runtime (sample_ready_with sample_socks_options)
             [WsMessage 0 (Some (ConnectMessage "tcp" "c1" (Some "target.example"%string)
                                   (Some 443%Z)));
              TcpConnect (length (sockets (sample_ready_with sample_socks_options)))])
          [TcpData (length (sockets (sample_ready_with sample_socks_options))) (bytes [5; 0]%Z);
           TcpData (length (sockets (sample_ready_with sample_socks_options)))
             (bytes [5; 0; 0; 1; 0; 0; 0; 0; 0; 0]%Z)]) =
  wire (sample_ready_with sample_socks_options) ++
    [(0%nat, ConnectResponseMessage true "c1" None);
     (0%nat, ConnectResponseMessage true "c1" None)].
Proof.
  assert (H1 : ws (sample_ready_with sample_socks_options) = Some 0%nat)
    by (vm_compute; reflexivity).
  assert (H2 : connections (sample_ready_with sample_socks_options) !! 0%nat =
               Some sample_connection) by (vm_compute; reflexivity).
  pose proof (@socks5_handshake_without_credentials sample_runtime
                (sample_ready_with sample_socks_options) 0 sample_connection "c1"
                (Some "target.example"%string) (Some 443%Z)
                (bytes [5; 0]%Z) (bytes [5; 0; 0; 1; 0; 0; 0; 0; 0; 0]%Z) "hello"
                H1 H2 eq_refl eq_refl eq_refl eq_refl eq_refl eq_refl eq_refl eq_refl) as HH.
  cbv zeta in HH. destruct HH as (_ & _ & _ & _ & Hw & _). exact Hw.
Defined.

Lemma socks5_connect_request_layout_witness :
  ∃ packet x' hi lo,
    sockets (sendSocks5ConnectRequest 0 (Some "target.example"%string) (Some 443%Z)
               sample_socks_requested) !! 0%nat = Some x' ∧
    written x' = written sample_socks_socket ++ [(packet, None)] ∧
    String.length packet = (7 + String.length "target.example")%nat ∧
    byte_at 0 packet = Some 5%Z ∧ byte_at 1 packet = Some 1%Z ∧
    byte_at 2 packet = Some 0%Z ∧ byte_at 3 packet = Some 3%Z ∧
    byte_at 4 packet = Some (Z.of_nat (String.length "target.example") mod 256)%Z ∧
    String.substring 5 (String.length "target.example") packet = "target.example"%string ∧
    byte_at (5 + String.length "target.example") packet = Some hi ∧
    byte_at (6 + String.length "target.example") packet = Some lo ∧
    (256 * hi + lo = 443 mod 65536)%Z.
Proof.
  assert (H1 : sockets sample_socks_requested !! 0%nat = Some sample_socks_socket)
    by (vm_compute; reflexivity).
  exact (@socks5_connect_request_layout sample_socks_requested 0 sample_socks_socket
           "target.example" 443 H1 eq_refl).
Defined.

Lemma socks5_handshake_with_credentials_witness :
  wire (@run sample_runtime (sample_ready_with sample_socks_auth_options)
          [WsMessage 0 (Some (ConnectMessage "tcp" "c1" (Some "target.example"%string)
                                (Some 443%Z)));
           TcpConnect (length (sockets (sample_ready_with sample_socks_auth_options)));
           TcpData (length (sockets (sample_ready_with sample_socks_auth_options)))
             (bytes [5; 2]%Z);
           TcpData (length (sockets (sample_ready_with sample_socks_auth_options)))
             (bytes [1; 0]%Z);
           TcpData (length (sockets (sample_ready_with sample_socks_auth_options)))
             (bytes [5; 0]%Z)]) =
  wire (sample_ready_with sample_socks_auth_options) ++
    [(0%nat, ConnectResponseMessage true "c1" None);
     (0%nat, ConnectResponseMessage true "c1" None)].
Proof.
  assert (H1 : ws (sample_ready_with sample_socks_auth_options) = Some 0%nat)
    by (vm_compute; reflexivity).
  assert (H2 : connections (sample_ready_with sample_socks_auth_options) !! 0%nat =
               Some sample_connection) by (vm_compute; reflexivity).
  pose proof (@socks5_handshake_with_credentials sample_runtime
                (sample_ready_with sample_socks_auth_options) 0 sample_connection "c1"
                (Some "target.example"%string) (Some 443%Z)
                (bytes [5; 2]%Z) (bytes [1; 0]%Z) (bytes [5; 0]%Z)
                H1 H2 eq_refl eq_refl eq_refl eq_refl eq_refl eq_refl eq_refl eq_refl eq_refl)
    as HH.
  cbv zeta in HH. destruct HH as (_ & _ & Hw). exact Hw.
Defined.

Lemma socks5_handshake_failure_is_reported_witness :
  wire (@run sample_runtime sample_socks_requested
          [TcpData 0 (bytes [5; 5]%Z); TcpError 0 ""; TcpClose 0]) =
  wire sample_socks_requested ++
    outgoing (ConnectResponseMessage false (sock_channelId sample_socks_socket)
                (Some ("SOCKS5 connect failed: " +:+
                       show_number (byte_at 1 (bytes [5; 5]%Z)))%string))
      sample_socks_requested ++
    outgoing (DisconnectMessage (sock_channelId sample_socks_socket)) sample_socks_requested.
Proof.
  assert (H1 : sockets sample_socks_requested !! 0%nat = Some sample_socks_socket)
    by (vm_compute; reflexivity).
  assert (H2 : byte_at 1 (bytes [5; 5]%Z) ≠ Some 0%Z) by (vm_compute; discriminate).
  pose proof (@socks5_handshake_failure_is_reported sample_runtime sample_socks_requested 0
                sample_socks_socket 2 (bytes [5; 5]%Z) ""
                ("SOCKS5 connect failed: " +:+ show_number (byte_at 1 (bytes [5; 5]%Z)))
                H1 eq_refl eq_refl eq_refl
                (or_intror (or_intror (or_intror
                   (conj eq_refl (conj (or_intror H2) eq_refl)))))) as HH.
  cbv zeta in HH. destruct HH as (_ & Hw & _). exact Hw.
Defined.

Lemma http_proxy_reply_may_arrive_in_pieces_witness :
  @run sample_runtime sample_http_requested
    [TcpData 0 "HTTP/1.1 200 Conn"; TcpData 0 ("ection established" +:+ CRLF +:+ CRLF)] =
  @step sample_runtime sample_http_requested
    (TcpData 0 ("HTTP/1.1 200 Conn" +:+ ("ection established" +:+ CRLF +:+ CRLF))).
Proof.
  assert (H1 : sockets sample_http_requested !! 0%nat = Some sample_http_socket)
    by (vm_compute; reflexivity).
  exact (@http_proxy_reply_may_arrive_in_pieces sample_runtime sample_http_requested 0
           sample_http_socket "" "HTTP/1.1 200 Conn"
           ("ection established" +:+ CRLF +:+ CRLF)
           H1 eq_refl eq_refl eq_refl eq_refl eq_refl eq_refl).
Defined.

Lemma http_proxy_handshake_witness :
  wire (@run sample_runtime (sample_ready_with sample_http_options)
          [WsMessage 0 (Some (ConnectMessage "tcp" "c1" (Some "target.example"%string)
                                (Some 443%Z)));
           TcpConnect (length (sockets (sample_ready_with sample_http_options)));
           TcpData (length (sockets (sample_ready_with sample_http_options)))
             sample_http_reply]) =
  wire (sample_ready_with sample_http_options) ++
    [(0%nat, ConnectResponseMessage true "c1" None);
     (0%nat, ConnectResponseMessage true "c1" None)].
Proof.
  assert (H1 : ws (sample_ready_with sample_http_options) = Some 0%nat)
    by (vm_compute; reflexivity).
  assert (H2 : connections (sample_ready_with sample_http_options) !! 0%nat =
               Some sample_connection) by (vm_compute; reflexivity).
  pose proof (@http_proxy_handshake sample_runtime
                (sample_ready_with sample_http_options) 0 sample_connection "c1"
                (Some "target.example"%string) (Some 443%Z) sample_http_reply
                H1 H2 eq_refl eq_refl eq_refl eq_refl eq_refl eq_refl) as HH.
  cbv zeta in HH. destruct HH as (_ & _ & Hw). exact Hw.
Defined.

Lemma udp_datagrams_go_to_their_target_and_back_witness :
  wire (@step sample_runtime
          (@step sample_runtime sample_udp_channel_open
             (WsMessage 0 (Some (DataMessage sample_udp_data))))
          (UdpMessage (udp_socket sample_udp_channel) "answer" "9.9.9.9" 53)) =
  wire sample_udp_channel_open ++
    [(0%nat, DataMessage {| data_protocol := "udp"; data_channelId := "u1";
                            data_payload := "answer"; data_compression := false;
                            data_address := Some "9.9.9.9"%string; data_port := Some 53%Z;
                            data_targetAddr := None; data_targetPort := None |})].
Proof.
  assert (H1 : ws sample_udp_channel_open = Some 0%nat) by (vm_compute; reflexivity).
  assert (H2 : connections sample_udp_channel_open !! 0%nat = Some sample_connection)
    by (vm_compute; reflexivity).
  assert (H3 : udpChannels sample_udp_channel_open !! "u1"%string = Some sample_udp_channel)
    by (vm_compute; reflexivity).
  assert (H4 : sockets sample_udp_channel_open !! udp_socket sample_udp_channel =
               Some sample_udp_socket) by (vm_compute; reflexivity).
  assert (H5 : 53%Z ≠ 0%Z) by discriminate.
  pose proof (@udp_datagrams_go_to_their_target_and_back sample_runtime
                sample_udp_channel_open 0 sample_connection "u1" sample_udp_channel
                sample_udp_socket sample_udp_data "9.9.9.9" 53 "answer" "9.9.9.9" 53
                H1 H2 eq_refl H3 H4 eq_refl eq_refl eq_refl eq_refl eq_refl eq_refl eq_refl
                eq_refl H5) as HH.
  cbv zeta in HH. destruct HH as (_ & _ & _ & Hw). exact Hw.
Defined.

Lemma proxy_address_without_port_is_not_used_by_the_tunnel_witness :
  upstreamProxy
    (withDefaults (@Solver.connectLinkSocks_options sample_platform sample_solver
                     sample_linksocks)) = ""%string ∧
  (∃ c, @Solver.parseProxy sample_platform (Solver.ProxyUrl "http://proxy.example.com") = Some c ∧
        Solver.proxy_port c = 80%Z).
Proof.
  pose proof (@proxy_address_without_port_is_not_used_by_the_tunnel sample_runtime
                sample_platform sample_solver sample_linksocks "http://proxy.example.com"
                sample_proxy_url eq_refl eq_refl eq_refl) as HH.
  cbv zeta in HH. destruct HH as (Hp & Hu & _).
  split; [exact Hu|].
  eexists. split; [vm_compute; reflexivity|]. reflexivity.
Defined.

Lemma waitForResult_first_decisive_turn_witness :
  Solver.waitForResult 120
    (sample_turns ++
     {| Solver.now := 6000; Solver.reply := Solver.Answered 200 (Some sample_result) |} :: []) =
  Solver.Returned sample_result.
Proof.
  assert (H1 : Forall (λ t, Solver.inconclusive 120 t = true) sample_turns)
    by (repeat constructor).
  pose proof (waitForResult_first_decisive_turn 120 sample_turns []
                {| Solver.now := 6000;
                   Solver.reply := Solver.Answered 200 (Some sample_result) |}
                sample_result H1) as HH.
  destruct HH as (_ & _ & Hr). rewrite Hr.
  - reflexivity.
  - reflexivity.
  - reflexivity.
  - discriminate.
  - discriminate.
Defined.

Lemma solved_cookies_are_sent_to_their_host_only_witness :
  Solver.Map_get "other.example.com" (Solver.cookies sample_solved_solver) =
  Solver.Map_get "other.example.com" (Solver.cookies sample_solver).
Proof.
  assert (H1 : NoDup sample_cookies.*1) by (clear; compute_done).
  assert (H2 : @Solver.storeSolution sample_platform
                 (Some "https://shop.example.com/cart"%string) sample_result sample_solver =
               Some sample_solved_solver) by (vm_compute; reflexivity).
  pose proof (@solved_cookies_are_sent_to_their_host_only sample_platform sample_solver
                sample_solved_solver (Some "https://shop.example.com/cart"%string)
                sample_site_url sample_result sample_cookies eq_refl eq_refl H1 H2) as HH.
  cbv zeta in HH. destruct HH as (_ & Hother & _). apply Hother. discriminate.
Defined.
